(** * PyBayesAB, Bernoulli likelihood with a Beta prior

    A shallow embedding of [src/PyBayesAB/conjugated_priors/bernoulli.py]
    (class [BaysBernoulli]) and the properties of its ledger and posterior
    operations.

    Conventions of the embedding.
    - A Python method that mutates [self] is a function from the instance to
      an outcome and the instance left behind; a method that only reads
      returns an outcome.  A raised exception is the [Raised] outcome.
    - Numbers are embedded as Python has them.  A Python [int] is an
      unbounded integer.  A Python [float] is an IEEE 754 binary64 number,
      a [spec_float] of the Standard Library with precision 53 and maximal
      exponent 1024, and its operations round to nearest, ties to even.
      A NumPy integer scalar is a 64-bit integer that wraps around, a NumPy
      float scalar a binary64 number whose division by zero gives an
      infinity or a NaN instead of an exception.
    - NumPy, pandas and SciPy are libraries outside the repository.  The few
      entry points the class calls are embedded by their documented
      behaviour, each in a module of its own ([Np], [Pd], [Scipy]); NumPy
      is taken from release 2.3 on, where [count_nonzero] returns a NumPy
      integer scalar. *)

From Stdlib Require Import List ZArith QArith Qcanon String Bool Lia Permutation.
From Stdlib Require Import SpecFloat.
Import ListNotations.

Set Implicit Arguments.

(** ** Python values, exceptions and outcomes *)

Module Py.

(** The exceptions that the embedded code paths can raise. *)
Inductive exn : Type :=
| AttributeError
| SyntaxError
| ValueError
| KeyError
| IndexError
| TypeError
| ZeroDivisionError
| UnboundLocalError
| OverflowError.

Inductive outcome (A : Type) : Type :=
| Returned (a : A)
| Raised (e : exn).
Arguments Raised {A} e.

Definition bind {A B} (o : outcome A) (k : A -> outcome B) : outcome B :=
  match o with
  | Returned a => k a
  | Raised e => Raised e
  end.

(** *** Binary64 *)

Definition prec : Z := 53.
Definition emax : Z := 1024.

(** An integer as an unrounded binary number, for the operations that round
    once at the end. *)
Definition int_to_sf (z : Z) : spec_float :=
  match z with
  | Z0 => S754_zero false
  | Zpos m => S754_finite false m 0
  | Zneg m => S754_finite true m 0
  end.

(** The binary64 number nearest to an integer; an infinity when the integer
    is beyond the range. *)
Definition nearest_float (z : Z) : spec_float :=
  binary_normalize prec emax z 0 false.

(** [float(z)] for a Python [int]: the nearest float, [OverflowError] when
    the integer is too large to convert. *)
Definition float_of_int (z : Z) : outcome spec_float :=
  match nearest_float z with
  | S754_infinity _ => Raised OverflowError
  | f => Returned f
  end.

Definition is_zero (f : spec_float) : bool :=
  match f with
  | S754_zero _ => true
  | _ => false
  end.

(** *** 64-bit integers of NumPy *)

Definition fits_int64 (z : Z) : bool :=
  ((- 2 ^ 63 <=? z) && (z <? 2 ^ 63))%Z.

Definition wrap_int64 (z : Z) : Z :=
  ((z + 2 ^ 63) mod 2 ^ 64 - 2 ^ 63)%Z.

(** *** Values *)

(** The values held in ledgers and data frames: Python integers and floats,
    NumPy integer and float scalars, and strings. *)
Inductive value : Type :=
| PyInt (z : Z)
| PyFloat (f : spec_float)
| NpInt (z : Z)
| NpFloat (f : spec_float)
| PyStr (s : string).

Definition of_Z (z : Z) : value := PyInt z.

Definition spec_float_eq_dec (x y : spec_float) : {x = y} + {x <> y}.
Proof.
  decide equality;
    try apply Bool.bool_dec; try apply Z.eq_dec; apply Pos.eq_dec.
Defined.

Definition value_eq_dec (x y : value) : {x = y} + {x <> y}.
Proof.
  decide equality;
    [apply Z.eq_dec | apply spec_float_eq_dec | apply Z.eq_dec
    | apply spec_float_eq_dec | apply string_dec].
Defined.

(** [x == y], as the class uses it: against the string tags "A" and "B". *)
Definition eqb (x y : value) : bool :=
  if value_eq_dec x y then true else false.

Definition is_numpy (x : value) : bool :=
  match x with
  | NpInt _ | NpFloat _ => true
  | _ => false
  end.

(** The operand of a float operation as a binary64 number.  A Python [int]
    that is too large makes the conversion raise. *)
Definition to_float (x : value) : outcome spec_float :=
  match x with
  | PyInt z => float_of_int z
  | PyFloat f => Returned f
  | NpInt z => Returned (nearest_float z)
  | NpFloat f => Returned f
  | PyStr _ => Raised TypeError
  end.

(** The operand of a 64-bit integer operation.  A Python [int] out of the
    bounds of the NumPy integer makes the conversion raise. *)
Definition to_int64 (x : value) : outcome Z :=
  match x with
  | PyInt z => if fits_int64 z then Returned z else Raised OverflowError
  | NpInt z => Returned z
  | _ => Raised TypeError
  end.

(** The float result of an operation: a NumPy scalar as soon as one operand
    is a NumPy scalar. *)
Definition box_float (x y : value) (f : spec_float) : value :=
  if is_numpy x || is_numpy y then NpFloat f else PyFloat f.

(** [x + y].  Strings concatenate; a string and a number is a [TypeError].
    Two Python integers add exactly.  With a NumPy integer and no float the
    sum is a NumPy integer that wraps around.  In every other case both
    operands become floats and the sum is rounded. *)
Definition add (x y : value) : outcome value :=
  match x, y with
  | PyStr s, PyStr t => Returned (PyStr (s ++ t))
  | PyStr _, _ | _, PyStr _ => Raised TypeError
  | PyInt a, PyInt b => Returned (PyInt (a + b))
  | NpInt _, NpInt _ | NpInt _, PyInt _ | PyInt _, NpInt _ =>
      bind (to_int64 x) (fun a =>
      bind (to_int64 y) (fun b =>
      Returned (NpInt (wrap_int64 (a + b)))))
  | _, _ =>
      bind (to_float x) (fun f =>
      bind (to_float y) (fun g =>
      Returned (box_float x y (SFadd prec emax f g))))
  end.

(** [x / y].  Two Python integers give the float nearest to the exact
    quotient, [ZeroDivisionError] for a zero divisor and [OverflowError]
    when the quotient is beyond the floats.  Python floats divide as
    binary64 numbers, with [ZeroDivisionError] for a zero divisor.  With a
    NumPy scalar the operands become binary64 numbers (through the 64-bit
    integer when no float takes part) and a zero divisor gives an infinity
    or a NaN. *)
Definition truediv (x y : value) : outcome value :=
  match x, y with
  | PyStr _, _ | _, PyStr _ => Raised TypeError
  | PyInt a, PyInt b =>
      if (b =? 0)%Z then Raised ZeroDivisionError
      else
        match SFdiv prec emax (int_to_sf a) (int_to_sf b) with
        | S754_infinity _ => Raised OverflowError
        | f => Returned (PyFloat f)
        end
  | NpInt _, NpInt _ | NpInt _, PyInt _ | PyInt _, NpInt _ =>
      bind (to_int64 x) (fun a =>
      bind (to_int64 y) (fun b =>
      Returned (NpFloat (SFdiv prec emax (nearest_float a) (nearest_float b)))))
  | _, _ =>
      bind (to_float x) (fun f =>
      bind (to_float y) (fun g =>
      if is_numpy x || is_numpy y then Returned (NpFloat (SFdiv prec emax f g))
      else if is_zero g then Raised ZeroDivisionError
      else Returned (PyFloat (SFdiv prec emax f g))))
  end.

End Py.
Import Py.

Notation "x <- c1 ;; c2" := (Py.bind c1 (fun x => c2))
  (at level 61, c1 at next level, right associativity).

(** ** NumPy: object arrays *)

Module Np.

(** [np.array(data, dtype="object")] of a list of lists of scalars.  Rows of
    one common length give a two-dimensional array; the empty list, and rows
    of different lengths, give a one-dimensional array. *)
Inductive ndarray : Type :=
| Array1 (len : nat)
| Array2 (ncols : nat) (rows : list (list value)).

Definition array (data : list (list value)) : ndarray :=
  match data with
  | [] => Array1 0
  | r :: rs =>
      if forallb (fun r' => Nat.eqb (List.length r') (List.length r)) rs
      then Array2 (List.length r) data
      else Array1 (List.length data)
  end.

(** [a[:, j]] *)
Definition column (a : ndarray) (j : nat) : outcome (list value) :=
  match a with
  | Array1 _ => Raised IndexError
  | Array2 ncols rows =>
      if Nat.ltb j ncols
      then Returned (map (fun r => nth j r (PyInt 0)) rows)
      else Raised IndexError
  end.

(** [np.sum] of a one-dimensional object array: the entries are added
    from the left with Python's [+]. *)
Definition sum (col : list value) : outcome value :=
  match col with
  | [] => Returned (PyInt 0)
  | x :: xs => fold_left (fun acc y => a <- acc ;; Py.add a y) xs (Returned x)
  end.

Fixpoint accumulate (acc : value) (xs : list value) : outcome (list value) :=
  match xs with
  | [] => Returned []
  | y :: ys =>
      s <- Py.add acc y ;;
      rest <- accumulate s ys ;;
      Returned (s :: rest)
  end.

(** [np.cumsum] of a one-dimensional object array. *)
Definition cumsum (col : list value) : outcome (list value) :=
  match col with
  | [] => Returned []
  | x :: xs => rest <- accumulate x xs ;; Returned (x :: rest)
  end.

(** [np.count_nonzero] of an array of integers: the number of entries that
    are not zero.  NumPy (from release 2.3 on) hands the count back as an
    integer scalar of its own, not as a Python integer; the caller wraps
    the result in [NpInt]. *)
Definition count_nonzero (draws : list Z) : Z :=
  Z.of_nat (List.length (filter (fun d => negb (Z.eqb d 0)) draws)).

End Np.

(** ** pandas: data frames *)

Module Pd.

(** A frame is its column labels and its rows, one cell per column, each
    cell given as the Python scalar that [values.tolist()] hands out for
    it.  The index plays no role in the class and is left out. *)
Record DataFrame : Type := {
  columns : list string;
  values : list (list value)
}.

Definition well_formed (df : DataFrame) : Prop :=
  NoDup (columns df) /\
  Forall (fun r => List.length r = List.length (columns df)) (values df).

Fixpoint position (name : string) (cols : list string) : option nat :=
  match cols with
  | [] => None
  | c :: cs =>
      if String.eqb c name then Some O
      else option_map S (position name cs)
  end.

(** [df[name]] *)
Definition getitem (df : DataFrame) (name : string) : outcome (list value) :=
  match position name (columns df) with
  | None => Raised KeyError
  | Some j => Returned (map (fun r => nth j r (PyInt 0)) (values df))
  end.

(** [series.unique()]: the distinct values in order of first appearance. *)
Fixpoint unique (l : list value) : list value :=
  match l with
  | [] => []
  | x :: xs => x :: filter (fun y => negb (Py.eqb y x)) (unique xs)
  end.

(** [x in a] for an array [a] *)
Definition contains (x : value) (a : list value) : bool :=
  existsb (fun y => Py.eqb y x) a.

(** [series == x] *)
Definition series_eq (col : list value) (x : value) : list bool :=
  map (fun y => Py.eqb y x) col.

(** [df[mask]] for a boolean mask *)
Definition select (df : DataFrame) (mask : list bool) : DataFrame :=
  {| columns := columns df;
     values := map fst (filter snd (combine (values df) mask)) |}.

(** [df.drop(columns=name)] *)
Definition drop (df : DataFrame) (name : string) : DataFrame :=
  {| columns := filter (fun c => negb (String.eqb c name)) (columns df);
     values :=
       map (fun r =>
              map fst
                (filter (fun cell => negb (String.eqb (snd cell) name))
                   (combine r (columns df))))
         (values df) |}.

(** [df.values.tolist()] *)
Definition tolist (df : DataFrame) : list (list value) := values df.

End Pd.

(** ** SciPy: the Bernoulli sampler *)

Module Scipy.

(** [bernoulli.rvs(p, size=n)].  The distribution checks its shape
    parameter and raises [ValueError] outside [[0, 1]]; a negative size is
    refused with [ValueError] by the generator.  Otherwise [n] draws come
    back, each 0 or 1.  The random state is made explicit as a stream [u]
    of uniform variates; draw [i] is a success when [u i < p]. *)
Definition bernoulli_rvs (u : nat -> Qc) (p : Qc) (size : Z)
  : outcome (list Z) :=
  if negb (Qle_bool 0 p && Qle_bool p 1) then Raised ValueError
  else if (size <? 0)%Z then Raised ValueError
  else Returned
         (map (fun i => if Qle_bool p (u i) then 0%Z else 1%Z)
            (seq 0 (Z.to_nat size))).

End Scipy.

(** ** The class [BaysBernoulli] *)

(** A ledger is a Python list of batches; a batch is the list
    [[hits, fails]].  Both ledgers start with the very same [prior] list
    object; no method writes into a batch, so the sharing is not
    observable and the ledgers are embedded as values. *)
Definition ledger : Type := list (list value).

Record BaysBernoulli : Type := {
  prior : list value;
  dataA : ledger;
  dataB : ledger;
  data : option Pd.DataFrame
}.

Definition set_data (df : Pd.DataFrame) (self : BaysBernoulli) : BaysBernoulli :=
  {| prior := prior self; dataA := dataA self; dataB := dataB self;
     data := Some df |}.

(** [self.dataA.extend(rows)]; [self.dataA.append(b)] is [extend [b]]. *)
Definition extend_dataA (rows : ledger) (self : BaysBernoulli) : BaysBernoulli :=
  {| prior := prior self; dataA := dataA self ++ rows; dataB := dataB self;
     data := data self |}.

Definition extend_dataB (rows : ledger) (self : BaysBernoulli) : BaysBernoulli :=
  {| prior := prior self; dataA := dataA self; dataB := dataB self ++ rows;
     data := data self |}.

(** [a ** b] for two Python integers.  A negative exponent gives a float,
    the one nearest to the exact power, as the C library computes it for
    [10 ** -3]. *)
Definition int_pow (a b : Z) : outcome value :=
  if (b <? 0)%Z then Py.truediv (of_Z 1) (of_Z (a ^ (- b)))
  else Returned (of_Z (a ^ b)).

(** [BaysBernoulli(prior_type)] *)
Definition __init__ (prior_type : string) : outcome BaysBernoulli :=
  prior <-
    (if String.eqb prior_type "Bayes-Laplace" then
       Returned [of_Z 1; of_Z 1]
     else if String.eqb prior_type "Jeffreys" then
       a <- Py.truediv (of_Z 1) (of_Z 2) ;;
       b <- Py.truediv (of_Z 1) (of_Z 2) ;;
       Returned [a; b]
     else if String.eqb prior_type "Neutral" then
       a <- Py.truediv (of_Z 1) (of_Z 3) ;;
       b <- Py.truediv (of_Z 1) (of_Z 3) ;;
       Returned [a; b]
     else if String.eqb prior_type "Haldane" then
       a <- int_pow 10 (-3) ;;
       b <- int_pow 10 (-3) ;;
       Returned [a; b]
     else Raised SyntaxError) ;;
  Returned {| prior := prior;
              dataA := [] ++ [prior];
              dataB := [] ++ [prior];
              data := None |}.

Section Methods.

(** [DataFrame.append(other)], seen from the caller that throws its result
    away: it never changes the frame it is called on; depending on the
    pandas release it returns a new frame ([None] here) or raises. *)
Variable DataFrame_append : Pd.DataFrame -> list value -> option exn.

(** NumPy's global random state, as the stream of uniform variates that the
    next sampling call consumes. *)
Variable random_state : nat -> Qc.

Definition add_data (df : Pd.DataFrame) (group_col_name : string)
    (self : BaysBernoulli) : outcome unit * BaysBernoulli :=
  match Pd.getitem df group_col_name with
  | Raised e => (Raised e, self)
  | Returned col =>
      if negb (forallb (fun x => Pd.contains x (Pd.unique col))
                 [PyStr "A"; PyStr "B"])
      then (Raised ValueError, self)
      else
        let self := set_data df self in
        let self :=
          extend_dataA
            (Pd.tolist
               (Pd.drop (Pd.select df (Pd.series_eq col (PyStr "A")))
                  group_col_name)) self in
        let self :=
          extend_dataB
            (Pd.tolist
               (Pd.drop (Pd.select df (Pd.series_eq col (PyStr "B")))
                  group_col_name)) self in
        (Returned tt, self)
  end.

(** Group A goes through [self.data], the attribute that holds [None] or
    the ingested frame, not through [self.dataA]. *)
Definition add_experiment (hits fails : value) (group : string)
    (self : BaysBernoulli) : outcome unit * BaysBernoulli :=
  if String.eqb group "A" then
    match data self with
    | None => (Raised AttributeError, self)
    | Some df =>
        match DataFrame_append df [hits; fails] with
        | Some e => (Raised e, self)
        | None => (Returned tt, self)
        end
    end
  else if String.eqb group "B" then
    (Returned tt, extend_dataB [[hits; fails]] self)
  else (Returned tt, self).

(** [hits] is the NumPy integer scalar that [count_nonzero] returns, and
    so is [n - hits]; [n] is the size of an array that was built, so it is
    within the NumPy integer and the difference neither raises nor wraps. *)
Definition add_rand_experiment (n : Z) (p : Qc) (group : string)
    (self : BaysBernoulli) : outcome unit * BaysBernoulli :=
  match Scipy.bernoulli_rvs random_state p n with
  | Raised e => (Raised e, self)
  | Returned draws =>
      let hits := Np.count_nonzero draws in
      if String.eqb group "A" then
        (Returned tt, extend_dataA [[NpInt hits; NpInt (n - hits)]] self)
      else if String.eqb group "B" then
        (Returned tt, extend_dataB [[NpInt hits; NpInt (n - hits)]] self)
      else (Returned tt, self)
  end.

End Methods.

(** [np.array(None, dtype="object")] is zero-dimensional, so indexing it with
    [[:, 0]] raises [IndexError]; that is the [None] branch below. *)
Definition post_parameters (data : option ledger) (group : string)
    (self : BaysBernoulli) : outcome (value * value) :=
  let data :=
    match data with
    | Some d => Some d
    | None =>
        if String.eqb group "A" then Some (dataA self)
        else if String.eqb group "B" then Some (dataB self)
        else None
    end in
  match data with
  | None => Raised IndexError
  | Some d =>
      let data := Np.array d in
      col0 <- Np.column data 0 ;;
      a <- Np.sum col0 ;;
      col1 <- Np.column data 1 ;;
      b <- Np.sum col1 ;;
      Returned (a, b)
  end.

Definition post_pred (data : option ledger) (group : string)
    (self : BaysBernoulli) : outcome value :=
  ab <- post_parameters data group self ;;
  s <- Py.add (fst ab) (snd ab) ;;
  Py.truediv (fst ab) s.

Definition make_cum_post_para (group : string) (self : BaysBernoulli)
    : outcome (list value * list value) :=
  data <-
    (if String.eqb group "A" then Returned (dataA self)
     else if String.eqb group "B" then Returned (dataB self)
     else Raised UnboundLocalError) ;;
  let data := Np.array data in
  col0 <- Np.column data 0 ;;
  cumsum_alpha <- Np.cumsum col0 ;;
  col1 <- Np.column data 1 ;;
  cumsum_beta <- Np.cumsum col1 ;;
  Returned (cumsum_alpha, cumsum_beta).

(** ** Vocabulary of the specification *)

(** The binary64 numbers 0.5, the one nearest to 1/3, the one nearest to
    1/1000, and 1.0, by mantissa and exponent. *)
Definition float_half : spec_float := S754_finite false 4503599627370496 (-53).
Definition float_third : spec_float := S754_finite false 6004799503160661 (-54).
Definition float_milli : spec_float := S754_finite false 4611686018427388 (-62).
Definition float_one : spec_float := S754_finite false 4503599627370496 (-52).

(** The four named priors with their pseudo-counts, as the specification
    lists them: (1, 1), (0.5, 0.5), (1/3, 1/3) and (1e-3, 1e-3). *)
Definition presets : list (string * (value * value)) :=
  [ ("Bayes-Laplace"%string, (PyInt 1, PyInt 1));
    ("Jeffreys"%string, (PyFloat float_half, PyFloat float_half));
    ("Neutral"%string, (PyFloat float_third, PyFloat float_third));
    ("Haldane"%string, (PyFloat float_milli, PyFloat float_milli)) ].

Definition recognised_priors : list string := map fst presets.

(** A ledger of trial batches, each a pair (hits, fails) of Python
    integers, as the Python list of two-element lists that the class
    stores. *)
Definition numeric (l : list (Z * Z)) : ledger :=
  map (fun hf => [PyInt (fst hf); PyInt (snd hf)]) l.

(** The sum of a sequence of integers. *)
Definition total (l : list Z) : Z := fold_right Z.add 0%Z l.

(** The pair of sums of a sequence of batches. *)
Definition aggregate (l : list (Z * Z)) : Z * Z :=
  (total (map fst l), total (map snd l)).

(** [running acc xs]: the sums [acc + x1], [acc + x1 + x2], ... *)
Fixpoint running (acc : Z) (xs : list Z) : list Z :=
  match xs with
  | [] => []
  | y :: ys => (acc + y)%Z :: running (acc + y)%Z ys
  end.

(** A float between 0 and 1, the ends included: the zero, or a positive
    number m * 2^e with m <= 2^(-e). *)
Definition unit_float (r : spec_float) : Prop :=
  match r with
  | S754_zero false => True
  | S754_finite false m e => (e <= 0)%Z /\ (Zpos m <= 2 ^ (- e))%Z
  | _ => False
  end.

(** A positive number of the binary64 format: m * 2^e with m below 2^53
    and e at least -1074. *)
Definition positive_float (f : spec_float) : Prop :=
  match f with
  | S754_finite false m e => (-1074 <= e)%Z /\ (Zpos m < 2 ^ 53)%Z
  | _ => False
  end.

(** A float strictly between 0 and 1. *)
Definition open_unit_float (r : spec_float) : Prop :=
  match r with
  | S754_finite false m e => (e <= 0)%Z /\ (Zpos m < 2 ^ (- e))%Z
  | _ => False
  end.



(** A ledger with a seed of two floats, as the Jeffreys, Neutral and
    Haldane priors give it, followed by batches of Python integers. *)
Definition seeded (alpha0 beta0 : spec_float) (rest : list (Z * Z)) : ledger :=
  [PyFloat alpha0; PyFloat beta0] :: numeric rest.

(** Whether a Python integer is within the range of the floats, so that
    adding it to a float does not raise. *)
Definition converts (z : Z) : bool :=
  match Py.nearest_float z with
  | S754_infinity _ => false
  | _ => true
  end.

(** The float sum of a float and a sequence of integers, accumulated from
    left to right, each integer first rounded to the nearest float. *)
Definition float_total (acc : spec_float) (zs : list Z) : spec_float :=
  fold_left (fun s z => SFadd prec emax s (Py.nearest_float z)) zs acc.

(** [float_running acc zs]: the float sums [acc + z1], [acc + z1 + z2],
    ... *)
Fixpoint float_running (acc : spec_float) (zs : list Z) : list spec_float :=
  match zs with
  | [] => []
  | z :: zs' =>
      SFadd prec emax acc (Py.nearest_float z)
      :: float_running (SFadd prec emax acc (Py.nearest_float z)) zs'
  end.

(** The number of successes among [n] Bernoulli trials with parameter [p]
    drawn from the variates [u]: trial [i] succeeds when [u i < p]. *)
Definition successes (u : nat -> Qc) (p : Qc) (n : Z) : Z :=
  Z.of_nat
    (List.length
       (filter (fun i => negb (Qle_bool p (u i))) (seq 0 (Z.to_nat n)))).

(** The ledger that a posterior operation reads: the explicit override when
    there is one, the ledger of group A or B otherwise. *)
Definition reads (data : option ledger) (group : string)
    (self : BaysBernoulli) (l : ledger) : Prop :=
  data = Some l \/
  (data = None /\ group = "A"%string /\ dataA self = l) \/
  (data = None /\ group = "B"%string /\ dataB self = l).

(** The instance that [BaysBernoulli()] builds. *)
Definition fresh : BaysBernoulli :=
  {| prior := [of_Z 1; of_Z 1];
     dataA := [[of_Z 1; of_Z 1]];
     dataB := [[of_Z 1; of_Z 1]];
     data := None |}.

(** The instance that [BaysBernoulli('Jeffreys')] builds. *)
Definition fresh_jeffreys : BaysBernoulli :=
  {| prior := [PyFloat float_half; PyFloat float_half];
     dataA := [[PyFloat float_half; PyFloat float_half]];
     dataB := [[PyFloat float_half; PyFloat float_half]];
     data := None |}.

(** The group tag of a row, read in the column at position [j]. *)
Definition group_tag (j : nat) (r : list value) : value := nth j r (PyInt 0).

(** The batch fields of a row: its cells other than the one at position
    [j]. *)
Definition batch_fields (j : nat) (r : list value) : list value :=
  firstn j r ++ skipn (S j) r.

(** The batches that the rows tagged [tag] contribute, in row order. *)
Definition rows_of_group (j : nat) (tag : string) (rows : list (list value))
  : ledger :=
  map (batch_fields j)
    (filter (fun r => Py.eqb (group_tag j r) (PyStr tag)) rows).

Definition tag_appears (j : nat) (tag : string) (rows : list (list value))
  : Prop :=
  exists r, In r rows /\ group_tag j r = PyStr tag.

(** A table in the layout of the module's demonstration: a group column
    followed by hits and fails. *)
Definition demo_frame : Pd.DataFrame :=
  {| Pd.columns := ["group"%string; "hits"%string; "fails"%string];
     Pd.values :=
       [ [PyStr "A"; of_Z 8; of_Z 2];
         [PyStr "B"; of_Z 5; of_Z 5];
         [PyStr "A"; of_Z 3; of_Z 7] ] |}.

(** The same table with group B missing. *)
Definition one_group_frame : Pd.DataFrame :=
  {| Pd.columns := ["group"%string; "hits"%string; "fails"%string];
     Pd.values := [ [PyStr "A"; of_Z 8; of_Z 2] ] |}.

(** A random state whose variates are all one half. *)
Definition halves : nat -> Qc := fun _ => Q2Qc (1 # 2).

(** A pandas release in which [DataFrame.append] still returns a frame. *)
Definition append_returns : Pd.DataFrame -> list value -> option exn :=
  fun _ _ => None.

(** ** Calls and runs *)

(** A call of one of the three methods that write to the instance.  A
    simulated-trials call carries the random state it finds. *)
Inductive call : Type :=
| AddData (df : Pd.DataFrame) (group_col_name : string)
| AddExperiment (hits fails : value) (group : string)
| AddRandExperiment (random_state : nat -> Qc) (n : Z) (p : Qc)
    (group : string).

Definition perform (DataFrame_append : Pd.DataFrame -> list value -> option exn)
    (c : call) (self : BaysBernoulli) : outcome unit * BaysBernoulli :=
  match c with
  | AddData df group_col_name => add_data df group_col_name self
  | AddExperiment hits fails group =>
      add_experiment DataFrame_append hits fails group self
  | AddRandExperiment random_state n p group =>
      add_rand_experiment random_state n p group self
  end.

(** The instance after a sequence of calls; a call that raises is caught by
    the caller, who goes on with the instance as the call left it. *)
Fixpoint run (DataFrame_append : Pd.DataFrame -> list value -> option exn)
    (cs : list call) (self : BaysBernoulli) : BaysBernoulli :=
  match cs with
  | [] => self
  | c :: cs' => run DataFrame_append cs' (snd (perform DataFrame_append c self))
  end.

(** An observed-count call from its three arguments. *)
Definition observed (args : value * value * string) : call :=
  AddExperiment (fst (fst args)) (snd (fst args)) (snd args).

(** A ledger all of whose batches have [m] fields, and that has at least one
    batch. *)
Definition rectangular (d : ledger) (m : nat) : Prop :=
  d <> [] /\ Forall (fun r => List.length r = m) d.

Definition nonneg_batch (b : Z * Z) : Prop :=
  (0 <= fst b)%Z /\ (0 <= snd b)%Z.

(** A ledger of batches of Python integers whose seed has strictly positive
    pseudo-counts and whose later batches have counts that are not
    negative. *)
Definition positive_seeded (l : ledger) : Prop :=
  exists seed rest,
    l = numeric (seed :: rest) /\
    (0 < fst seed)%Z /\ (0 < snd seed)%Z /\
    Forall nonneg_batch rest.

(** A table of counts: well formed, with the group column present and, in
    every row, two batch fields that are Python integers and not
    negative. *)
Definition counts_frame (df : Pd.DataFrame) (group_col_name : string) : Prop :=
  Pd.well_formed df /\
  exists j,
    Pd.position group_col_name (Pd.columns df) = Some j /\
    Forall
      (fun r => exists b, batch_fields j r = [PyInt (fst b); PyInt (snd b)] /\
                          nonneg_batch b)
      (Pd.values df).

(** The calls that hand Python integer counts to the ledgers: an
    observed-count call with integers that are not negative, the ingestion
    of a table of counts. *)
Definition counts_call (c : call) : Prop :=
  match c with
  | AddData df group_col_name => counts_frame df group_col_name
  | AddExperiment (PyInt h) (PyInt f) _ => nonneg_batch (h, f)
  | _ => False
  end.

(** The number of rows that carry tag [tag] in the column at position [j]. *)
Definition count_tag (j : nat) (tag : string) (rows : list (list value)) : nat :=
  List.length (filter (fun r => Py.eqb (group_tag j r) (PyStr tag)) rows).

(** A table with one column more than hits and fails. *)
Definition wide_frame : Pd.DataFrame :=
  {| Pd.columns :=
       ["group"%string; "hits"%string; "fails"%string; "day"%string];
     Pd.values :=
       [ [PyStr "A"; of_Z 8; of_Z 2; of_Z 1];
         [PyStr "B"; of_Z 5; of_Z 5; of_Z 1] ] |}.

(** A table with a row of a third group. *)
Definition three_group_frame : Pd.DataFrame :=
  {| Pd.columns := ["group"%string; "hits"%string; "fails"%string];
     Pd.values :=
       [ [PyStr "A"; of_Z 8; of_Z 2];
         [PyStr "C"; of_Z 4; of_Z 4];
         [PyStr "B"; of_Z 5; of_Z 5] ] |}.

(** ** Sampling the posterior *)

(** [a - b] for two one-dimensional arrays of floats: elementwise when the
    lengths agree, an array of length one being stretched to the other's
    length; [ValueError] otherwise. *)
Definition np_subtract (a b : list spec_float) : outcome (list spec_float) :=
  if Nat.eqb (List.length a) (List.length b) then
    Returned (map (fun xy => SFsub prec emax (fst xy) (snd xy)) (combine a b))
  else
    match a, b with
    | [x], _ => Returned (map (fun y => SFsub prec emax x y) b)
    | _, [y] => Returned (map (fun x => SFsub prec emax x y) a)
    | _, _ => Raised ValueError
    end.

Section Sampling.

(** The state of the random generator that SciPy draws from. *)
Variable rng : Type.

(** [beta.rvs(a, b, size=n)] at a generator state: the draws, or the
    exception, and the state left behind. *)
Variable beta_rvs :
  rng -> value -> value -> Z -> outcome (list spec_float) * rng.

Definition make_rvs (data : option ledger) (group : string) (N_sample : Z)
    (self : BaysBernoulli) (g : rng) : outcome (list spec_float) * rng :=
  match post_parameters data group self with
  | Raised e => (Raised e, g)
  | Returned ab => beta_rvs g (fst ab) (snd ab) N_sample
  end.

Definition make_diff (N_sample : Z) (self : BaysBernoulli) (g : rng)
    : outcome (list spec_float) * rng :=
  match make_rvs None "A" N_sample self g with
  | (Raised e, g1) => (Raised e, g1)
  | (Returned rvs_A, g1) =>
      match make_rvs None "B" N_sample self g1 with
      | (Raised e, g2) => (Raised e, g2)
      | (Returned rvs_B, g2) => (np_subtract rvs_A rvs_B, g2)
      end
  end.

End Sampling.

(** A stand-in sampler for examples: on Python integers a > 0 and b > 0
    and a size n >= 0 every draw is the mean a / (a + b), and the state
    counts the calls that returned. *)
Definition mean_sampler (g : nat) (a b : value) (n : Z)
  : outcome (list spec_float) * nat :=
  match a, b with
  | PyInt a, PyInt b =>
      if ((0 <? a) && (0 <? b) && (0 <=? n))%Z then
        (Returned
           (repeat (SFdiv prec emax (int_to_sf a) (int_to_sf (a + b)))
              (Z.to_nat n)), S g)
      else (Raised ValueError, g)
  | _, _ => (Raised TypeError, g)
  end.

(** ** Sums over ledgers of Python integers *)

Lemma array_numeric (b : Z * Z) (l : list (Z * Z)) :
  Np.array (numeric (b :: l)) = Np.Array2 2 (numeric (b :: l)).
Proof.
  unfold Np.array; cbn [numeric map List.length].
  replace (forallb _ (map _ l)) with true; [reflexivity|].
  symmetry; apply forallb_forall.
  intros r Hr; apply in_map_iff in Hr as [hf [<- _]]; reflexivity.
Qed.

Lemma column0_numeric (l : list (Z * Z)) :
  map (fun r => nth 0 r (PyInt 0)) (numeric l) = map PyInt (map fst l).
Proof.
  unfold numeric; rewrite !map_map; reflexivity.
Qed.

Lemma column1_numeric (l : list (Z * Z)) :
  map (fun r => nth 1 r (PyInt 0)) (numeric l) = map PyInt (map snd l).
Proof.
  unfold numeric; rewrite !map_map; reflexivity.
Qed.

Lemma fold_add_numbers (xs : list Z) (acc : Z) :
  fold_left (fun o y => a <- o ;; Py.add a y) (map PyInt xs)
    (Returned (PyInt acc))
  = Returned (PyInt (acc + total xs)).
Proof.
  revert acc; induction xs as [|x xs IH]; intros acc;
    cbn [fold_left map Py.bind Py.add total fold_right].
  - do 2 f_equal; lia.
  - rewrite IH; do 2 f_equal; unfold total; lia.
Qed.

Lemma sum_numbers (x : Z) (xs : list Z) :
  Np.sum (map PyInt (x :: xs)) = Returned (PyInt (total (x :: xs))).
Proof.
  cbn [Np.sum map]; rewrite fold_add_numbers; reflexivity.
Qed.

Lemma total_app (xs ys : list Z) :
  total (xs ++ ys) = (total xs + total ys)%Z.
Proof.
  unfold total; induction xs as [|x xs IH]; cbn [app fold_right];
    [reflexivity | rewrite IH; lia].
Qed.


Lemma post_parameters_numeric (data : option ledger) (group : string)
    (self : BaysBernoulli) (b : Z * Z) (l : list (Z * Z)) :
  reads data group self (numeric (b :: l)) ->
  post_parameters data group self
  = Returned (PyInt (fst (aggregate (b :: l))), PyInt (snd (aggregate (b :: l)))).
Proof.
  intros Hreads.
  assert (Hsel :
    post_parameters data group self
    = (let arr := Np.array (numeric (b :: l)) in
       col0 <- Np.column arr 0 ;; a <- Np.sum col0 ;;
       col1 <- Np.column arr 1 ;; b <- Np.sum col1 ;; Returned (a, b))).
  { unfold post_parameters.
    destruct Hreads as [-> | [(-> & -> & <-) | (-> & -> & <-)]]; reflexivity. }
  rewrite Hsel, array_numeric; cbv zeta.
  cbn [Np.column Nat.ltb Nat.leb Py.bind].
  rewrite column0_numeric, column1_numeric.
  change (map fst (b :: l)) with (fst b :: map fst l).
  change (map snd (b :: l)) with (snd b :: map snd l).
  rewrite sum_numbers; cbn [Py.bind].
  rewrite sum_numbers; reflexivity.
Qed.

(** ** Running sums over ledgers of Python integers *)

Lemma accumulate_numbers (xs : list Z) (acc : Z) :
  Np.accumulate (PyInt acc) (map PyInt xs)
  = Returned (map PyInt (running acc xs)).
Proof.
  revert acc; induction xs as [|x xs IH]; intros acc.
  - reflexivity.
  - cbn [map Np.accumulate Py.add Py.bind running].
    rewrite IH; reflexivity.
Qed.

Lemma cumsum_numbers (x : Z) (xs : list Z) :
  Np.cumsum (map PyInt (x :: xs)) = Returned (map PyInt (x :: running x xs)).
Proof.
  cbn [map Np.cumsum]; rewrite accumulate_numbers; reflexivity.
Qed.




Lemma running_last (xs : list Z) (acc : Z) :
  last (acc :: running acc xs) 0%Z = (acc + total xs)%Z.
Proof.
  revert acc; induction xs as [|x xs IH]; intros acc.
  - cbn [running last]; unfold total; cbn [fold_right]; lia.
  - cbn [running].
    change (last (acc :: (acc + x)%Z :: running (acc + x)%Z xs) 0%Z)
      with (last ((acc + x)%Z :: running (acc + x)%Z xs) 0%Z).
    rewrite IH; unfold total; cbn [fold_right]; lia.
Qed.



Lemma make_cum_post_para_numeric (group : string) (self : BaysBernoulli)
    (b : Z * Z) (l : list (Z * Z)) :
  reads None group self (numeric (b :: l)) ->
  make_cum_post_para group self
  = Returned (map PyInt (fst b :: running (fst b) (map fst l)),
              map PyInt (snd b :: running (snd b) (map snd l))).
Proof.
  intros Hreads.
  assert (Hsel :
    make_cum_post_para group self
    = (let arr := Np.array (numeric (b :: l)) in
       col0 <- Np.column arr 0 ;; ca <- Np.cumsum col0 ;;
       col1 <- Np.column arr 1 ;; cb <- Np.cumsum col1 ;; Returned (ca, cb))).
  { unfold make_cum_post_para.
    destruct Hreads as [Habs | [(_ & -> & <-) | (_ & -> & <-)]];
      [discriminate Habs | reflexivity | reflexivity]. }
  rewrite Hsel, array_numeric; cbv zeta.
  cbn [Np.column Nat.ltb Nat.leb Py.bind].
  rewrite column0_numeric, column1_numeric.
  change (map fst (b :: l)) with (fst b :: map fst l).
  change (map snd (b :: l)) with (snd b :: map snd l).
  rewrite cumsum_numbers; cbn [Py.bind].
  rewrite cumsum_numbers; reflexivity.
Qed.

(** ** Sums over ledgers with a float seed *)

Lemma fold_add_raised (xs : list value) (e : exn) :
  fold_left (fun o y => a <- o ;; Py.add a y) xs (Raised e) = Raised e.
Proof.
  induction xs as [|x xs IH]; cbn; [reflexivity | exact IH].
Qed.

Lemma add_float_int (f : spec_float) (z : Z) :
  Py.add (PyFloat f) (PyInt z)
  = if converts z
    then Returned (PyFloat (SFadd prec emax f (Py.nearest_float z)))
    else Raised OverflowError.
Proof.
  unfold converts; cbn [Py.add Py.to_float Py.bind Py.box_float Py.is_numpy
                          orb Py.float_of_int].
  unfold Py.float_of_int.
  destruct (Py.nearest_float z); reflexivity.
Qed.

Lemma fold_add_floats (zs : list Z) (acc : spec_float) :
  fold_left (fun o y => a <- o ;; Py.add a y) (map PyInt zs)
    (Returned (PyFloat acc))
  = if forallb converts zs
    then Returned (PyFloat (float_total acc zs))
    else Raised OverflowError.
Proof.
  revert acc; induction zs as [|z zs IH]; intros acc; [reflexivity|].
  cbn [map fold_left forallb float_total Py.bind].
  rewrite add_float_int.
  destruct (converts z); cbn [andb].
  - apply IH.
  - apply fold_add_raised.
Qed.

Lemma accumulate_floats (zs : list Z) (acc : spec_float) :
  Np.accumulate (PyFloat acc) (map PyInt zs)
  = if forallb converts zs
    then Returned (map PyFloat (float_running acc zs))
    else Raised OverflowError.
Proof.
  revert acc; induction zs as [|z zs IH]; intros acc; [reflexivity|].
  cbn [map Np.accumulate forallb float_running].
  rewrite add_float_int.
  destruct (converts z); cbn [andb Py.bind]; [|reflexivity].
  rewrite IH; destruct (forallb converts zs); reflexivity.
Qed.




Lemma float_running_last (zs : list Z) (acc d : spec_float) :
  last (acc :: float_running acc zs) d = float_total acc zs.
Proof.
  revert acc d; induction zs as [|z zs IH]; intros acc d; [reflexivity|].
  cbn [float_running].
  change (last (acc :: ?x :: ?l) d) with (last (x :: l) d).
  rewrite IH; reflexivity.
Qed.

Lemma array_seeded (alpha0 beta0 : spec_float) (l : list (Z * Z)) :
  Np.array (seeded alpha0 beta0 l) = Np.Array2 2 (seeded alpha0 beta0 l).
Proof.
  unfold Np.array, seeded; cbn [List.length].
  replace (forallb _ (numeric l)) with true; [reflexivity|].
  symmetry; apply forallb_forall.
  intros r Hr; apply in_map_iff in Hr as [hf [<- _]]; reflexivity.
Qed.

Lemma post_parameters_seeded (data : option ledger) (group : string)
    (self : BaysBernoulli) (alpha0 beta0 : spec_float) (l : list (Z * Z)) :
  reads data group self (seeded alpha0 beta0 l) ->
  post_parameters data group self
  = if forallb converts (map fst l) && forallb converts (map snd l)
    then Returned (PyFloat (float_total alpha0 (map fst l)),
                   PyFloat (float_total beta0 (map snd l)))
    else Raised OverflowError.
Proof.
  intros Hreads.
  assert (Hsel :
    post_parameters data group self
    = (let arr := Np.array (seeded alpha0 beta0 l) in
       col0 <- Np.column arr 0 ;; a <- Np.sum col0 ;;
       col1 <- Np.column arr 1 ;; b <- Np.sum col1 ;; Returned (a, b))).
  { unfold post_parameters.
    destruct Hreads as [-> | [(-> & -> & <-) | (-> & -> & <-)]]; reflexivity. }
  rewrite Hsel, array_seeded; cbv zeta.
  cbn [Np.column Nat.ltb Nat.leb Py.bind].
  unfold seeded; cbn [map nth].
  rewrite column0_numeric, column1_numeric.
  cbn [Np.sum]; rewrite !fold_add_floats.
  destruct (forallb converts (map fst l)); cbn [andb Py.bind]; [|reflexivity].
  destruct (forallb converts (map snd l)); reflexivity.
Qed.

Lemma make_cum_post_para_seeded (group : string) (self : BaysBernoulli)
    (alpha0 beta0 : spec_float) (l : list (Z * Z)) :
  reads None group self (seeded alpha0 beta0 l) ->
  make_cum_post_para group self
  = if forallb converts (map fst l) && forallb converts (map snd l)
    then Returned
           (map PyFloat (alpha0 :: float_running alpha0 (map fst l)),
            map PyFloat (beta0 :: float_running beta0 (map snd l)))
    else Raised OverflowError.
Proof.
  intros Hreads.
  assert (Hsel :
    make_cum_post_para group self
    = (let arr := Np.array (seeded alpha0 beta0 l) in
       col0 <- Np.column arr 0 ;; cumsum_alpha <- Np.cumsum col0 ;;
       col1 <- Np.column arr 1 ;; cumsum_beta <- Np.cumsum col1 ;;
       Returned (cumsum_alpha, cumsum_beta))).
  { unfold make_cum_post_para.
    destruct Hreads as [H | [(_ & -> & <-) | (_ & -> & <-)]];
      [discriminate H | reflexivity | reflexivity]. }
  rewrite Hsel, array_seeded; cbv zeta.
  cbn [Np.column Nat.ltb Nat.leb Py.bind].
  unfold seeded; cbn [map nth].
  rewrite column0_numeric, column1_numeric.
  cbn [Np.cumsum]; rewrite !accumulate_floats.
  destruct (forallb converts (map fst l)); cbn [andb Py.bind]; [|reflexivity].
  destruct (forallb converts (map snd l)); reflexivity.
Qed.

(** ** The rounded quotient *)

Lemma shr_1_halves (mrs : shr_record) :
  (0 <= shr_m mrs)%Z -> shr_m (shr_1 mrs) = (shr_m mrs / 2)%Z.
Proof.
  destruct mrs as [m r s]; cbn [shr_m]; intros Hm.
  destruct m as [|p|p]; [reflexivity | | lia].
  destruct p as [p|p|]; cbn [shr_1 shr_m].
  - rewrite Pos2Z.inj_xI, Z.mul_comm, Z.div_add_l by lia.
    change (1 / 2)%Z with 0%Z; lia.
  - rewrite Pos2Z.inj_xO, Z.mul_comm, Z.div_mul by lia; reflexivity.
  - reflexivity.
Qed.

Lemma iter_shr_1 (p : positive) (mrs : shr_record) :
  (0 <= shr_m mrs)%Z ->
  shr_m (iter_pos shr_1 p mrs) = (shr_m mrs / 2 ^ Zpos p)%Z.
Proof.
  revert mrs; induction p as [p IH | p IH |]; intros mrs Hm; cbn [iter_pos].
  - assert (H1 : (0 <= shr_m (shr_1 mrs))%Z)
      by (rewrite shr_1_halves by exact Hm; apply Z.div_pos; lia).
    assert (H2 : (0 <= shr_m (iter_pos shr_1 p (shr_1 mrs)))%Z)
      by (rewrite IH by exact H1; apply Z.div_pos; lia).
    rewrite (IH _ H2), (IH _ H1), shr_1_halves by exact Hm.
    rewrite !Z.div_div by lia.
    rewrite Pos2Z.inj_xI.
    replace (2 ^ (2 * Zpos p + 1))%Z with (2 * (2 ^ Zpos p * 2 ^ Zpos p))%Z;
      [reflexivity|].
    rewrite <- Z.pow_add_r, <- Z.pow_succ_r by lia.
    f_equal; lia.
  - assert (H1 : (0 <= shr_m (iter_pos shr_1 p mrs))%Z)
      by (rewrite IH by exact Hm; apply Z.div_pos; lia).
    rewrite (IH _ H1), (IH _ Hm).
    rewrite Z.div_div by lia.
    rewrite Pos2Z.inj_xO.
    rewrite <- Z.pow_add_r by lia.
    do 2 f_equal; lia.
  - rewrite shr_1_halves by exact Hm; reflexivity.
Qed.

Lemma shr_m_of_loc (m : Z) (l : location) : shr_m (shr_record_of_loc m l) = m.
Proof.
  destruct l as [|[ | | ]]; reflexivity.
Qed.

Lemma digits2_size (p : positive) : digits2_pos p = Pos.size p.
Proof.
  induction p as [p IH | p IH |]; cbn [digits2_pos Pos.size];
    try rewrite IH; reflexivity.
Qed.

Lemma digits_le (m k : Z) :
  (0 <= m)%Z -> (0 <= k)%Z -> (m <= 2 ^ k)%Z -> (Zdigits2 m <= k + 1)%Z.
Proof.
  intros Hm Hk Hle; destruct m as [|p|p]; [cbn; lia | | lia].
  cbn [Zdigits2].
  rewrite digits2_size.
  pose proof (Pos.size_le p) as Hs.
  assert (H2 : (2 ^ Zpos (Pos.size p) <= 2 * Zpos p)%Z).
  { rewrite <- Pos2Z.inj_pow; exact Hs. }
  destruct (Z_le_gt_dec (Zpos (Pos.size p)) (k + 1)) as [Hok | Hgt];
    [exact Hok | exfalso].
  assert (Hpow : (2 ^ (k + 2) <= 2 ^ Zpos (Pos.size p))%Z)
    by (apply Z.pow_le_mono_r; lia).
  replace (k + 2)%Z with (2 + k)%Z in Hpow by lia.
  rewrite Z.pow_add_r in Hpow by lia.
  change (2 ^ 2)%Z with 4%Z in Hpow.
  assert (0 < 2 ^ k)%Z by (apply Z.pow_pos_nonneg; lia).
  lia.
Qed.

Lemma fexp_small (x : Z) : (x <= 1)%Z -> (fexp prec emax x <= 0)%Z.
Proof.
  unfold fexp, emin, prec, emax; lia.
Qed.

Lemma round_nearest_even_le (m : Z) (l : location) :
  (m <= round_nearest_even m l <= m + 1)%Z.
Proof.
  destruct l as [|[ | | ]]; cbn [round_nearest_even];
    try destruct (Z.even m); lia.
Qed.

(** One step of [shr_fexp] keeps a mantissa that is at most 2^(-e) below
    that bound at the new exponent; [strict] when it was strictly below. *)
Lemma shr_fexp_bound (m e : Z) (l : location) :
  (0 <= m)%Z -> (e <= 0)%Z -> (m <= 2 ^ (- e))%Z ->
  let '(mrs, e') := shr_fexp prec emax m e l in
  (0 <= shr_m mrs)%Z /\ (e' <= 0)%Z /\ (shr_m mrs <= 2 ^ (- e'))%Z /\
  ((m < 2 ^ (- e))%Z -> (shr_m mrs < 2 ^ (- e'))%Z).
Proof.
  intros Hm He Hle; unfold shr_fexp, shr.
  pose proof (digits_le (k := - e) Hm ltac:(lia) Hle) as Hd.
  pose proof (@fexp_small (Zdigits2 m + e) ltac:(lia)) as Hf.
  destruct (fexp prec emax (Zdigits2 m + e) - e)%Z as [|p|p] eqn:En.
  - rewrite shr_m_of_loc; repeat split; try assumption; lia.
  - rewrite iter_shr_1, shr_m_of_loc by (rewrite shr_m_of_loc; exact Hm).
    assert (He' : (e + Zpos p <= 0)%Z) by lia.
    assert (Hsplit : (2 ^ (- e) = 2 ^ (- (e + Zpos p)) * 2 ^ Zpos p)%Z).
    { rewrite <- Z.pow_add_r by lia; f_equal; lia. }
    assert (Hp : (0 < 2 ^ Zpos p)%Z) by (apply Z.pow_pos_nonneg; lia).
    split; [apply Z.div_pos; lia|].
    split; [exact He'|].
    split.
    + apply Z.div_le_upper_bound; [exact Hp|]. lia.
    + intros Hlt; apply Z.div_lt_upper_bound; [exact Hp|]. lia.
  - rewrite shr_m_of_loc; repeat split; try assumption; lia.
Qed.

Lemma round_aux_unit (m e : Z) (l : location) :
  (0 <= m)%Z -> (e <= 0)%Z -> (m < 2 ^ (- e))%Z ->
  unit_float (binary_round_aux prec emax false m e l).
Proof.
  intros Hm He Hlt; unfold binary_round_aux.
  pose proof (@shr_fexp_bound m e l Hm He ltac:(lia)) as H1.
  destruct (shr_fexp prec emax m e l) as [mrs1 e1].
  destruct H1 as (Hm1 & He1 & _ & Hlt1); specialize (Hlt1 Hlt).
  pose proof (round_nearest_even_le (shr_m mrs1) (loc_of_shr_record mrs1))
    as Hr.
  set (m1 := round_nearest_even (shr_m mrs1) (loc_of_shr_record mrs1)) in *.
  pose proof (@shr_fexp_bound m1 e1 loc_Exact ltac:(lia) He1 ltac:(lia)) as H2.
  destruct (shr_fexp prec emax m1 e1 loc_Exact) as [mrs2 e2].
  destruct H2 as (Hm2 & He2 & Hle2 & _).
  destruct (shr_m mrs2) as [|p|p]; [exact I | | lia].
  replace (e2 <=? emax - prec)%Z with true
    by (symmetry; apply Z.leb_le; unfold emax, prec; lia).
  split; assumption.
Qed.

(** The float nearest to a / s for integers 0 < a < s lies between 0 and 1:
    the quotient of Python's integer division neither overflows nor leaves
    the unit interval. *)
Lemma quotient_unit (a s : Z) :
  (0 < a)%Z -> (a < s)%Z ->
  unit_float (SFdiv prec emax (int_to_sf a) (int_to_sf s)).
Proof.
  intros Ha Has.
  destruct a as [|pa|pa]; try lia.
  destruct s as [|ps|ps]; try lia.
  cbn [int_to_sf SFdiv xorb].
  unfold SFdiv_core_binary.
  set (e' := Z.min _ (0 - 0)%Z).
  assert (He' : (e' <= 0)%Z) by (unfold e'; lia).
  set (m' := match (0 - 0 - e')%Z with
             | Z0 => Zpos pa
             | Zpos _ => Z.shiftl (Zpos pa) (0 - 0 - e')
             | Zneg _ => 0%Z
             end).
  assert (Hm' : m' = (Zpos pa * 2 ^ (- e'))%Z).
  { unfold m'; destruct (0 - 0 - e')%Z as [|p|p] eqn:E.
    - replace (- e')%Z with 0%Z by lia; lia.
    - rewrite Z.shiftl_mul_pow2 by lia; do 2 f_equal; lia.
    - lia. }
  assert (Hpow : (0 < 2 ^ (- e'))%Z) by (apply Z.pow_pos_nonneg; lia).
  pose proof (Z_div_mod m' (Zpos ps) ltac:(lia)) as Hdiv.
  destruct (Z.div_eucl m' (Zpos ps)) as [q r].
  destruct Hdiv as [Hq Hr].
  apply round_aux_unit; [nia | exact He' | nia].
Qed.

(** ** Rounding from below and the float quotient *)

Lemma iter_xO_value (m d : positive) :
  Zpos (Pos.iter xO m d) = (Zpos m * 2 ^ Zpos d)%Z.
Proof.
  induction d as [|d IH] using Pos.peano_ind.
  - cbn [Pos.iter]; rewrite Pos2Z.inj_xO; lia.
  - rewrite Pos.iter_succ, Pos2Z.inj_xO, IH, Pos2Z.inj_succ, Z.pow_succ_r
      by lia.
    lia.
Qed.

Lemma shl_align_value (m : positive) (e e0 : Z) :
  let '(m', e') := shl_align m e e0 in
  e' = Z.min e e0 /\ Zpos m' = (Zpos m * 2 ^ (e - e'))%Z.
Proof.
  unfold shl_align.
  destruct (e0 - e)%Z as [|d|d] eqn:E.
  - split; [lia|]. rewrite Z.sub_diag; lia.
  - split; [lia|]. rewrite Z.sub_diag; lia.
  - split; [lia|]. rewrite iter_xO_value; do 2 f_equal; lia.
Qed.

Lemma digits_ge (m : Z) : (0 < m)%Z -> (2 ^ (Zdigits2 m - 1) <= m)%Z.
Proof.
  intros Hm; destruct m as [|p|p]; try lia.
  cbn [Zdigits2]; rewrite digits2_size.
  pose proof (Pos.size_le p) as Hs.
  assert (H2 : (2 ^ Zpos (Pos.size p) <= 2 * Zpos p)%Z).
  { rewrite <- Pos2Z.inj_pow; exact Hs. }
  replace (Zpos (Pos.size p)) with (Z.succ (Zpos (Pos.size p) - 1)) in H2
    by lia.
  rewrite Z.pow_succ_r in H2 by lia.
  lia.
Qed.

(** A right shift of the mantissa keeps it above every number of the
    format that the shifted number was above.  Numbers m * 2^e are compared
    after scaling by 2^1074, which makes them integers. *)
Lemma shr_fexp_lower (m e : Z) (l : location) (ml el : Z) :
  (0 < m)%Z -> (-1074 <= e)%Z ->
  (0 < ml < 2 ^ 53)%Z -> (-1074 <= el)%Z ->
  (ml * 2 ^ (el + 1074) <= m * 2 ^ (e + 1074))%Z ->
  let '(mrs, e') := shr_fexp prec emax m e l in
  (-1074 <= e')%Z /\ (0 < shr_m mrs)%Z /\
  (ml * 2 ^ (el + 1074) <= shr_m mrs * 2 ^ (e' + 1074))%Z.
Proof.
  intros Hm He Hml Hel Hle; unfold shr_fexp, shr.
  pose proof (digits_ge Hm) as Hd.
  destruct (fexp prec emax (Zdigits2 m + e) - e)%Z as [|p|p] eqn:En;
    try (rewrite shr_m_of_loc; repeat split; assumption).
  rewrite iter_shr_1, shr_m_of_loc by (rewrite shr_m_of_loc; lia).
  assert (Hp : (Zpos p = Zdigits2 m - 53)%Z)
    by (unfold fexp, emin, prec, emax in En; lia).
  assert (Hpow : (0 < 2 ^ Zpos p)%Z) by (apply Z.pow_pos_nonneg; lia).
  assert (Hbig : (2 ^ 52 <= m / 2 ^ Zpos p)%Z).
  { apply Z.div_le_lower_bound; [exact Hpow|].
    rewrite <- Z.pow_add_r by lia.
    replace (Zpos p + 52)%Z with (Zdigits2 m - 1)%Z by lia; exact Hd. }
  split; [lia|]; split; [lia|].
  destruct (Z_le_gt_dec (e + Zpos p) el) as [Hcase | Hcase].
  - assert (Hsplit : (ml * 2 ^ (el + 1074)
                      = ml * 2 ^ (el - (e + Zpos p)) * 2 ^ Zpos p
                        * 2 ^ (e + 1074))%Z).
    { rewrite <- !Z.mul_assoc, <- !Z.pow_add_r by lia.
      do 2 f_equal; lia. }
    rewrite Hsplit in Hle.
    assert (H0 : (0 < 2 ^ (e + 1074))%Z) by (apply Z.pow_pos_nonneg; lia).
    assert (H1 : (ml * 2 ^ (el - (e + Zpos p)) * 2 ^ Zpos p <= m)%Z) by nia.
    assert (H2 : (ml * 2 ^ (el - (e + Zpos p)) <= m / 2 ^ Zpos p)%Z).
    { apply Z.div_le_lower_bound; [exact Hpow | lia]. }
    replace (ml * 2 ^ (el + 1074))%Z
      with (ml * 2 ^ (el - (e + Zpos p)) * 2 ^ (e + Zpos p + 1074))%Z.
    + apply Z.mul_le_mono_nonneg_r; [apply Z.pow_nonneg; lia | exact H2].
    + rewrite <- Z.mul_assoc, <- Z.pow_add_r by lia; do 2 f_equal; lia.
  - assert (H0 : (0 < 2 ^ (el + 1074))%Z) by (apply Z.pow_pos_nonneg; lia).
    assert (H1 : (ml * 2 ^ (el + 1074) <= 2 ^ 53 * 2 ^ (el + 1074))%Z) by nia.
    rewrite <- Z.pow_add_r in H1 by lia.
    assert (H2 : (2 ^ (53 + (el + 1074)) <= 2 ^ (52 + (e + Zpos p + 1074)))%Z)
      by (apply Z.pow_le_mono_r; lia).
    rewrite (Z.pow_add_r 2 52) in H2 by lia.
    assert (H3 : (0 < 2 ^ (e + Zpos p + 1074))%Z)
      by (apply Z.pow_pos_nonneg; lia).
    nia.
Qed.

(** Rounding to nearest does not fall below a number of the format: the
    result is the infinity or a finite number that is not below it. *)
Lemma round_aux_lower (m e : Z) (l : location) (ml el : Z) :
  (0 < m)%Z -> (-1074 <= e)%Z ->
  (0 < ml < 2 ^ 53)%Z -> (-1074 <= el)%Z ->
  (ml * 2 ^ (el + 1074) <= m * 2 ^ (e + 1074))%Z ->
  match binary_round_aux prec emax false m e l with
  | S754_infinity false => True
  | S754_finite false m' e' =>
      (-1074 <= e')%Z /\
      (ml * 2 ^ (el + 1074) <= Zpos m' * 2 ^ (e' + 1074))%Z
  | _ => False
  end.
Proof.
  intros Hm He Hml Hel Hle; unfold binary_round_aux.
  pose proof (@shr_fexp_lower m e l ml el Hm He Hml Hel Hle) as H1.
  destruct (shr_fexp prec emax m e l) as [mrs1 e1].
  destruct H1 as (He1 & Hm1 & Hle1).
  pose proof (round_nearest_even_le (shr_m mrs1) (loc_of_shr_record mrs1))
    as Hr.
  set (m1 := round_nearest_even (shr_m mrs1) (loc_of_shr_record mrs1)) in *.
  assert (Hle1' : (ml * 2 ^ (el + 1074) <= m1 * 2 ^ (e1 + 1074))%Z).
  { assert (0 < 2 ^ (e1 + 1074))%Z by (apply Z.pow_pos_nonneg; lia). nia. }
  pose proof (@shr_fexp_lower m1 e1 loc_Exact ml el ltac:(lia) He1 Hml Hel
                Hle1') as H2.
  destruct (shr_fexp prec emax m1 e1 loc_Exact) as [mrs2 e2].
  destruct H2 as (He2 & Hm2 & Hle2).
  destruct (shr_m mrs2) as [|p|p]; try lia.
  destruct (e2 <=? emax - prec)%Z; [split; assumption | exact I].
Qed.

Lemma add_lower (mx my : positive) (ex ey : Z) :
  (-1074 <= ex)%Z -> (-1074 <= ey)%Z -> (Zpos mx < 2 ^ 53)%Z ->
  match SFadd prec emax (S754_finite false mx ex) (S754_finite false my ey) with
  | S754_infinity false => True
  | S754_finite false m e =>
      (-1074 <= e)%Z /\
      (Zpos mx * 2 ^ (ex + 1074) <= Zpos m * 2 ^ (e + 1074))%Z
  | _ => False
  end.
Proof.
  intros Hex Hey Hmx; cbn [SFadd cond_Zopp].
  set (ez := Z.min ex ey).
  pose proof (shl_align_value mx ex ez) as Hx.
  pose proof (shl_align_value my ey ez) as Hy.
  destruct (shl_align mx ex ez) as [ax ex'], (shl_align my ey ez) as [ay ey'].
  destruct Hx as [Hex' Hax], Hy as [Hey' Hay]; cbn [fst].
  change (Zpos ax + Zpos ay)%Z with (Zpos (ax + ay)).
  cbn [binary_normalize]; unfold binary_round.
  set (e0 := fexp prec emax (Zpos (digits2_pos (ax + ay)) + ez)).
  pose proof (shl_align_value (ax + ay) ez e0) as Hz.
  destruct (shl_align (ax + ay) ez e0) as [mz ez'].
  destruct Hz as [Hez' Hmz].
  assert (He0 : (-1074 <= e0)%Z) by (unfold e0, fexp, emin, prec, emax; lia).
  apply round_aux_lower; try lia.
  rewrite Hmz, Pos2Z.inj_add.
  replace ex' with ez in Hax by (unfold ez; lia).
  assert (H1 : (Zpos mx * 2 ^ (ex + 1074)
                = Zpos ax * 2 ^ (ez' + 1074) * 2 ^ (ez - ez'))%Z).
  { rewrite Hax, <- !Z.mul_assoc, <- !Z.pow_add_r by (unfold ez; lia).
    do 2 f_equal; lia. }
  rewrite H1.
  assert (0 < 2 ^ (ez' + 1074))%Z by (apply Z.pow_pos_nonneg; lia).
  assert (0 < 2 ^ (ez - ez'))%Z by (apply Z.pow_pos_nonneg; lia).
  nia.
Qed.

Lemma shr_1_exact (c : Z) :
  (0 <= c)%Z ->
  shr_1 (Build_shr_record (c * 2) false false) = Build_shr_record c false false.
Proof.
  intros Hc; destruct c as [|q|q]; [reflexivity | | lia].
  replace (Zpos q * 2)%Z with (Zpos q~0) by lia; reflexivity.
Qed.

Lemma iter_shr_1_exact (p : positive) (c : Z) :
  (0 <= c)%Z ->
  iter_pos shr_1 p (Build_shr_record (c * 2 ^ Zpos p) false false)
  = Build_shr_record c false false.
Proof.
  revert c; induction p as [p IH | p IH |]; intros c Hc; cbn [iter_pos].
  - replace (c * 2 ^ Zpos p~1)%Z with (c * 2 ^ Zpos p * 2 ^ Zpos p * 2)%Z.
    + assert (0 < 2 ^ Zpos p)%Z by (apply Z.pow_pos_nonneg; lia).
      rewrite shr_1_exact, IH, IH by nia; reflexivity.
    + replace (Zpos p~1) with (Zpos p + Zpos p + 1)%Z by lia.
      rewrite !Z.pow_add_r by lia; change (2 ^ 1)%Z with 2%Z; ring.
  - replace (c * 2 ^ Zpos p~0)%Z with (c * 2 ^ Zpos p * 2 ^ Zpos p)%Z.
    + assert (0 < 2 ^ Zpos p)%Z by (apply Z.pow_pos_nonneg; lia).
      rewrite IH, IH by nia; reflexivity.
    + replace (Zpos p~0) with (Zpos p + Zpos p)%Z by lia.
      rewrite Z.pow_add_r by lia; ring.
  - change (2 ^ 1)%Z with 2%Z; now apply shr_1_exact.
Qed.

Lemma shr_fexp_exact (t : Z) :
  (0 <= t)%Z ->
  let '(mrs, e') := shr_fexp prec emax (2 ^ t) (- t) loc_Exact in
  (e' <= 0)%Z /\ shr_m mrs = (2 ^ (- e'))%Z /\
  loc_of_shr_record mrs = loc_Exact.
Proof.
  intros Ht; unfold shr_fexp, shr.
  assert (Hpos : (0 < 2 ^ t)%Z) by (apply Z.pow_pos_nonneg; lia).
  pose proof (@digits_le (2 ^ t) t ltac:(lia) Ht ltac:(lia)) as Hd.
  pose proof (@fexp_small (Zdigits2 (2 ^ t) + - t) ltac:(lia)) as Hf.
  destruct (fexp prec emax (Zdigits2 (2 ^ t) + - t) - - t)%Z as [|p|p] eqn:En;
    cbn [shr_record_of_loc shr_m loc_of_shr_record];
    try (split; [lia|]; split; [f_equal; lia | reflexivity]).
  replace (2 ^ t)%Z with (2 ^ (t - Zpos p) * 2 ^ Zpos p)%Z
    by (rewrite <- Z.pow_add_r by lia; f_equal; lia).
  rewrite iter_shr_1_exact by (apply Z.pow_nonneg; lia).
  cbn [shr_m loc_of_shr_record].
  split; [lia|]; split; [f_equal; lia | reflexivity].
Qed.

Lemma round_aux_unit_exact (t : Z) :
  (0 <= t)%Z ->
  unit_float (binary_round_aux prec emax false (2 ^ t) (- t) loc_Exact).
Proof.
  intros Ht; unfold binary_round_aux.
  pose proof (shr_fexp_exact Ht) as H1.
  destruct (shr_fexp prec emax (2 ^ t) (- t) loc_Exact) as [mrs1 e1].
  destruct H1 as (He1 & Hm1 & Hl1); rewrite Hl1, Hm1.
  cbn [round_nearest_even].
  assert (Hpos : (0 < 2 ^ (- e1))%Z) by (apply Z.pow_pos_nonneg; lia).
  pose proof (@shr_fexp_bound (2 ^ (- e1)) e1 loc_Exact ltac:(lia) He1
                ltac:(lia)) as H2.
  destruct (shr_fexp prec emax (2 ^ (- e1)) e1 loc_Exact) as [mrs2 e2].
  destruct H2 as (Hm2 & He2 & Hle2 & _).
  destruct (shr_m mrs2) as [|p|p]; [exact I | | lia].
  replace (e2 <=? emax - prec)%Z with true
    by (symmetry; apply Z.leb_le; unfold emax, prec; lia).
  split; assumption.
Qed.

Lemma digits_gt (m : Z) : (0 <= m)%Z -> (m < 2 ^ Zdigits2 m)%Z.
Proof.
  intros Hm; destruct m as [|p|p]; [reflexivity | | lia].
  cbn [Zdigits2]; rewrite digits2_size.
  pose proof (Pos.size_gt p) as Hs.
  rewrite <- Pos2Z.inj_pow; exact Hs.
Qed.

Lemma new_location_exact (n : Z) : new_location n 0 = loc_Exact.
Proof.
  unfold new_location; destruct (Z.even n); reflexivity.
Qed.

(** The float nearest to x / s for two positive numbers x <= s of the
    format lies between 0 and 1. *)
Lemma quotient_unit_float (mx ms : positive) (ex es : Z) :
  (-1074 <= ex)%Z -> (-1074 <= es)%Z ->
  (Zpos mx * 2 ^ (ex + 1074) <= Zpos ms * 2 ^ (es + 1074))%Z ->
  unit_float
    (SFdiv prec emax (S754_finite false mx ex) (S754_finite false ms es)).
Proof.
  intros Hex Hes Hle.
  cbn [SFdiv xorb]; unfold SFdiv_core_binary.
  set (d1 := Zdigits2 (Zpos mx)); set (d2 := Zdigits2 (Zpos ms)).
  set (e' := Z.min (fexp prec emax (d1 + ex - (d2 + es))) (ex - es)).
  assert (Hd1 : (2 ^ (d1 - 1) <= Zpos mx)%Z) by (apply digits_ge; lia).
  assert (Hd2 : (Zpos ms < 2 ^ d2)%Z) by (apply digits_gt; lia).
  assert (Hd1pos : (1 <= d1)%Z).
  { unfold d1; cbn [Zdigits2]; lia. }
  assert (Hd2pos : (1 <= d2)%Z).
  { unfold d2; cbn [Zdigits2]; lia. }
  assert (Hdig : (d1 + ex - (d2 + es) <= 0)%Z).
  { assert (H0 : (0 < 2 ^ (ex + 1074))%Z) by (apply Z.pow_pos_nonneg; lia).
    assert (H1 : (0 < 2 ^ (es + 1074))%Z) by (apply Z.pow_pos_nonneg; lia).
    assert (H2 : (2 ^ (d1 - 1) * 2 ^ (ex + 1074)
                  < 2 ^ d2 * 2 ^ (es + 1074))%Z) by nia.
    rewrite <- !Z.pow_add_r in H2 by lia.
    apply Z.pow_lt_mono_r_iff in H2; lia. }
  assert (He' : (e' <= 0)%Z).
  { unfold e', fexp, emin, prec, emax; lia. }
  assert (Hs : (0 <= ex - es - e')%Z) by (unfold e'; lia).
  set (m' := match (ex - es - e')%Z with
             | Z0 => Zpos mx
             | Zpos _ => Z.shiftl (Zpos mx) (ex - es - e')
             | Zneg _ => 0%Z
             end).
  assert (Hm' : m' = (Zpos mx * 2 ^ (ex - es - e'))%Z).
  { unfold m'; destruct (ex - es - e')%Z as [|p|p] eqn:E.
    - lia.
    - rewrite Z.shiftl_mul_pow2 by lia; reflexivity.
    - lia. }
  assert (Hbound : (m' <= Zpos ms * 2 ^ (- e'))%Z).
  { rewrite Hm'.
    assert (H1 : (0 < 2 ^ (es + 1074))%Z) by (apply Z.pow_pos_nonneg; lia).
    assert (H2 : (0 <= 2 ^ (- e'))%Z) by (apply Z.pow_nonneg; lia).
    assert (H3 : (Zpos mx * 2 ^ (ex + 1074) * 2 ^ (- e')
                  <= Zpos ms * 2 ^ (es + 1074) * 2 ^ (- e'))%Z)
      by (apply Z.mul_le_mono_nonneg_r; assumption).
    replace (Zpos mx * 2 ^ (ex + 1074) * 2 ^ (- e'))%Z
      with (Zpos mx * 2 ^ (ex - es - e') * 2 ^ (es + 1074))%Z in H3.
    + nia.
    + rewrite <- !Z.mul_assoc, <- !Z.pow_add_r by lia.
      do 2 f_equal; lia. }
  assert (Hpow : (0 < 2 ^ (- e'))%Z) by (apply Z.pow_pos_nonneg; lia).
  assert (Hm'0 : (0 <= m')%Z).
  { rewrite Hm'; apply Z.mul_nonneg_nonneg; [lia | apply Z.pow_nonneg; lia]. }
  pose proof (Z_div_mod m' (Zpos ms) ltac:(lia)) as Hdiv.
  destruct (Z.div_eucl m' (Zpos ms)) as [q r].
  destruct Hdiv as [Hq Hr].
  assert (Hq0 : (0 <= q)%Z) by nia.
  destruct (Z_lt_le_dec q (2 ^ (- e'))) as [Hlt | Hge].
  - apply round_aux_unit; assumption.
  - assert (Hqe : q = (2 ^ (- e'))%Z) by nia.
    assert (Hr0 : r = 0%Z) by nia.
    rewrite Hr0, new_location_exact, Hqe.
    replace e' with (- (- e'))%Z at 2 by lia.
    apply round_aux_unit_exact; lia.
Qed.

(** The float sum of two positive numbers of the format is not zero, and
    the float quotient of one of them by that sum lies between 0 and 1. *)
Lemma float_mean_unit (a b : spec_float) :
  positive_float a -> positive_float b ->
  Py.is_zero (SFadd prec emax a b) = false /\
  unit_float (SFdiv prec emax a (SFadd prec emax a b)).
Proof.
  destruct a as [| | |[|] ma ea]; try contradiction.
  destruct b as [| | |[|] mb eb]; try contradiction.
  intros [Hea Hma] [Heb Hmb].
  pose proof (@add_lower ma mb ea eb Hea Heb Hma) as H.
  destruct (SFadd prec emax (S754_finite false ma ea) (S754_finite false mb eb))
    as [s | s | | s m e]; try contradiction.
  - destruct s; [contradiction|]; split; [reflexivity | exact I].
  - destruct s; [contradiction|]; destruct H as [He Hle].
    split; [reflexivity|].
    now apply quotient_unit_float.
Qed.

Lemma digits_eq (m k : Z) :
  (2 ^ (k - 1) <= m < 2 ^ k)%Z -> (1 <= k)%Z -> Zdigits2 m = k.
Proof.
  intros [Hlo Hhi] Hk.
  assert (Hm : (0 < m)%Z).
  { assert (0 < 2 ^ (k - 1))%Z by (apply Z.pow_pos_nonneg; lia). lia. }
  pose proof (digits_ge Hm) as H1.
  pose proof (@digits_gt m ltac:(lia)) as H2.
  assert (Hd : (1 <= Zdigits2 m)%Z).
  { destruct m as [|p|p]; try lia; cbn [Zdigits2]; lia. }
  assert (H3 : (2 ^ (Zdigits2 m - 1) < 2 ^ k)%Z) by lia.
  assert (H4 : (2 ^ (k - 1) < 2 ^ Zdigits2 m)%Z) by lia.
  apply Z.pow_lt_mono_r_iff in H3; [|lia|lia].
  apply Z.pow_lt_mono_r_iff in H4; [|lia|lia].
  lia.
Qed.

(** An integer 0 < z < 2^53 converts to a float without rounding. *)
Lemma nearest_float_small (z : Z) :
  (0 < z < 2 ^ 53)%Z ->
  exists m e,
    Py.nearest_float z = S754_finite false m e /\
    (-1074 <= e)%Z /\ (Zpos m < 2 ^ 53)%Z /\
    (Zpos m * 2 ^ (e + 1074) = z * 2 ^ 1074)%Z.
Proof.
  intros [Hz0 Hz]; destruct z as [|p|p]; try lia.
  unfold Py.nearest_float; cbn [binary_normalize]; unfold binary_round.
  set (d := Zpos (digits2_pos p)).
  assert (Hd : d = Zdigits2 (Zpos p)) by reflexivity.
  pose proof (@digits_ge (Zpos p) ltac:(lia)) as Hlo; rewrite <- Hd in Hlo.
  pose proof (@digits_gt (Zpos p) ltac:(lia)) as Hhi; rewrite <- Hd in Hhi.
  assert (Hd1 : (1 <= d)%Z) by (unfold d; lia).
  assert (Hd53 : (d <= 53)%Z).
  { assert (H : (2 ^ (d - 1) < 2 ^ 53)%Z) by lia.
    apply Z.pow_lt_mono_r_iff in H; lia. }
  replace (d + 0)%Z with d by lia.
  assert (Hf : fexp prec emax d = (d - 53)%Z)
    by (unfold fexp, emin, prec, emax; lia).
  rewrite Hf.
  pose proof (shl_align_value p 0 (d - 53)) as Hal.
  destruct (shl_align p 0 (d - 53)) as [mz ez].
  destruct Hal as [Hez Hmz].
  assert (Eez : ez = (d - 53)%Z) by lia.
  clear Hez; subst ez.
  replace (0 - (d - 53))%Z with (53 - d)%Z in Hmz by lia.
  assert (Hp2 : (0 < 2 ^ (53 - d))%Z) by (apply Z.pow_pos_nonneg; lia).
  assert (Hmz_lo : (2 ^ 52 <= Zpos mz)%Z).
  { rewrite Hmz.
    replace (2 ^ 52)%Z with (2 ^ (d - 1) * 2 ^ (53 - d))%Z
      by (rewrite <- Z.pow_add_r by lia; f_equal; lia).
    apply Z.mul_le_mono_nonneg_r; lia. }
  assert (Hmz_hi : (Zpos mz < 2 ^ 53)%Z).
  { rewrite Hmz.
    replace (2 ^ 53)%Z with (2 ^ d * 2 ^ (53 - d))%Z
      by (rewrite <- Z.pow_add_r by lia; f_equal; lia).
    apply Z.mul_lt_mono_pos_r; lia. }
  assert (Hdz : Zdigits2 (Zpos mz) = 53%Z)
    by (apply digits_eq; [split; assumption | lia]).
  assert (Hshr : forall l,
    shr_fexp prec emax (Zpos mz) (d - 53) l
    = (shr_record_of_loc (Zpos mz) l, (d - 53)%Z)).
  { intros l; unfold shr_fexp; rewrite Hdz.
    replace (53 + (d - 53))%Z with d by lia.
    rewrite Hf, Z.sub_diag; reflexivity. }
  unfold binary_round_aux.
  rewrite Hshr; cbn [shr_record_of_loc shr_m loc_of_shr_record
                       round_nearest_even].
  rewrite Hshr; cbn [shr_record_of_loc shr_m].
  replace (d - 53 <=? emax - prec)%Z with true
    by (symmetry; apply Z.leb_le; unfold emax, prec; lia).
  exists mz, (d - 53)%Z.
  split; [reflexivity|]; split; [lia|]; split; [exact Hmz_hi|].
  rewrite Hmz, <- Z.mul_assoc, <- Z.pow_add_r by lia.
  do 2 f_equal; lia.
Qed.

(** The float quotient of two NumPy integers 0 < a <= s < 2^53 lies
    between 0 and 1. *)
Lemma quotient_unit_small (a s : Z) :
  (0 < a)%Z -> (a <= s)%Z -> (s < 2 ^ 53)%Z ->
  unit_float (SFdiv prec emax (Py.nearest_float a) (Py.nearest_float s)).
Proof.
  intros Ha Has Hs.
  destruct (@nearest_float_small a ltac:(lia)) as (ma & ea & -> & Hea & _ & Hva).
  destruct (@nearest_float_small s ltac:(lia)) as (ms & es & -> & Hes & _ & Hvs).
  apply quotient_unit_float; try assumption.
  rewrite Hva, Hvs; apply Z.mul_le_mono_nonneg_r; [apply Z.pow_nonneg|]; lia.
Qed.

Lemma wrap_int64_small (z : Z) :
  (- 2 ^ 63 <= z < 2 ^ 63)%Z -> Py.wrap_int64 z = z.
Proof.
  intros Hz; unfold Py.wrap_int64.
  rewrite Z.mod_small by lia; lia.
Qed.

(** ** Data frames *)

Lemma eqb_true_iff (x y : value) : Py.eqb x y = true <-> x = y.
Proof.
  unfold Py.eqb; destruct (value_eq_dec x y); split; congruence.
Qed.

Lemma in_unique (l : list value) (y : value) : In y (Pd.unique l) <-> In y l.
Proof.
  induction l as [|x xs IH]; cbn [Pd.unique In]; [tauto|].
  rewrite filter_In, IH, negb_true_iff.
  destruct (value_eq_dec y x) as [-> | Hne]; [tauto|].
  assert (Py.eqb y x = false).
  { destruct (Py.eqb y x) eqn:E; [apply eqb_true_iff in E; contradiction | reflexivity]. }
  intuition congruence.
Qed.

Lemma contains_unique (x : value) (col : list value) :
  Pd.contains x (Pd.unique col) = true <-> In x col.
Proof.
  unfold Pd.contains; rewrite existsb_exists; split.
  - intros (y & Hy & E). apply eqb_true_iff in E; subst y.
    now apply in_unique.
  - intros H; exists x; split; [now apply in_unique | now apply eqb_true_iff].
Qed.

Lemma tag_in_column (j : nat) (tag : string) (rows : list (list value)) :
  In (PyStr tag) (map (fun r => nth j r (PyInt 0)) rows)
  <-> tag_appears j tag rows.
Proof.
  unfold tag_appears, group_tag; rewrite in_map_iff; split;
    intros (r & H1 & H2); exists r; tauto.
Qed.

Lemma select_by_mask (A : Type) (f : A -> bool) (rows : list A) :
  map fst (filter snd (combine rows (map f rows))) = filter f rows.
Proof.
  induction rows as [|r rows IH]; cbn [map combine filter snd fst];
    [reflexivity|].
  destruct (f r); cbn [map fst]; now rewrite IH.
Qed.

Lemma keep_all_cells (name : string) (cols : list string) (r : list value) :
  ~ In name cols -> List.length r = List.length cols ->
  map fst
    (filter (fun cell : value * string => negb (String.eqb (snd cell) name))
       (combine r cols)) = r.
Proof.
  revert r; induction cols as [|c cs IH]; intros [|x r] Hnot Hlen;
    cbn in Hlen; try discriminate; [reflexivity|].
  cbn [combine filter snd].
  destruct (String.eqb_spec c name) as [-> | Hne].
  - exfalso; apply Hnot; now left.
  - cbn [negb map fst]; f_equal.
    apply IH; [intros Hin; apply Hnot; now right | lia].
Qed.

Lemma drop_cell (name : string) (cols : list string) (j : nat)
    (r : list value) :
  NoDup cols -> Pd.position name cols = Some j ->
  List.length r = List.length cols ->
  map fst
    (filter (fun cell : value * string => negb (String.eqb (snd cell) name))
       (combine r cols)) = batch_fields j r.
Proof.
  revert r j; induction cols as [|c cs IH]; intros r j Hnd Hpos Hlen;
    [discriminate Hpos|].
  destruct r as [|x r]; [discriminate Hlen|].
  cbn [Pd.position] in Hpos; cbn [combine filter snd].
  inversion Hnd as [|? ? Hnotin Hnd']; subst.
  destruct (String.eqb_spec c name) as [-> | Hne].
  - injection Hpos as <-; cbn [negb].
    unfold batch_fields; cbn [firstn skipn app].
    apply keep_all_cells; [exact Hnotin | cbn in Hlen; lia].
  - destruct (Pd.position name cs) as [j'|] eqn:Hj'; [|discriminate Hpos].
    injection Hpos as <-; cbn [negb map fst].
    unfold batch_fields; cbn [firstn skipn app]; f_equal.
    apply IH; [exact Hnd' | reflexivity | cbn in Hlen; lia].
Qed.

Lemma drop_select (df : Pd.DataFrame) (name : string) (j : nat) (tag : string) :
  Pd.well_formed df -> Pd.position name (Pd.columns df) = Some j ->
  Pd.tolist
    (Pd.drop
       (Pd.select df
          (Pd.series_eq (map (fun r => nth j r (PyInt 0)) (Pd.values df))
             (PyStr tag)))
       name)
  = rows_of_group j tag (Pd.values df).
Proof.
  intros [Hnd Hrows] Hpos.
  unfold Pd.tolist, Pd.drop, Pd.select, Pd.series_eq, rows_of_group;
    cbn [Pd.values Pd.columns].
  rewrite (map_map (fun r => nth j r (PyInt 0))
             (fun y => Py.eqb y (PyStr tag))).
  rewrite (select_by_mask
             (fun r => Py.eqb (nth j r (PyInt 0)) (PyStr tag)) (Pd.values df)).
  apply map_ext_in; intros r Hr.
  apply filter_In in Hr as [Hr _].
  apply drop_cell; [exact Hnd | exact Hpos |].
  rewrite Forall_forall in Hrows; now apply Hrows.
Qed.

(** ** The sampler *)

Lemma count_nonzero_bounds (draws : list Z) :
  (0 <= Np.count_nonzero draws <= Z.of_nat (List.length draws))%Z.
Proof.
  unfold Np.count_nonzero; split; [lia|].
  apply Nat2Z.inj_le.
  induction draws as [|d ds IH]; cbn [filter List.length]; [lia|].
  destruct (negb (d =? 0)%Z); cbn [List.length]; lia.
Qed.

Lemma argcheck_true (p : Qc) :
  Qle_bool 0 p && Qle_bool p 1 = true <-> Q2Qc 0 <= p /\ p <= 1.
Proof.
  rewrite andb_true_iff, !Qle_bool_iff; unfold Qcle; cbn; tauto.
Qed.

Lemma bernoulli_rvs_valid (u : nat -> Qc) (p : Qc) (n : Z) :
  Q2Qc 0 <= p /\ p <= 1 -> (0 <= n)%Z ->
  exists draws,
    Scipy.bernoulli_rvs u p n = Returned draws /\
    Z.of_nat (List.length draws) = n.
Proof.
  intros Hp Hn; unfold Scipy.bernoulli_rvs.
  apply argcheck_true in Hp; rewrite Hp; cbn [negb].
  destruct (Z.ltb_spec n 0) as [Hneg | _]; [lia|].
  eexists; split; [reflexivity|].
  rewrite length_map, length_seq; lia.
Qed.

Lemma bernoulli_rvs_invalid (u : nat -> Qc) (p : Qc) (n : Z) :
  ~ (Q2Qc 0 <= p /\ p <= 1) \/ (n < 0)%Z ->
  Scipy.bernoulli_rvs u p n = Raised ValueError.
Proof.
  intros H; unfold Scipy.bernoulli_rvs.
  destruct (Qle_bool 0 p && Qle_bool p 1) eqn:E; cbn [negb]; [|reflexivity].
  apply argcheck_true in E.
  destruct H as [H | H]; [contradiction|].
  destruct (Z.ltb_spec n 0); [reflexivity | lia].
Qed.

Lemma bernoulli_rvs_returned (u : nat -> Qc) (p : Qc) (n : Z) (draws : list Z) :
  Scipy.bernoulli_rvs u p n = Returned draws ->
  (0 <= n)%Z /\ Z.of_nat (List.length draws) = n /\
  (Q2Qc 0 <= p /\ p <= 1) /\
  draws = map (fun i => if Qle_bool p (u i) then 0%Z else 1%Z)
            (seq 0 (Z.to_nat n)).
Proof.
  unfold Scipy.bernoulli_rvs.
  destruct (Qle_bool 0 p && Qle_bool p 1) eqn:E; cbn [negb];
    [|discriminate].
  destruct (Z.ltb_spec n 0) as [|Hn]; [discriminate|].
  intros H; injection H as <-.
  rewrite length_map, length_seq.
  split; [exact Hn|]; split; [lia|]; split; [now apply argcheck_true|].
  reflexivity.
Qed.

Lemma count_nonzero_map (u : nat -> Qc) (p : Qc) (l : list nat) :
  Np.count_nonzero (map (fun i => if Qle_bool p (u i) then 0%Z else 1%Z) l)
  = Z.of_nat (List.length (filter (fun i => negb (Qle_bool p (u i))) l)).
Proof.
  unfold Np.count_nonzero; f_equal.
  induction l as [|i l IH]; [reflexivity|].
  cbn [map filter].
  destruct (Qle_bool p (u i)); cbn [Z.eqb negb List.length]; now rewrite IH.
Qed.

Lemma count_ones_map (u : nat -> Qc) (p : Qc) (l : list nat) :
  count_occ Z.eq_dec
    (map (fun i => if Qle_bool p (u i) then 0%Z else 1%Z) l) 1%Z
  = List.length (filter (fun i => negb (Qle_bool p (u i))) l) /\
  (count_occ Z.eq_dec
     (map (fun i => if Qle_bool p (u i) then 0%Z else 1%Z) l) 0%Z
   + List.length (filter (fun i => negb (Qle_bool p (u i))) l)
   = List.length l)%nat.
Proof.
  induction l as [|i l [IH1 IH0]]; [split; reflexivity|].
  cbn [map filter count_occ].
  destruct (Qle_bool p (u i)); cbn [negb List.length];
    repeat match goal with
           | |- context [Z.eq_dec ?a ?b] =>
               destruct (Z.eq_dec a b) as [?E | ?E];
               try discriminate; try (exfalso; apply E; reflexivity)
           end; split; lia.
Qed.

Lemma filter_all (A : Type) (f : A -> bool) (l : list A) :
  (forall x, In x l -> f x = true) -> filter f l = l.
Proof.
  induction l as [|x l IH]; intros H; [reflexivity|].
  cbn [filter]; rewrite (H x (or_introl eq_refl)), IH; [reflexivity|].
  intros y Hy; apply H; now right.
Qed.

Lemma filter_none (A : Type) (f : A -> bool) (l : list A) :
  (forall x, In x l -> f x = false) -> filter f l = [].
Proof.
  induction l as [|x l IH]; intros H; [reflexivity|].
  cbn [filter]; rewrite (H x (or_introl eq_refl)); apply IH.
  intros y Hy; apply H; now right.
Qed.

Lemma variate_below (x p : Qc) : x < p <-> Qle_bool p x = false.
Proof.
  unfold Qclt; split.
  - intros Hlt; destruct (Qle_bool p x) eqn:E; [|reflexivity].
    apply Qle_bool_iff in E; exfalso; exact (Qlt_not_le _ _ Hlt E).
  - intros E; apply Qnot_le_lt; intros Hle.
    apply Qle_bool_iff in Hle; congruence.
Qed.

Lemma variate_above (x p : Qc) : p <= x <-> Qle_bool p x = true.
Proof.
  unfold Qcle; symmetry; apply Qle_bool_iff.
Qed.

Lemma nth_map_seq (f : nat -> Z) (m i : nat) (d : Z) :
  (i < m)%nat -> nth i (map f (seq 0 m)) d = f i.
Proof.
  intros Hi.
  rewrite (nth_indep _ d (f O)) by (rewrite length_map, length_seq; exact Hi).
  rewrite (map_nth f), seq_nth by exact Hi; reflexivity.
Qed.

(** ** Evaluations on the fresh instance *)

(** The float constants of the presets are the doubles nearest to 1/2, 1/3
    and 1/1000: 2 m = 2^54 for one half, and m / 2^54 and m / 2^62 are
    within half a unit in the last place of 1/3 and of 1/1000. *)
Lemma preset_floats :
  float_half = S754_finite false (2 ^ 52) (-53) /\
  (exists m, float_third = S754_finite false m (-54) /\
             (2 ^ 52 <= Zpos m < 2 ^ 53)%Z /\
             (- 3 <= 2 * (3 * Zpos m - 2 ^ 54) <= 3)%Z) /\
  (exists m, float_milli = S754_finite false m (-62) /\
             (2 ^ 52 <= Zpos m < 2 ^ 53)%Z /\
             (- 1000 <= 2 * (1000 * Zpos m - 2 ^ 62) <= 1000)%Z) /\
  float_one = S754_finite false (2 ^ 52) (-52).
Proof.
  split; [reflexivity|].
  split; [eexists; split; [reflexivity | vm_compute; repeat split; (discriminate || reflexivity)]|].
  split; [eexists; split; [reflexivity | vm_compute; repeat split; (discriminate || reflexivity)]|].
  reflexivity.
Qed.

(** The sibling branch of [add_experiment]: for group B the batch reaches
    the ledger, and the posterior is (9, 3) with mean 0.75, the float
    3 * 2^-2. *)
Lemma add_experiment_fresh_group_B (DataFrame_append : Pd.DataFrame -> list value -> option exn) :
  exists self,
    add_experiment DataFrame_append (of_Z 8) (of_Z 2) "B" fresh
    = (Returned tt, self) /\
    dataB self = [[of_Z 1; of_Z 1]; [of_Z 8; of_Z 2]] /\
    post_parameters None "B" self = Returned (of_Z 9, of_Z 3) /\
    post_pred None "B" self
    = Returned (PyFloat (S754_finite false (3 * 2 ^ 51) (-53))).
Proof.
  eexists; split; [reflexivity|]; split; [reflexivity|].
  split; vm_compute; reflexivity.
Qed.

(** Float sums depend on the order of the batches: after the Neutral seed,
    the batches (1, 1) and (2, 2) give another sum of hits than (2, 2) and
    (1, 1). *)
Lemma float_sums_depend_on_order :
  post_parameters (Some (seeded float_third float_third [(1, 1); (2, 2)]%Z))
    "A" fresh
  <> post_parameters (Some (seeded float_third float_third [(2, 2); (1, 1)]%Z))
       "A" fresh.
Proof.
  vm_compute; discriminate.
Qed.

(** ** Properties of the ledger and posterior operations *)

(** C1.  On the instance built with the Bayes-Laplace prior, the
    observed-count append of 8 hits and 2 fails for group A does not reach
    group A's ledger: the call raises [AttributeError] (it goes through
    [self.data], which is [None]), the instance is unchanged, and the posterior
    parameters of group A remain (1, 1) instead of (9, 3). *)
Theorem add_experiment_group_A_fresh
    (DataFrame_append : Pd.DataFrame -> list value -> option exn) :
  __init__ "Bayes-Laplace" = Returned fresh /\
  add_experiment DataFrame_append (of_Z 8) (of_Z 2) "A" fresh
  = (Raised AttributeError, fresh) /\
  post_parameters None "A" fresh = Returned (of_Z 1, of_Z 1).
Proof.
  repeat split; reflexivity.
Qed.

(** C2, as stated, fails: with hits = -1 and fails = 5 the observed-count
    append for group B returns normally and stores the batch, so it is not
    true that every call with a negative count raises and appends nothing. *)
Lemma add_experiment_negative_is_stored :
  add_experiment append_returns (of_Z (-1)) (of_Z 5) "B" fresh
  = (Returned tt,
     {| prior := [of_Z 1; of_Z 1];
        dataA := [[of_Z 1; of_Z 1]];
        dataB := [[of_Z 1; of_Z 1]; [of_Z (-1); of_Z 5]];
        data := None |}) /\
  ~ (forall (DataFrame_append : Pd.DataFrame -> list value -> option exn)
       (hits fails : Z) (group : string) (self : BaysBernoulli),
        (hits < 0 \/ fails < 0)%Z ->
        exists e,
          add_experiment DataFrame_append (of_Z hits) (of_Z fails) group self
          = (Raised e, self)).
Proof.
  split; [reflexivity|].
  intros H.
  destruct (H append_returns (-1)%Z 5%Z "B"%string fresh) as [e He]; [lia|].
  discriminate He.
Qed.

(** C2, amended.  The observed-count append checks no sign: for all integer
    counts, negative ones included, the call for group B returns without
    error, appends exactly the batch [hits, fails] at the end of group B's
    ledger and leaves everything else as it was. *)
Theorem add_experiment_group_B_appends
    (DataFrame_append : Pd.DataFrame -> list value -> option exn)
    (hits fails : Z) (self : BaysBernoulli) :
  exists self',
    add_experiment DataFrame_append (of_Z hits) (of_Z fails) "B" self
    = (Returned tt, self') /\
    dataB self' = dataB self ++ [[of_Z hits; of_Z fails]] /\
    dataA self' = dataA self /\
    prior self' = prior self /\
    data self' = data self.
Proof.
  eexists; repeat split; reflexivity.
Qed.

(** C3.  Construction succeeds for each of the four recognised prior names
    and raises the configuration error ([SyntaxError]) for every other
    name. *)
Theorem init_prior_names (prior_type : string) :
  (In prior_type recognised_priors ->
   exists self, __init__ prior_type = Returned self) /\
  (~ In prior_type recognised_priors ->
   __init__ prior_type = Raised SyntaxError).
Proof.
  unfold recognised_priors, presets; cbn [map fst In]; split.
  - intros [<- | [<- | [<- | [<- | []]]]]; eexists; reflexivity.
  - intros Hnot; unfold __init__.
    repeat
      match goal with
      | |- context [String.eqb prior_type ?s] =>
          destruct (String.eqb_spec prior_type s) as [-> | ?];
          [exfalso; apply Hnot; tauto|]
      end.
    reflexivity.
Qed.

Lemma init_prior_names_witness :
  (In "Jeffreys"%string recognised_priors /\
   exists self, __init__ "Jeffreys" = Returned self) /\
  (~ In "Flat"%string recognised_priors /\
   __init__ "Flat" = Raised SyntaxError).
Proof.
  split; split.
  - right; left; reflexivity.
  - apply (proj1 (init_prior_names "Jeffreys")); right; left; reflexivity.
  - intros [H | [H | [H | [H | []]]]]; discriminate H.
  - apply (proj2 (init_prior_names "Flat")).
    intros [H | [H | [H | [H | []]]]]; discriminate H.
Defined.




(** C5, as stated, fails: on the ledger that holds the seed (1, 1) and the
    batch (10^17, 0) the posterior parameters are 10^17 + 1 > 0 and 1 > 0,
    and the posterior mean is exactly 1.0, not a value strictly below 1; on
    the seed (1, 1) followed by (0, 10^400) it is exactly 0.0; and on the
    Haldane seed followed by (10^14, 0) it is again exactly 1.0. *)
Lemma post_pred_reaches_the_ends :
  let l := numeric [(1, 1); (10 ^ 17, 0)]%Z in
  let l' := numeric [(1, 1); (0, 10 ^ 400)]%Z in
  let l'' := seeded float_milli float_milli [(10 ^ 14, 0)%Z] in
  post_parameters (Some l) "A" fresh
  = Returned (PyInt (10 ^ 17 + 1), PyInt 1) /\
  post_pred (Some l) "A" fresh = Returned (PyFloat float_one) /\
  post_parameters (Some l') "A" fresh
  = Returned (PyInt 1, PyInt (10 ^ 400 + 1)) /\
  post_pred (Some l') "A" fresh = Returned (PyFloat (S754_zero false)) /\
  post_pred (Some l'') "A" fresh = Returned (PyFloat float_one) /\
  ~ (forall (data : option ledger) (group : string) (self : BaysBernoulli)
       (a b : Z),
        post_parameters data group self = Returned (PyInt a, PyInt b) ->
        (0 < a)%Z -> (0 < b)%Z ->
        exists r, post_pred data group self = Returned (PyFloat r) /\
                  open_unit_float r).
Proof.
  intros l l' l''.
  assert (Hpost : post_parameters (Some l) "A" fresh
                  = Returned (PyInt (10 ^ 17 + 1), PyInt 1))
    by (vm_compute; reflexivity).
  assert (Hpred : post_pred (Some l) "A" fresh = Returned (PyFloat float_one))
    by (vm_compute; reflexivity).
  split; [exact Hpost|]; split; [exact Hpred|].
  split; [vm_compute; reflexivity|]; split; [vm_compute; reflexivity|].
  split; [vm_compute; reflexivity|].
  intros H.
  destruct (H (Some l) "A"%string fresh _ _ Hpost) as (r & Hr & Hopen);
    [reflexivity | reflexivity |].
  rewrite Hpred in Hr; injection Hr as <-.
  destruct Hopen as [_ Hlt]; vm_compute in Hlt; discriminate Hlt.
Qed.

(** C5, amended.  Whenever the posterior parameters are positive numbers a
    and b, the posterior mean returns the float quotient of a by the sum
    a + b, and that float lies between 0 and 1, the ends included: for
    Python integers it is the float nearest to a / (a + b); for Python
    floats and for NumPy floats that are positive numbers of the format it
    is the float nearest to the quotient of a by the float sum a + b; for
    NumPy integers with a + b below 2^53 it is the float nearest to
    a / (a + b). *)
Theorem post_pred_is_mean
    (data : option ledger) (group : string) (self : BaysBernoulli) :
  (forall a b : Z,
     post_parameters data group self = Returned (PyInt a, PyInt b) ->
     (0 < a)%Z -> (0 < b)%Z ->
     exists r,
       post_pred data group self = Returned (PyFloat r) /\
       r = SFdiv prec emax (Py.int_to_sf a) (Py.int_to_sf (a + b)) /\
       unit_float r) /\
  (forall a b : spec_float,
     post_parameters data group self = Returned (PyFloat a, PyFloat b) ->
     positive_float a -> positive_float b ->
     exists r,
       post_pred data group self = Returned (PyFloat r) /\
       r = SFdiv prec emax a (SFadd prec emax a b) /\
       unit_float r) /\
  (forall a b : spec_float,
     post_parameters data group self = Returned (NpFloat a, NpFloat b) ->
     positive_float a -> positive_float b ->
     exists r,
       post_pred data group self = Returned (NpFloat r) /\
       r = SFdiv prec emax a (SFadd prec emax a b) /\
       unit_float r) /\
  (forall a b : Z,
     post_parameters data group self = Returned (NpInt a, NpInt b) ->
     (0 < a)%Z -> (0 < b)%Z -> (a + b < 2 ^ 53)%Z ->
     exists r,
       post_pred data group self = Returned (NpFloat r) /\
       r = SFdiv prec emax (Py.nearest_float a) (Py.nearest_float (a + b)) /\
       unit_float r).
Proof.
  split; [|split; [|split]].
  - intros a b Hpost Ha Hb.
    pose proof (@quotient_unit a (a + b) Ha ltac:(lia)) as Hunit.
    eexists; split; [|split; [reflexivity | exact Hunit]].
    unfold post_pred; rewrite Hpost.
    cbn [Py.bind fst snd Py.add Py.truediv].
    destruct (Z.eqb_spec (a + b) 0) as [E | _]; [lia|].
    destruct (SFdiv prec emax (Py.int_to_sf a) (Py.int_to_sf (a + b)))
      as [s | s | | s m e]; try reflexivity; destruct s; contradiction.
  - intros a b Hpost Ha Hb.
    destruct (@float_mean_unit a b Ha Hb) as [Hnz Hunit].
    eexists; split; [|split; [reflexivity | exact Hunit]].
    unfold post_pred; rewrite Hpost.
    cbn [Py.bind fst snd Py.add Py.truediv Py.to_float Py.box_float
           Py.is_numpy orb].
    now rewrite Hnz.
  - intros a b Hpost Ha Hb.
    destruct (@float_mean_unit a b Ha Hb) as [_ Hunit].
    eexists; split; [|split; [reflexivity | exact Hunit]].
    unfold post_pred; rewrite Hpost; reflexivity.
  - intros a b Hpost Ha Hb Hsum.
    pose proof (@quotient_unit_small a (a + b) Ha ltac:(lia) Hsum) as Hunit.
    eexists; split; [|split; [reflexivity | exact Hunit]].
    unfold post_pred; rewrite Hpost.
    cbn [Py.bind fst snd Py.add Py.truediv Py.to_int64].
    rewrite wrap_int64_small by lia.
    cbn [Py.bind Py.to_int64]; reflexivity.
Qed.

Lemma post_pred_is_mean_witness :
  let l1 := Some (numeric [(1, 1); (8, 2)]%Z) in
  let l2 := Some (seeded float_half float_half [(8, 2)%Z]) in
  let l3 := Some [[PyFloat float_half; PyFloat float_half];
                  [NpInt 3; NpInt 0]] in
  let l4 := Some [[PyInt 1; PyInt 1]; [NpInt 3; NpInt 0]] in
  let eight_half := S754_finite false 4785074604081152 (-49) in
  let two_half := S754_finite false 5629499534213120 (-51) in
  let three_half := S754_finite false 7881299347898368 (-51) in
  (post_parameters l1 "A" fresh = Returned (PyInt 9, PyInt 3) /\
   (0 < 9)%Z /\ (0 < 3)%Z /\
   exists r,
     post_pred l1 "A" fresh = Returned (PyFloat r) /\
     r = SFdiv prec emax (Py.int_to_sf 9) (Py.int_to_sf (9 + 3)) /\
     unit_float r) /\
  (post_parameters l2 "A" fresh = Returned (PyFloat eight_half, PyFloat two_half) /\
   positive_float eight_half /\ positive_float two_half /\
   exists r,
     post_pred l2 "A" fresh = Returned (PyFloat r) /\
     r = SFdiv prec emax eight_half (SFadd prec emax eight_half two_half) /\
     unit_float r) /\
  (post_parameters l3 "A" fresh = Returned (NpFloat three_half, NpFloat float_half) /\
   positive_float three_half /\ positive_float float_half /\
   exists r,
     post_pred l3 "A" fresh = Returned (NpFloat r) /\
     r = SFdiv prec emax three_half (SFadd prec emax three_half float_half) /\
     unit_float r) /\
  (post_parameters l4 "A" fresh = Returned (NpInt 4, NpInt 1) /\
   (0 < 4)%Z /\ (0 < 1)%Z /\ (4 + 1 < 2 ^ 53)%Z /\
   exists r,
     post_pred l4 "A" fresh = Returned (NpFloat r) /\
     r = SFdiv prec emax (Py.nearest_float 4) (Py.nearest_float (4 + 1)) /\
     unit_float r).
Proof.
  intros l1 l2 l3 l4 eight_half two_half three_half.
  assert (H1 : post_parameters l1 "A" fresh = Returned (PyInt 9, PyInt 3))
    by reflexivity.
  assert (H2 : post_parameters l2 "A" fresh
               = Returned (PyFloat eight_half, PyFloat two_half))
    by (vm_compute; reflexivity).
  assert (H3 : post_parameters l3 "A" fresh
               = Returned (NpFloat three_half, NpFloat float_half))
    by (vm_compute; reflexivity).
  assert (H4 : post_parameters l4 "A" fresh = Returned (NpInt 4, NpInt 1))
    by (vm_compute; reflexivity).
  assert (P17 : positive_float eight_half) by (split; reflexivity || discriminate).
  assert (P5 : positive_float two_half) by (split; reflexivity || discriminate).
  assert (P7 : positive_float three_half) by (split; reflexivity || discriminate).
  assert (Ph : positive_float float_half)
    by (split; reflexivity || discriminate).
  assert (Z9 : (0 < 9)%Z) by reflexivity.
  assert (Z3 : (0 < 3)%Z) by reflexivity.
  assert (Z4 : (0 < 4)%Z) by reflexivity.
  assert (Z1 : (0 < 1)%Z) by reflexivity.
  assert (Zs : (4 + 1 < 2 ^ 53)%Z) by reflexivity.
  split; [|split; [|split]].
  - split; [exact H1|]; split; [exact Z9|]; split; [exact Z3|].
    exact (proj1 (post_pred_is_mean l1 "A" fresh) 9%Z 3%Z H1 Z9 Z3).
  - split; [exact H2|]; split; [exact P17|]; split; [exact P5|].
    exact (proj1 (proj2 (post_pred_is_mean l2 "A" fresh)) eight_half two_half H2 P17 P5).
  - split; [exact H3|]; split; [exact P7|]; split; [exact Ph|].
    exact (proj1 (proj2 (proj2 (post_pred_is_mean l3 "A" fresh)))
             three_half float_half H3 P7 Ph).
  - split; [exact H4|]; split; [exact Z4|]; split; [exact Z1|];
      split; [exact Zs|].
    exact (proj2 (proj2 (proj2 (post_pred_is_mean l4 "A" fresh)))
             4%Z 1%Z H4 Z4 Z1 Zs).
Defined.




(** C7.  For each of the four named priors the constructed instance has, in
    both ledgers, exactly one batch, the preset pseudo-counts (1, 1),
    (0.5, 0.5), (1/3, 1/3) and (1e-3, 1e-3); the posterior parameters of
    either group on that instance are the preset. *)
Theorem init_seeds_both_ledgers :
  Forall
    (fun preset : string * (value * value) =>
       let name := fst preset in
       let alpha0 := fst (snd preset) in
       let beta0 := snd (snd preset) in
       exists self,
         __init__ name = Returned self /\
         dataA self = [[alpha0; beta0]] /\
         dataB self = [[alpha0; beta0]] /\
         post_parameters None "A" self = Returned (alpha0, beta0) /\
         post_parameters None "B" self = Returned (alpha0, beta0))
    presets.
Proof.
  unfold presets; repeat apply Forall_cons; [| | | | apply Forall_nil];
    cbn [fst snd]; eexists; (split; [vm_compute; reflexivity|]);
    repeat split; reflexivity.
Qed.

(** C8.  For a well-formed table whose group column sits at position j: if
    tag "A" or tag "B" appears in no row, ingestion raises the validation
    error ([ValueError]) and the instance is unchanged; when both appear,
    ingestion returns, the batch fields of every row tagged "A" are
    appended in row order to group A's ledger, those of every row tagged
    "B" to group B's ledger, and the table is kept in [data]. *)
Theorem add_data_ingests_by_group
    (df : Pd.DataFrame) (group_col_name : string) (j : nat)
    (self : BaysBernoulli) :
  Pd.well_formed df ->
  Pd.position group_col_name (Pd.columns df) = Some j ->
  (~ (tag_appears j "A" (Pd.values df) /\ tag_appears j "B" (Pd.values df)) ->
   add_data df group_col_name self = (Raised ValueError, self)) /\
  (tag_appears j "A" (Pd.values df) -> tag_appears j "B" (Pd.values df) ->
   add_data df group_col_name self
   = (Returned tt,
      {| prior := prior self;
         dataA := dataA self ++ rows_of_group j "A" (Pd.values df);
         dataB := dataB self ++ rows_of_group j "B" (Pd.values df);
         data := Some df |})).
Proof.
  intros Hwf Hpos.
  unfold add_data, Pd.getitem; rewrite Hpos.
  cbn [forallb]; rewrite andb_true_r.
  set (col := map (fun r => nth j r (PyInt 0)) (Pd.values df)).
  split.
  - intros Hmissing.
    destruct (Pd.contains (PyStr "A") (Pd.unique col)) eqn:EA;
      [|reflexivity].
    destruct (Pd.contains (PyStr "B") (Pd.unique col)) eqn:EB;
      [|reflexivity].
    exfalso; apply Hmissing; split; apply tag_in_column, contains_unique;
      assumption.
  - intros HA HB.
    apply tag_in_column, contains_unique in HA.
    apply tag_in_column, contains_unique in HB.
    fold col in HA, HB; rewrite HA, HB; cbn [andb negb].
    unfold col.
    rewrite (@drop_select df group_col_name j "A" Hwf Hpos).
    rewrite (@drop_select df group_col_name j "B" Hwf Hpos).
    reflexivity.
Qed.

Lemma add_data_ingests_by_group_witness :
  Pd.well_formed demo_frame /\
  Pd.position "group" (Pd.columns demo_frame) = Some 0%nat /\
  tag_appears 0 "A" (Pd.values demo_frame) /\
  tag_appears 0 "B" (Pd.values demo_frame) /\
  add_data demo_frame "group" fresh
  = (Returned tt,
     {| prior := prior fresh;
        dataA := dataA fresh ++ rows_of_group 0 "A" (Pd.values demo_frame);
        dataB := dataB fresh ++ rows_of_group 0 "B" (Pd.values demo_frame);
        data := Some demo_frame |}) /\
  Pd.well_formed one_group_frame /\
  Pd.position "group" (Pd.columns one_group_frame) = Some 0%nat /\
  ~ (tag_appears 0 "A" (Pd.values one_group_frame) /\
     tag_appears 0 "B" (Pd.values one_group_frame)) /\
  add_data one_group_frame "group" fresh = (Raised ValueError, fresh).
Proof.
  assert (Hnd : NoDup ["group"%string; "hits"%string; "fails"%string]).
  { repeat constructor; cbn [In];
      intros H; repeat destruct H as [H | H]; try discriminate H; exact H. }
  assert (Hwf : Pd.well_formed demo_frame).
  { split; [exact Hnd | repeat constructor]. }
  assert (Hwf1 : Pd.well_formed one_group_frame).
  { split; [exact Hnd | repeat constructor]. }
  assert (HA : tag_appears 0 "A" (Pd.values demo_frame)).
  { eexists; split; [left; reflexivity | reflexivity]. }
  assert (HB : tag_appears 0 "B" (Pd.values demo_frame)).
  { eexists; split; [right; left; reflexivity | reflexivity]. }
  assert (Hmiss : ~ (tag_appears 0 "A" (Pd.values one_group_frame) /\
                     tag_appears 0 "B" (Pd.values one_group_frame))).
  { intros [_ (r & [<- | []] & Htag)]; discriminate Htag. }
  split; [exact Hwf|].
  split; [reflexivity|].
  split; [exact HA|].
  split; [exact HB|].
  split.
  { exact (proj2 (add_data_ingests_by_group "group" fresh Hwf eq_refl) HA HB). }
  split; [exact Hwf1|].
  split; [reflexivity|].
  split; [exact Hmiss|].
  exact (proj1 (add_data_ingests_by_group "group" fresh Hwf1 eq_refl) Hmiss).
Defined.

(** C9, as stated, fails: with 0 <= p <= 1 and n >= 0 but a group that is
    neither "A" nor "B" the simulated-trials append returns and appends no
    batch to any ledger, so it is not true that every such call appends
    exactly one batch. *)
Lemma add_rand_experiment_other_group_appends_nothing :
  (Q2Qc 0 <= Q2Qc (3 # 4) /\ Q2Qc (3 # 4) <= 1) /\ (0 <= 3)%Z /\
  add_rand_experiment halves 3 (Q2Qc (3 # 4)) "C" fresh
  = (Returned tt, fresh) /\
  ~ (forall (random_state : nat -> Qc) (n : Z) (p : Qc) (group : string)
       (self : BaysBernoulli),
        Q2Qc 0 <= p /\ p <= 1 -> (0 <= n)%Z ->
        exists (self' : BaysBernoulli) (batch : list value),
          add_rand_experiment random_state n p group self
          = (Returned tt, self') /\
          (dataA self' = dataA self ++ [batch] \/
           dataB self' = dataB self ++ [batch])).
Proof.
  assert (Hp : Q2Qc 0 <= Q2Qc (3 # 4) /\ Q2Qc (3 # 4) <= 1)
    by (split; discriminate).
  assert (Hn : (0 <= 3)%Z) by discriminate.
  assert (Hcall : add_rand_experiment halves 3 (Q2Qc (3 # 4)) "C" fresh
                  = (Returned tt, fresh)) by reflexivity.
  split; [exact Hp|]; split; [exact Hn|]; split; [exact Hcall|].
  intros H.
  destruct (H halves 3%Z (Q2Qc (3 # 4)) "C"%string fresh Hp Hn)
    as (self' & batch & Hret & Happ).
  rewrite Hcall in Hret; injection Hret as <-.
  destruct Happ as [E | E]; apply (f_equal (@List.length _)) in E;
    rewrite length_app in E; cbn in E; lia.
Qed.

(** C9, amended.  For a call of the simulated-trials append that names group
    A or B: when 0 <= p <= 1 and n >= 0 the sampler returns n draws, draw i
    being 1 when variate i of the random state is below p and 0 otherwise,
    and exactly one batch [k, n - k] is appended to the named group's
    ledger, the rest of the instance being unchanged; k is the number of
    draws that are 1, n - k the number of draws that are 0, and
    0 <= k <= n, with k = n when every variate is below p and k = 0 when
    none is; when p is outside [0, 1] or n is negative the call raises the
    validation error ([ValueError]) and the instance is unchanged. *)
Theorem add_rand_experiment_appends_one_batch
    (random_state : nat -> Qc) (n : Z) (p : Qc) (group : string)
    (self : BaysBernoulli) :
  group = "A"%string \/ group = "B"%string ->
  (Q2Qc 0 <= p /\ p <= 1 -> (0 <= n)%Z ->
   exists (draws : list Z) (k : Z),
     Scipy.bernoulli_rvs random_state p n = Returned draws /\
     Z.of_nat (List.length draws) = n /\
     (forall i, (i < List.length draws)%nat ->
        (random_state i < p -> nth i draws 0%Z = 1%Z) /\
        (p <= random_state i -> nth i draws 0%Z = 0%Z)) /\
     k = Z.of_nat (count_occ Z.eq_dec draws 1%Z) /\
     (n - k)%Z = Z.of_nat (count_occ Z.eq_dec draws 0%Z) /\
     k = successes random_state p n /\
     (0 <= k <= n)%Z /\
     ((forall i, random_state i < p) -> k = n) /\
     ((forall i, p <= random_state i) -> k = 0%Z) /\
     add_rand_experiment random_state n p group self
     = (Returned tt,
        if String.eqb group "A"
        then {| prior := prior self;
                dataA := dataA self ++ [[NpInt k; NpInt (n - k)]];
                dataB := dataB self;
                data := data self |}
        else {| prior := prior self;
                dataA := dataA self;
                dataB := dataB self ++ [[NpInt k; NpInt (n - k)]];
                data := data self |})) /\
  (~ (Q2Qc 0 <= p /\ p <= 1) \/ (n < 0)%Z ->
   add_rand_experiment random_state n p group self
   = (Raised ValueError, self)).
Proof.
  intros Hgroup; split.
  - intros Hp Hn.
    destruct (bernoulli_rvs_valid random_state Hp Hn) as (draws & Hrvs & Hlen).
    destruct (bernoulli_rvs_returned _ _ _ Hrvs) as (_ & _ & _ & Hdraws).
    pose proof (count_ones_map random_state p (seq 0 (Z.to_nat n)))
      as [Hones Hzeros].
    pose proof (count_nonzero_map random_state p (seq 0 (Z.to_nat n)))
      as Hcount.
    rewrite <- Hdraws in Hones, Hzeros, Hcount.
    assert (Hk : Np.count_nonzero draws = successes random_state p n)
      by exact Hcount.
    assert (Hseq : List.length (seq 0 (Z.to_nat n)) = Z.to_nat n)
      by apply length_seq.
    exists draws, (Np.count_nonzero draws).
    split; [exact Hrvs|].
    split; [exact Hlen|].
    split.
    { intros i Hi.
      assert (Hin : (i < Z.to_nat n)%nat) by lia.
      rewrite Hdraws, nth_map_seq by exact Hin.
      split.
      - intros Hlt; apply variate_below in Hlt; now rewrite Hlt.
      - intros Hle; apply variate_above in Hle; now rewrite Hle. }
    split; [rewrite Hones; exact Hcount|].
    split; [rewrite Hcount; lia|].
    split; [exact Hk|].
    split; [rewrite <- Hlen; apply count_nonzero_bounds|].
    split.
    { intros Hall; rewrite Hk; unfold successes.
      rewrite filter_all, length_seq; [lia|].
      intros i _; specialize (Hall i); apply variate_below in Hall.
      now rewrite Hall. }
    split.
    { intros Hnone; rewrite Hk; unfold successes.
      rewrite filter_none; [reflexivity|].
      intros i _; specialize (Hnone i); apply variate_above in Hnone.
      now rewrite Hnone. }
    unfold add_rand_experiment; rewrite Hrvs.
    destruct Hgroup as [-> | ->]; reflexivity.
  - intros Hbad.
    unfold add_rand_experiment.
    now rewrite (bernoulli_rvs_invalid random_state Hbad).
Qed.

Lemma add_rand_experiment_appends_one_batch_witness :
  ("A"%string = "A"%string \/ "A"%string = "B"%string) /\
  (Q2Qc 0 <= Q2Qc (3 # 4) /\ Q2Qc (3 # 4) <= 1) /\
  (0 <= 3)%Z /\
  (forall i : nat, halves i < Q2Qc (3 # 4)) /\
  add_rand_experiment halves 3 (Q2Qc (3 # 4)) "A" fresh
  = (Returned tt,
     {| prior := prior fresh;
        dataA := dataA fresh ++ [[NpInt 3; NpInt (3 - 3)]];
        dataB := dataB fresh;
        data := data fresh |}) /\
  (~ (Q2Qc 0 <= Q2Qc 2 /\ Q2Qc 2 <= 1) \/ (3 < 0)%Z) /\
  add_rand_experiment halves 3 (Q2Qc 2) "A" fresh = (Raised ValueError, fresh).
Proof.
  assert (Hg : "A"%string = "A"%string \/ "A"%string = "B"%string)
    by (left; reflexivity).
  assert (Hp : Q2Qc 0 <= Q2Qc (3 # 4) /\ Q2Qc (3 # 4) <= 1)
    by (split; discriminate).
  assert (Hn : (0 <= 3)%Z) by discriminate.
  assert (Hall : forall i : nat, halves i < Q2Qc (3 # 4))
    by (intros i; reflexivity).
  assert (Hbad : ~ (Q2Qc 0 <= Q2Qc 2 /\ Q2Qc 2 <= 1) \/ (3 < 0)%Z).
  { left; intros [_ H]; apply H; reflexivity. }
  split; [exact Hg|].
  split; [exact Hp|].
  split; [exact Hn|].
  split; [exact Hall|].
  split.
  { destruct (proj1 (add_rand_experiment_appends_one_batch halves 3
                       (Q2Qc (3 # 4)) fresh Hg) Hp Hn)
      as (draws & k & _ & _ & _ & _ & _ & _ & _ & Hfull & _ & Hcall).
    rewrite (Hfull Hall) in Hcall; exact Hcall. }
  split; [exact Hbad|].
  exact (proj2 (add_rand_experiment_appends_one_batch halves 3
                  (Q2Qc 2) fresh Hg) Hbad).
Defined.

(** C10, as stated, fails: with a group that is neither "A" nor "B" the
    simulated-trials append still draws before it looks at the group, so
    for p = 2 the call raises [ValueError]; it is not true that every call
    with such a group returns without an error. *)
Lemma add_rand_experiment_unknown_group_raises :
  add_rand_experiment halves 1 (Q2Qc 2) "C" fresh
  = (Raised ValueError, fresh) /\
  ~ (forall (random_state : nat -> Qc) (n : Z) (p : Qc) (group : string)
       (self : BaysBernoulli),
        group <> "A"%string -> group <> "B"%string ->
        add_rand_experiment random_state n p group self = (Returned tt, self)).
Proof.
  split; [reflexivity|].
  intros H.
  assert (E : add_rand_experiment halves 1 (Q2Qc 2) "C" fresh
              = (Returned tt, fresh))
    by (apply H; discriminate).
  discriminate E.
Qed.

(** C10, amended.  For every group argument other than "A" and "B": the
    observed-count append returns without error and leaves the instance
    unchanged; the simulated-trials append does the same whenever
    0 <= p <= 1 and n >= 0, and raises [ValueError], the instance again
    unchanged, when p is outside [0, 1] or n is negative. *)
Theorem unknown_group_appends_nothing
    (DataFrame_append : Pd.DataFrame -> list value -> option exn)
    (random_state : nat -> Qc)
    (hits fails : value) (n : Z) (p : Qc) (group : string)
    (self : BaysBernoulli) :
  group <> "A"%string -> group <> "B"%string ->
  add_experiment DataFrame_append hits fails group self = (Returned tt, self) /\
  (Q2Qc 0 <= p /\ p <= 1 -> (0 <= n)%Z ->
   add_rand_experiment random_state n p group self = (Returned tt, self)) /\
  (~ (Q2Qc 0 <= p /\ p <= 1) \/ (n < 0)%Z ->
   add_rand_experiment random_state n p group self
   = (Raised ValueError, self)).
Proof.
  intros HA HB.
  apply String.eqb_neq in HA, HB.
  split; [unfold add_experiment; now rewrite HA, HB|].
  split.
  - intros Hp Hn.
    destruct (bernoulli_rvs_valid random_state Hp Hn) as (draws & Hrvs & _).
    unfold add_rand_experiment; now rewrite Hrvs, HA, HB.
  - intros Hbad; unfold add_rand_experiment.
    now rewrite (bernoulli_rvs_invalid random_state Hbad).
Qed.

Lemma unknown_group_appends_nothing_witness :
  "C"%string <> "A"%string /\ "C"%string <> "B"%string /\
  add_experiment append_returns (of_Z 8) (of_Z 2) "C" fresh
  = (Returned tt, fresh) /\
  (Q2Qc 0 <= Q2Qc (3 # 4) /\ Q2Qc (3 # 4) <= 1) /\ (0 <= 3)%Z /\
  add_rand_experiment halves 3 (Q2Qc (3 # 4)) "C" fresh = (Returned tt, fresh) /\
  (~ (Q2Qc 0 <= Q2Qc 2 /\ Q2Qc 2 <= 1) \/ (3 < 0)%Z) /\
  add_rand_experiment halves 3 (Q2Qc 2) "C" fresh = (Raised ValueError, fresh).
Proof.
  assert (HA : "C"%string <> "A"%string) by discriminate.
  assert (HB : "C"%string <> "B"%string) by discriminate.
  assert (Hp : Q2Qc 0 <= Q2Qc (3 # 4) /\ Q2Qc (3 # 4) <= 1)
    by (split; discriminate).
  assert (Hn : (0 <= 3)%Z) by discriminate.
  assert (Hbad : ~ (Q2Qc 0 <= Q2Qc 2 /\ Q2Qc 2 <= 1) \/ (3 < 0)%Z).
  { left; intros [_ H]; apply H; reflexivity. }
  pose proof (unknown_group_appends_nothing append_returns halves
                (of_Z 8) (of_Z 2) 3 (Q2Qc (3 # 4)) fresh HA HB)
    as (Hobs & Hsim & _).
  pose proof (unknown_group_appends_nothing append_returns halves
                (of_Z 8) (of_Z 2) 3 (Q2Qc 2) fresh HA HB)
    as (_ & _ & Hraise).
  split; [exact HA|].
  split; [exact HB|].
  split; [exact Hobs|].
  split; [exact Hp|].
  split; [exact Hn|].
  split; [exact (Hsim Hp Hn)|].
  split; [exact Hbad|].
  exact (Hraise Hbad).
Defined.

(** ** How the writing methods treat the instance *)

Lemma init_shape (prior_type : string) (self : BaysBernoulli) :
  __init__ prior_type = Returned self ->
  dataA self = [prior self] /\ dataB self = [prior self] /\ data self = None /\
  exists preset,
    In preset presets /\
    prior self = [fst (snd preset); snd (snd preset)].
Proof.
  unfold __init__.
  repeat
    match goal with
    | |- context [String.eqb prior_type ?s] => destruct (String.eqb prior_type s)
    end;
    intros H; vm_compute in H; try discriminate H;
    injection H as <-; cbn [dataA dataB data prior];
    (split; [reflexivity|]); (split; [reflexivity|]); (split; [reflexivity|]);
    [ exists ("Bayes-Laplace"%string, (PyInt 1, PyInt 1))
    | exists ("Jeffreys"%string, (PyFloat float_half, PyFloat float_half))
    | exists ("Neutral"%string, (PyFloat float_third, PyFloat float_third))
    | exists ("Haldane"%string, (PyFloat float_milli, PyFloat float_milli)) ];
    (split; [unfold presets; cbn [In]; tauto | reflexivity]).
Qed.

Lemma add_data_cases (df : Pd.DataFrame) (group_col_name : string)
    (self : BaysBernoulli) :
  (exists e, add_data df group_col_name self = (Raised e, self)) \/
  exists j,
    Pd.position group_col_name (Pd.columns df) = Some j /\
    (0 < count_tag j "A" (Pd.values df))%nat /\
    (0 < count_tag j "B" (Pd.values df))%nat /\
    add_data df group_col_name self
    = (Returned tt,
       {| prior := prior self;
          dataA :=
            dataA self ++
            Pd.tolist
              (Pd.drop
                 (Pd.select df
                    (Pd.series_eq
                       (map (fun r => nth j r (PyInt 0)) (Pd.values df))
                       (PyStr "A")))
                 group_col_name);
          dataB :=
            dataB self ++
            Pd.tolist
              (Pd.drop
                 (Pd.select df
                    (Pd.series_eq
                       (map (fun r => nth j r (PyInt 0)) (Pd.values df))
                       (PyStr "B")))
                 group_col_name);
          data := Some df |}).
Proof.
  assert (Hcount : forall j tag,
    Pd.contains (PyStr tag)
      (Pd.unique (map (fun r => nth j r (PyInt 0)) (Pd.values df))) = true ->
    (0 < count_tag j tag (Pd.values df))%nat).
  { intros j tag H.
    apply contains_unique, tag_in_column in H as (r & Hin & Htag).
    unfold count_tag.
    assert (Hf : In r (filter (fun r => Py.eqb (group_tag j r) (PyStr tag))
                         (Pd.values df))).
    { apply filter_In; split; [exact Hin | now apply eqb_true_iff]. }
    destruct (filter _ (Pd.values df)); [contradiction | cbn; lia]. }
  unfold add_data, Pd.getitem.
  destruct (Pd.position group_col_name (Pd.columns df)) as [j|];
    [|left; eexists; reflexivity].
  cbn [forallb]; rewrite andb_true_r.
  destruct (Pd.contains (PyStr "A") _) eqn:EA;
    [|left; eexists; reflexivity].
  destruct (Pd.contains (PyStr "B") _) eqn:EB;
    [|left; eexists; reflexivity].
  right; exists j; repeat split; [now apply Hcount | now apply Hcount].
Qed.

Lemma perform_extends
    (DataFrame_append : Pd.DataFrame -> list value -> option exn)
    (c : call) (self : BaysBernoulli) :
  exists extA extB,
    dataA (snd (perform DataFrame_append c self)) = dataA self ++ extA /\
    dataB (snd (perform DataFrame_append c self)) = dataB self ++ extB /\
    prior (snd (perform DataFrame_append c self)) = prior self.
Proof.
  assert (Hsame : exists extA extB : ledger,
            dataA self = dataA self ++ extA /\
            dataB self = dataB self ++ extB /\ prior self = prior self)
    by (exists [], []; now rewrite !app_nil_r).
  destruct c as [df g | hits fails group | rs n p group]; cbn [perform].
  - destruct (add_data_cases df g self) as [[e' ->] | (j & _ & _ & _ & ->)];
      [exact Hsame|].
    cbn [snd dataA dataB prior]; eauto.
  - unfold add_experiment.
    destruct (String.eqb group "A").
    + destruct (data self) as [df|]; [|exact Hsame].
      destruct (DataFrame_append df [hits; fails]); exact Hsame.
    + destruct (String.eqb group "B"); [|exact Hsame].
      exists [], [[hits; fails]]; cbn; now rewrite app_nil_r.
  - unfold add_rand_experiment.
    destruct (Scipy.bernoulli_rvs rs p n) as [draws|]; [|exact Hsame].
    destruct (String.eqb group "A").
    + exists [[NpInt (Np.count_nonzero draws);
                NpInt (n - Np.count_nonzero draws)]], [].
      cbn; now rewrite app_nil_r.
    + destruct (String.eqb group "B"); [|exact Hsame].
      exists [], [[NpInt (Np.count_nonzero draws);
                   NpInt (n - Np.count_nonzero draws)]].
      cbn; now rewrite app_nil_r.
Qed.

Lemma run_extends
    (DataFrame_append : Pd.DataFrame -> list value -> option exn)
    (cs : list call) (self : BaysBernoulli) :
  exists extA extB,
    dataA (run DataFrame_append cs self) = dataA self ++ extA /\
    dataB (run DataFrame_append cs self) = dataB self ++ extB /\
    prior (run DataFrame_append cs self) = prior self.
Proof.
  revert self; induction cs as [|c cs IH]; intros self; cbn [run].
  - exists [], []; now rewrite !app_nil_r.
  - destruct (IH (snd (perform DataFrame_append c self)))
      as (extA & extB & HA & HB & HP).
    destruct (perform_extends DataFrame_append c self)
      as (eA & eB & HA' & HB' & HP').
    exists (eA ++ extA), (eB ++ extB).
    rewrite HA, HB, HP, HA', HB', HP', !app_assoc; auto.
Qed.

Lemma add_experiment_keeps_dataA
    (DataFrame_append : Pd.DataFrame -> list value -> option exn)
    (hits fails : value) (group : string) (self : BaysBernoulli) :
  dataA (snd (add_experiment DataFrame_append hits fails group self))
  = dataA self.
Proof.
  unfold add_experiment.
  destruct (String.eqb group "A").
  - destruct (data self) as [df|]; [|reflexivity].
    destruct (DataFrame_append df [hits; fails]); reflexivity.
  - destruct (String.eqb group "B"); reflexivity.
Qed.

Lemma post_parameters_of_ledger (group : string) (s1 s2 : BaysBernoulli) :
  (group = "A"%string -> dataA s1 = dataA s2) ->
  (group = "B"%string -> dataB s1 = dataB s2) ->
  post_parameters None group s1 = post_parameters None group s2 /\
  post_pred None group s1 = post_pred None group s2 /\
  make_cum_post_para group s1 = make_cum_post_para group s2.
Proof.
  intros HA HB.
  unfold post_pred, post_parameters, make_cum_post_para.
  destruct (String.eqb_spec group "A") as [E | _];
    [rewrite (HA E); auto|].
  destruct (String.eqb_spec group "B") as [E | _];
    [rewrite (HB E); auto | auto].
Qed.

(** ** Errors of the array operations *)

Lemma add_raises (x y : value) (e : exn) :
  Py.add x y = Raised e -> e = TypeError \/ e = OverflowError.
Proof.
  destruct x, y;
    cbn [Py.add Py.bind Py.to_float Py.to_int64]; unfold Py.float_of_int;
    repeat
      match goal with
      | |- context [if ?c then _ else _] => destruct c
      | |- context [match Py.nearest_float ?z with _ => _ end] =>
          destruct (Py.nearest_float z)
      end;
    cbn [Py.bind]; intros H; inversion H; auto.
Qed.

Lemma fold_add_raises (xs : list value) (x : value) (e : exn) :
  fold_left (fun o y => a <- o ;; Py.add a y) xs (Returned x) = Raised e ->
  e = TypeError \/ e = OverflowError.
Proof.
  revert x; induction xs as [|y xs IH]; intros x; cbn [fold_left Py.bind].
  - discriminate.
  - destruct (Py.add x y) as [s|e'] eqn:E.
    + apply IH.
    + rewrite fold_add_raised; intros H; injection H as <-.
      exact (add_raises _ _ E).
Qed.

Lemma sum_raises (col : list value) (e : exn) :
  Np.sum col = Raised e -> e = TypeError \/ e = OverflowError.
Proof.
  destruct col as [|x xs]; cbn [Np.sum]; [discriminate | apply fold_add_raises].
Qed.

Lemma column_raises (a : Np.ndarray) (j : nat) (e : exn) :
  Np.column a j = Raised e -> e = IndexError.
Proof.
  destruct a as [k | m rows]; cbn [Np.column].
  - intros H; now inversion H.
  - destruct (Nat.ltb j m); intros H; now inversion H.
Qed.

Lemma last_cons (A : Type) (l : list A) (x d : A) :
  last (x :: l) d = last l x.
Proof.
  revert x d; induction l as [|y l IH]; intros x d; [reflexivity|].
  change (last (x :: y :: l) d) with (last (y :: l) d).
  now rewrite (IH y d), (IH y x).
Qed.

(** The running sums end in the sum, and fail where the sum fails. *)
Lemma accumulate_fold (xs : list value) (acc : value) :
  match Np.accumulate acc xs with
  | Returned l =>
      fold_left (fun o y => a <- o ;; Py.add a y) xs (Returned acc)
      = Returned (last l acc) /\
      List.length l = List.length xs
  | Raised e =>
      fold_left (fun o y => a <- o ;; Py.add a y) xs (Returned acc) = Raised e
  end.
Proof.
  revert acc; induction xs as [|y xs IH]; intros acc;
    cbn [Np.accumulate fold_left Py.bind].
  - split; reflexivity.
  - destruct (Py.add acc y) as [s|e]; cbn [Py.bind].
    + specialize (IH s).
      destruct (Np.accumulate s xs) as [l|e]; cbn [Py.bind].
      * destruct IH as [IH Hlen]; split; [|cbn; now rewrite Hlen].
        now rewrite IH, last_cons.
      * exact IH.
    + apply fold_add_raised.
Qed.

Lemma cumsum_sum (x : value) (xs : list value) :
  match Np.cumsum (x :: xs) with
  | Returned l =>
      Np.sum (x :: xs) = Returned (last l x) /\
      List.length l = List.length (x :: xs)
  | Raised e => Np.sum (x :: xs) = Raised e
  end.
Proof.
  cbn [Np.cumsum Np.sum].
  pose proof (accumulate_fold xs x) as H.
  destruct (Np.accumulate x xs) as [l|e]; cbn [Py.bind]; [|exact H].
  destruct H as [H Hlen]; split; [|cbn; now rewrite Hlen].
  now rewrite H, last_cons.
Qed.

Lemma cumsum_raises (col : list value) (e : exn) :
  Np.cumsum col = Raised e -> e = TypeError \/ e = OverflowError.
Proof.
  destruct col as [|x xs]; [discriminate|].
  pose proof (cumsum_sum x xs) as H; intros E; rewrite E in H.
  exact (sum_raises _ H).
Qed.

(** ** Shapes of the object array *)

Lemma array_rectangular (d : ledger) (m : nat) :
  rectangular d m -> Np.array d = Np.Array2 m d.
Proof.
  intros [Hne Hall]; destruct d as [|r rs]; [contradiction|].
  inversion Hall as [|? ? Hr Hrs]; subst; unfold Np.array.
  replace (forallb _ rs) with true; [reflexivity|].
  symmetry; apply forallb_forall; intros r' Hr'.
  rewrite Forall_forall in Hrs; apply Nat.eqb_eq; now apply Hrs.
Qed.

Lemma array_ragged (d : ledger) :
  ~ (exists m, rectangular d m) -> Np.array d = Np.Array1 (List.length d).
Proof.
  intros Hnot; destruct d as [|r rs]; [reflexivity|]; unfold Np.array.
  destruct (forallb _ rs) eqn:E; [|reflexivity].
  exfalso; apply Hnot; exists (List.length r); split; [discriminate|].
  constructor; [reflexivity|].
  apply Forall_forall; intros r' Hr'.
  rewrite forallb_forall in E; apply Nat.eqb_eq; now apply E.
Qed.

Lemma rectangular_unique (d : ledger) (m m' : nat) :
  rectangular d m -> rectangular d m' -> m = m'.
Proof.
  intros [Hne H] [_ H']; destruct d as [|r rs]; [contradiction|].
  inversion H; inversion H'; congruence.
Qed.

(** ** Further properties: the ledgers under the writing methods *)

(** X1.  A call of [add_data], [add_experiment] or [add_rand_experiment]
    that raises leaves the instance exactly as it found it: no ledger is
    half written and no table is stored. *)
Theorem raising_call_leaves_instance
    (DataFrame_append : Pd.DataFrame -> list value -> option exn)
    (c : call) (self : BaysBernoulli) (e : exn) :
  fst (perform DataFrame_append c self) = Raised e ->
  snd (perform DataFrame_append c self) = self.
Proof.
  destruct c as [df g | hits fails group | rs n p group]; cbn [perform].
  - destruct (add_data_cases df g self) as [[e' ->] | (j & _ & _ & _ & ->)];
      [reflexivity | discriminate].
  - unfold add_experiment.
    destruct (String.eqb group "A").
    + destruct (data self) as [df|]; [|reflexivity].
      destruct (DataFrame_append df [hits; fails]); reflexivity.
    + destruct (String.eqb group "B"); [discriminate | reflexivity].
  - unfold add_rand_experiment.
    destruct (Scipy.bernoulli_rvs rs p n); [|reflexivity].
    destruct (String.eqb group "A"); [discriminate|].
    destruct (String.eqb group "B"); [discriminate | reflexivity].
Qed.

Lemma raising_call_leaves_instance_witness :
  fst (perform append_returns (AddData one_group_frame "group") fresh)
  = Raised ValueError /\
  snd (perform append_returns (AddData one_group_frame "group") fresh) = fresh.
Proof.
  assert (H : fst (perform append_returns (AddData one_group_frame "group")
                     fresh) = Raised ValueError) by reflexivity.
  split; [exact H|].
  exact (raising_call_leaves_instance append_returns
           (AddData one_group_frame "group") fresh H).
Defined.

(** X2.  The ledgers are append-only: after any sequence of calls of the
    three writing methods, whatever they return or raise, each ledger is
    the ledger it was followed by further batches, and the prior is the
    same. *)
Theorem ledgers_only_grow
    (DataFrame_append : Pd.DataFrame -> list value -> option exn)
    (cs : list call) (self : BaysBernoulli) :
  exists extA extB,
    dataA (run DataFrame_append cs self) = dataA self ++ extA /\
    dataB (run DataFrame_append cs self) = dataB self ++ extB /\
    prior (run DataFrame_append cs self) = prior self.
Proof.
  apply run_extends.
Qed.

(** X3.  On an instance that the constructor returned, after any sequence
    of calls of the writing methods both ledgers still begin with the
    prior batch; in particular neither ledger is ever empty. *)
Theorem ledgers_keep_their_seed
    (DataFrame_append : Pd.DataFrame -> list value -> option exn)
    (prior_type : string) (self : BaysBernoulli) (cs : list call) :
  __init__ prior_type = Returned self ->
  exists restA restB,
    dataA (run DataFrame_append cs self) = prior self :: restA /\
    dataB (run DataFrame_append cs self) = prior self :: restB.
Proof.
  intros Hinit; apply init_shape in Hinit as (HA & HB & _).
  destruct (run_extends DataFrame_append cs self) as (extA & extB & EA & EB & _).
  exists extA, extB; rewrite EA, EB, HA, HB; split; reflexivity.
Qed.

Lemma ledgers_keep_their_seed_witness :
  let cs := [AddRandExperiment halves 3 (Q2Qc (3 # 4)) "A";
             AddExperiment (of_Z 8) (of_Z 2) "A";
             AddData demo_frame "group"] in
  __init__ "Jeffreys" = Returned fresh_jeffreys /\
  exists restA restB,
    dataA (run append_returns cs fresh_jeffreys)
    = [PyFloat float_half; PyFloat float_half] :: restA /\
    dataB (run append_returns cs fresh_jeffreys)
    = [PyFloat float_half; PyFloat float_half] :: restB.
Proof.
  intros cs.
  assert (Hinit : __init__ "Jeffreys" = Returned fresh_jeffreys)
    by (vm_compute; reflexivity).
  split; [exact Hinit|].
  exact (ledgers_keep_their_seed append_returns "Jeffreys" cs Hinit).
Defined.

(** X4.  [add_experiment] never adds to group A's ledger: after any number
    of observed-count calls, for any groups and any counts, with or without
    an ingested table, group A's ledger and its posterior parameters are
    what they were. *)
Theorem add_experiment_never_reaches_group_A
    (DataFrame_append : Pd.DataFrame -> list value -> option exn)
    (args : list (value * value * string)) (self : BaysBernoulli) :
  dataA (run DataFrame_append (map observed args) self) = dataA self /\
  post_parameters None "A" (run DataFrame_append (map observed args) self)
  = post_parameters None "A" self.
Proof.
  assert (H : dataA (run DataFrame_append (map observed args) self)
              = dataA self).
  { revert self; induction args as [|a args IH]; intros self;
      cbn [map run]; [reflexivity|].
    rewrite IH; unfold observed; cbn [perform].
    apply add_experiment_keeps_dataA. }
  split; [exact H|].
  apply post_parameters_of_ledger; [intros _; exact H | discriminate].
Qed.

(** X5.  An append for one group does not touch the other: a
    simulated-trials call for a group other than "A" leaves the posterior
    parameters and the cumulative parameters of group A as they were, and a
    simulated-trials or observed-count call for a group other than "B"
    leaves those of group B as they were. *)
Theorem appends_leave_other_group
    (DataFrame_append : Pd.DataFrame -> list value -> option exn)
    (random_state : nat -> Qc) (hits fails : value) (n : Z) (p : Qc)
    (group : string) (self : BaysBernoulli) :
  (group <> "A"%string ->
   post_parameters None "A"
     (snd (add_rand_experiment random_state n p group self))
   = post_parameters None "A" self /\
   make_cum_post_para "A"
     (snd (add_rand_experiment random_state n p group self))
   = make_cum_post_para "A" self) /\
  (group <> "B"%string ->
   post_parameters None "B"
     (snd (add_rand_experiment random_state n p group self))
   = post_parameters None "B" self /\
   make_cum_post_para "B"
     (snd (add_rand_experiment random_state n p group self))
   = make_cum_post_para "B" self /\
   post_parameters None "B"
     (snd (add_experiment DataFrame_append hits fails group self))
   = post_parameters None "B" self /\
   make_cum_post_para "B"
     (snd (add_experiment DataFrame_append hits fails group self))
   = make_cum_post_para "B" self).
Proof.
  assert (HrA : group <> "A"%string ->
    dataA (snd (add_rand_experiment random_state n p group self))
    = dataA self).
  { intros H; apply String.eqb_neq in H; unfold add_rand_experiment.
    destruct (Scipy.bernoulli_rvs random_state p n); [|reflexivity].
    rewrite H; destruct (String.eqb group "B"); reflexivity. }
  assert (HrB : group <> "B"%string ->
    dataB (snd (add_rand_experiment random_state n p group self))
    = dataB self).
  { intros H; apply String.eqb_neq in H; unfold add_rand_experiment.
    destruct (Scipy.bernoulli_rvs random_state p n); [|reflexivity].
    rewrite H; destruct (String.eqb group "A"); reflexivity. }
  assert (HoB : group <> "B"%string ->
    dataB (snd (add_experiment DataFrame_append hits fails group self))
    = dataB self).
  { intros H; apply String.eqb_neq in H; unfold add_experiment.
    rewrite H; destruct (String.eqb group "A"); [|reflexivity].
    destruct (data self) as [df|]; [|reflexivity].
    destruct (DataFrame_append df [hits; fails]); reflexivity. }
  split; intros Hg.
  - destruct (@post_parameters_of_ledger "A"
                (snd (add_rand_experiment random_state n p group self)) self)
      as (H1 & _ & H2); [intros _; now apply HrA | discriminate|].
    now split.
  - destruct (@post_parameters_of_ledger "B"
                (snd (add_rand_experiment random_state n p group self)) self)
      as (H1 & _ & H2); [discriminate | intros _; now apply HrB|].
    destruct (@post_parameters_of_ledger "B"
                (snd (add_experiment DataFrame_append hits fails group self))
                self)
      as (H3 & _ & H4); [discriminate | intros _; now apply HoB|].
    repeat split; assumption.
Qed.

Lemma appends_leave_other_group_witness :
  "B"%string <> "A"%string /\
  post_parameters None "A"
    (snd (add_rand_experiment halves 3 (Q2Qc (3 # 4)) "B" fresh))
  = post_parameters None "A" fresh /\
  "A"%string <> "B"%string /\
  post_parameters None "B"
    (snd (add_rand_experiment halves 3 (Q2Qc (3 # 4)) "A" fresh))
  = post_parameters None "B" fresh.
Proof.
  assert (HBA : "B"%string <> "A"%string) by discriminate.
  assert (HAB : "A"%string <> "B"%string) by discriminate.
  split; [exact HBA|].
  split.
  { exact (proj1 (proj1 (appends_leave_other_group append_returns halves
                           (of_Z 8) (of_Z 2) 3 (Q2Qc (3 # 4)) "B" fresh)
                    HBA)). }
  split; [exact HAB|].
  exact (proj1 (proj2 (appends_leave_other_group append_returns halves
                         (of_Z 8) (of_Z 2) 3 (Q2Qc (3 # 4)) "A" fresh)
                  HAB)).
Defined.

(** ** Counts that are not negative *)

Lemma numeric_app (l1 l2 : list (Z * Z)) :
  numeric (l1 ++ l2) = numeric l1 ++ numeric l2.
Proof.
  unfold numeric; apply map_app.
Qed.

Lemma total_nonneg (l : list Z) :
  Forall (fun x => (0 <= x)%Z) l -> (0 <= total l)%Z.
Proof.
  unfold total; induction 1 as [|x l Hx _ IH]; cbn [fold_right]; lia.
Qed.

Lemma total_positive (s : Z) (l : list Z) :
  (0 < s)%Z -> Forall (fun x => (0 <= x)%Z) l -> (0 < total (s :: l))%Z.
Proof.
  intros Hs Hl; apply total_nonneg in Hl.
  unfold total in *; cbn [fold_right]; lia.
Qed.

Lemma positive_seeded_posterior (data : option ledger) (group : string)
    (self : BaysBernoulli) (l : ledger) :
  reads data group self l -> positive_seeded l ->
  exists a b,
    post_parameters data group self = Returned (PyInt a, PyInt b) /\
    (0 < a)%Z /\ (0 < b)%Z.
Proof.
  intros Hreads (seed & rest & -> & Hs1 & Hs2 & Hrest).
  exists (total (map fst (seed :: rest))), (total (map snd (seed :: rest))).
  split; [now apply post_parameters_numeric|].
  split; cbn [map]; apply total_positive; try assumption;
    apply Forall_map; eapply Forall_impl; [|exact Hrest| |exact Hrest];
    intros b Hb; apply Hb.
Qed.

Lemma positive_seeded_app (l : ledger) (l' : list (Z * Z)) :
  positive_seeded l -> Forall nonneg_batch l' ->
  positive_seeded (l ++ numeric l').
Proof.
  intros (seed & rest & -> & Hs1 & Hs2 & Hrest) Hl'.
  exists seed, (rest ++ l'); repeat split; try assumption.
  - now rewrite <- numeric_app.
  - apply Forall_app; now split.
Qed.

Lemma rows_of_group_counts (j : nat) (tag : string) (rows : list (list value)) :
  Forall
    (fun r => exists b, batch_fields j r = [PyInt (fst b); PyInt (snd b)] /\
                        nonneg_batch b) rows ->
  exists l, rows_of_group j tag rows = numeric l /\ Forall nonneg_batch l.
Proof.
  unfold rows_of_group.
  induction 1 as [|r rows (b & Hb & Hnn) _ (l & Hl & Hall)]; cbn [filter map].
  - exists []; split; [reflexivity | constructor].
  - destruct (Py.eqb (group_tag j r) (PyStr tag)).
    + exists (b :: l); cbn [map numeric]; split;
        [unfold numeric in Hl; now rewrite Hb, Hl | now constructor].
    + exists l; now split.
Qed.

Lemma perform_keeps_positive
    (DataFrame_append : Pd.DataFrame -> list value -> option exn)
    (c : call) (self : BaysBernoulli) :
  counts_call c ->
  positive_seeded (dataA self) /\ positive_seeded (dataB self) ->
  positive_seeded (dataA (snd (perform DataFrame_append c self))) /\
  positive_seeded (dataB (snd (perform DataFrame_append c self))).
Proof.
  intros Hc [HA HB].
  destruct c as [df g | hits fails group | rs n p group]; cbn [perform];
    [| |contradiction].
  - destruct Hc as (Hwf & j & Hpos & Hrows).
    destruct (add_data_cases df g self) as [[e ->] | (j' & Hpos' & _ & _ & ->)];
      [now split|].
    rewrite Hpos in Hpos'; injection Hpos' as <-.
    cbn [snd dataA dataB].
    rewrite (@drop_select df g j "A" Hwf Hpos).
    rewrite (@drop_select df g j "B" Hwf Hpos).
    destruct (@rows_of_group_counts j "A" _ Hrows) as (lA & -> & HlA).
    destruct (@rows_of_group_counts j "B" _ Hrows) as (lB & -> & HlB).
    split; now apply positive_seeded_app.
  - destruct hits as [h| | | |]; try contradiction.
    destruct fails as [f| | | |]; try contradiction.
    cbn [counts_call] in Hc.
    unfold add_experiment.
    destruct (String.eqb group "A").
    + destruct (data self) as [df|]; [|now split].
      destruct (DataFrame_append df [PyInt h; PyInt f]); now split.
    + destruct (String.eqb group "B"); [|now split].
      cbn [snd extend_dataB dataA dataB]; split; [exact HA|].
      apply (@positive_seeded_app (dataB self) [(h, f)]);
        [exact HB | now constructor].
Qed.

Lemma run_keeps_positive
    (DataFrame_append : Pd.DataFrame -> list value -> option exn)
    (cs : list call) (self : BaysBernoulli) :
  Forall counts_call cs ->
  positive_seeded (dataA self) /\ positive_seeded (dataB self) ->
  positive_seeded (dataA (run DataFrame_append cs self)) /\
  positive_seeded (dataB (run DataFrame_append cs self)).
Proof.
  intros Hcs; revert self.
  induction Hcs as [|c cs Hc _ IH]; intros self Hpos; cbn [run];
    [exact Hpos|].
  apply IH; now apply perform_keeps_positive.
Qed.

Lemma fresh_positive :
  positive_seeded (dataA fresh) /\ positive_seeded (dataB fresh).
Proof.
  split; exists (1, 1)%Z, []; repeat split; constructor.
Qed.

Lemma float_total_snoc (acc : spec_float) (zs : list Z) (z : Z) :
  float_total acc (zs ++ [z])
  = SFadd prec emax (float_total acc zs) (Py.nearest_float z).
Proof.
  unfold float_total; now rewrite fold_left_app.
Qed.

Lemma seeded_app (alpha0 beta0 : spec_float) (l1 l2 : list (Z * Z)) :
  seeded alpha0 beta0 (l1 ++ l2) = seeded alpha0 beta0 l1 ++ numeric l2.
Proof.
  unfold seeded; now rewrite numeric_app.
Qed.

(** ** Further properties: the posterior under appends *)

(** X6.  The conjugate update for observed counts.  On a ledger of group B
    that holds Python integers, with posterior parameters (a, b), the
    observed-count call for group B with Python integers hits and fails
    moves the posterior parameters to exactly (a + hits, b + fails).  On a
    ledger of group B with a float seed followed by Python integers within
    the range of the floats, it moves them to the float sums a + hits and
    b + fails when hits and fails are within that range, and makes the
    posterior parameters raise [OverflowError] when one is not. *)
Theorem observed_batch_adds_to_posterior
    (DataFrame_append : Pd.DataFrame -> list value -> option exn)
    (h f : Z) (self : BaysBernoulli) :
  (forall (seed : Z * Z) (rest : list (Z * Z)),
     reads None "B" self (numeric (seed :: rest)) ->
     exists a b,
       post_parameters None "B" self = Returned (PyInt a, PyInt b) /\
       post_parameters None "B"
         (snd (add_experiment DataFrame_append (PyInt h) (PyInt f) "B" self))
       = Returned (PyInt (a + h), PyInt (b + f))) /\
  (forall (alpha0 beta0 : spec_float) (rest : list (Z * Z)),
     reads None "B" self (seeded alpha0 beta0 rest) ->
     forallb converts (map fst rest) && forallb converts (map snd rest)
     = true ->
     exists a b,
       post_parameters None "B" self = Returned (PyFloat a, PyFloat b) /\
       post_parameters None "B"
         (snd (add_experiment DataFrame_append (PyInt h) (PyInt f) "B" self))
       = if converts h && converts f
         then Returned (PyFloat (SFadd prec emax a (Py.nearest_float h)),
                        PyFloat (SFadd prec emax b (Py.nearest_float f)))
         else Raised OverflowError).
Proof.
  split.
  - intros seed rest Hreads.
    assert (HB : dataB self = numeric (seed :: rest)).
    { destruct Hreads as [H | [(_ & H & _) | (_ & _ & H)]];
        [discriminate H | discriminate H | exact H]. }
    exists (total (map fst (seed :: rest))), (total (map snd (seed :: rest))).
    split; [now apply post_parameters_numeric|].
    assert (Hreads' :
      reads None "B"
        (snd (add_experiment DataFrame_append (PyInt h) (PyInt f) "B" self))
        (numeric (seed :: rest ++ [(h, f)]))).
    { right; right; repeat split.
      cbn [add_experiment String.eqb Ascii.eqb Bool.eqb snd extend_dataB dataB].
      rewrite HB, app_comm_cons, numeric_app; reflexivity. }
    rewrite (post_parameters_numeric Hreads').
    unfold aggregate; cbn [fst snd].
    rewrite !app_comm_cons, !map_app, !total_app.
    do 3 f_equal; unfold total; cbn [map fold_right fst snd]; lia.
  - intros alpha0 beta0 rest Hreads Hok.
    assert (HB : dataB self = seeded alpha0 beta0 rest).
    { destruct Hreads as [H | [(_ & H & _) | (_ & _ & H)]];
        [discriminate H | discriminate H | exact H]. }
    exists (float_total alpha0 (map fst rest)),
      (float_total beta0 (map snd rest)).
    split; [now rewrite (post_parameters_seeded Hreads), Hok|].
    assert (Hreads' :
      reads None "B"
        (snd (add_experiment DataFrame_append (PyInt h) (PyInt f) "B" self))
        (seeded alpha0 beta0 (rest ++ [(h, f)]))).
    { right; right; repeat split.
      cbn [add_experiment String.eqb Ascii.eqb Bool.eqb snd extend_dataB dataB].
      rewrite HB, seeded_app; reflexivity. }
    rewrite (post_parameters_seeded Hreads').
    apply andb_prop in Hok as [Hok1 Hok2].
    rewrite (map_app fst rest), (map_app snd rest), !forallb_app, Hok1, Hok2.
    cbn [map fst snd forallb andb].
    rewrite !andb_true_r, !float_total_snoc.
    reflexivity.
Qed.

Lemma observed_batch_adds_to_posterior_witness :
  let self := extend_dataB [[of_Z 3; of_Z 7]] fresh_jeffreys in
  (reads None "B" fresh (numeric [(1, 1)%Z]) /\
   exists a b,
     post_parameters None "B" fresh = Returned (PyInt a, PyInt b) /\
     post_parameters None "B"
       (snd (add_experiment append_returns (PyInt 8) (PyInt 2) "B" fresh))
     = Returned (PyInt (a + 8), PyInt (b + 2))) /\
  (reads None "B" self (seeded float_half float_half [(3, 7)%Z]) /\
   forallb converts [3]%Z && forallb converts [7]%Z = true /\
   exists a b,
     post_parameters None "B" self = Returned (PyFloat a, PyFloat b) /\
     post_parameters None "B"
       (snd (add_experiment append_returns (PyInt 8) (PyInt 2) "B" self))
     = Returned (PyFloat (SFadd prec emax a (Py.nearest_float 8)),
                 PyFloat (SFadd prec emax b (Py.nearest_float 2)))).
Proof.
  intros self.
  assert (Hreads : reads None "B" fresh (numeric [(1, 1)%Z])).
  { right; right; repeat split; reflexivity. }
  assert (Hreads' : reads None "B" self (seeded float_half float_half [(3, 7)%Z])).
  { right; right; repeat split; reflexivity. }
  assert (Hok : forallb converts [3]%Z && forallb converts [7]%Z = true)
    by (vm_compute; reflexivity).
  split.
  - split; [exact Hreads|].
    exact (proj1 (observed_batch_adds_to_posterior append_returns 8 2 fresh)
             (1, 1)%Z [] Hreads).
  - split; [exact Hreads'|]; split; [exact Hok|].
    exact (proj2 (observed_batch_adds_to_posterior append_returns 8 2 self)
             float_half float_half [(3, 7)%Z] Hreads' Hok).
Defined.

(** X8.  Non-negative counts keep the posterior proper.  On the instance
    built with the Bayes-Laplace prior, after any sequence of
    observed-count calls with Python integers that are not negative and of
    ingestions of tables of such counts, the posterior parameters of
    groups A and B are Python integers a > 0 and b > 0, and the posterior
    mean is the float nearest to a / (a + b), between 0 and 1, the ends
    included. *)
Theorem counts_keep_posterior_proper
    (DataFrame_append : Pd.DataFrame -> list value -> option exn)
    (self : BaysBernoulli) (cs : list call) (group : string) :
  __init__ "Bayes-Laplace" = Returned self ->
  Forall counts_call cs ->
  group = "A"%string \/ group = "B"%string ->
  exists a b r,
    post_parameters None group (run DataFrame_append cs self)
    = Returned (PyInt a, PyInt b) /\
    (0 < a)%Z /\ (0 < b)%Z /\
    post_pred None group (run DataFrame_append cs self)
    = Returned (PyFloat r) /\
    r = SFdiv prec emax (Py.int_to_sf a) (Py.int_to_sf (a + b)) /\
    unit_float r.
Proof.
  intros Hinit Hcs Hgroup.
  assert (Hself : self = fresh)
    by (vm_compute in Hinit; injection Hinit as <-; reflexivity).
  subst self.
  destruct (@run_keeps_positive DataFrame_append cs fresh Hcs fresh_positive)
    as [HA HB].
  set (self' := run DataFrame_append cs fresh) in *.
  assert (Hpost : exists a b,
            post_parameters None group self' = Returned (PyInt a, PyInt b) /\
            (0 < a)%Z /\ (0 < b)%Z).
  { destruct Hgroup as [-> | ->].
    - apply positive_seeded_posterior with (dataA self'); [|exact HA].
      right; left; repeat split.
    - apply positive_seeded_posterior with (dataB self'); [|exact HB].
      right; right; repeat split. }
  destruct Hpost as (a & b & Hpost & Ha & Hb).
  pose proof (@quotient_unit a (a + b) Ha ltac:(lia)) as Hunit.
  exists a, b, (SFdiv prec emax (Py.int_to_sf a) (Py.int_to_sf (a + b))).
  split; [exact Hpost|]; split; [exact Ha|]; split; [exact Hb|].
  split; [|split; [reflexivity | exact Hunit]].
  unfold post_pred; rewrite Hpost.
  cbn [Py.bind fst snd Py.add Py.truediv].
  destruct (Z.eqb_spec (a + b) 0) as [E | _]; [lia|].
  destruct (SFdiv prec emax (Py.int_to_sf a) (Py.int_to_sf (a + b)))
    as [s | s | | s m e]; try reflexivity; destruct s; contradiction.
Qed.

Lemma counts_keep_posterior_proper_witness :
  let cs := [AddData demo_frame "group";
             AddExperiment (PyInt 8) (PyInt 2) "B";
             AddExperiment (PyInt (10 ^ 17)) (PyInt 0) "B"] in
  __init__ "Bayes-Laplace" = Returned fresh /\
  Forall counts_call cs /\
  ("B"%string = "A"%string \/ "B"%string = "B"%string) /\
  exists a b r,
    post_parameters None "B" (run append_returns cs fresh)
    = Returned (PyInt a, PyInt b) /\
    (0 < a)%Z /\ (0 < b)%Z /\
    post_pred None "B" (run append_returns cs fresh)
    = Returned (PyFloat r) /\
    r = SFdiv prec emax (Py.int_to_sf a) (Py.int_to_sf (a + b)) /\
    unit_float r.
Proof.
  intros cs.
  assert (Hinit : __init__ "Bayes-Laplace" = Returned fresh) by reflexivity.
  assert (Hnd : NoDup ["group"%string; "hits"%string; "fails"%string]).
  { repeat constructor; cbn [In];
      intros H; repeat destruct H as [H | H]; try discriminate H; exact H. }
  assert (Hframe : counts_frame demo_frame "group").
  { split; [split; [exact Hnd | repeat constructor]|].
    exists 0%nat; split; [reflexivity|].
    repeat constructor.
    - exists (8, 2)%Z; split; [reflexivity|]; split; discriminate.
    - exists (5, 5)%Z; split; [reflexivity|]; split; discriminate.
    - exists (3, 7)%Z; split; [reflexivity|]; split; discriminate. }
  assert (Hcs : Forall counts_call cs).
  { apply Forall_cons; [exact Hframe|].
    apply Forall_cons; [split; discriminate|].
    apply Forall_cons; [split; [vm_compute|]; discriminate | apply Forall_nil]. }
  assert (Hg : "B"%string = "A"%string \/ "B"%string = "B"%string)
    by (right; reflexivity).
  split; [exact Hinit|].
  split; [exact Hcs|].
  split; [exact Hg|].
  exact (counts_keep_posterior_proper append_returns Hinit Hcs Hg).
Defined.

(** ** Further properties: a simulated batch on a ledger of integers *)

Lemma add_int_npint (t k : Z) :
  Py.add (PyInt t) (NpInt k)
  = if Py.fits_int64 t then Returned (NpInt (Py.wrap_int64 (t + k)))
    else Raised OverflowError.
Proof.
  cbn [Py.add Py.to_int64 Py.bind].
  destruct (Py.fits_int64 t); reflexivity.
Qed.

Lemma sum_numbers_then_npint (x : Z) (xs : list Z) (k : Z) :
  Np.sum (map PyInt (x :: xs) ++ [NpInt k])
  = if Py.fits_int64 (total (x :: xs))
    then Returned (NpInt (Py.wrap_int64 (total (x :: xs) + k)))
    else Raised OverflowError.
Proof.
  cbn [map app Np.sum].
  rewrite fold_left_app, fold_add_numbers.
  cbn [fold_left Py.bind].
  rewrite add_int_npint.
  unfold total; cbn [fold_right]; reflexivity.
Qed.

Lemma post_parameters_simulated (data : option ledger) (group : string)
    (self : BaysBernoulli) (b : Z * Z) (l : list (Z * Z)) (k m : Z) :
  reads data group self (numeric (b :: l) ++ [[NpInt k; NpInt m]]) ->
  post_parameters data group self
  = if Py.fits_int64 (fst (aggregate (b :: l)))
       && Py.fits_int64 (snd (aggregate (b :: l)))
    then Returned
           (NpInt (Py.wrap_int64 (fst (aggregate (b :: l)) + k)),
            NpInt (Py.wrap_int64 (snd (aggregate (b :: l)) + m)))
    else Raised OverflowError.
Proof.
  intros Hreads.
  set (d := numeric (b :: l) ++ [[NpInt k; NpInt m]]) in *.
  assert (Hsel :
    post_parameters data group self
    = (let arr := Np.array d in
       col0 <- Np.column arr 0 ;; a <- Np.sum col0 ;;
       col1 <- Np.column arr 1 ;; b <- Np.sum col1 ;; Returned (a, b))).
  { unfold post_parameters.
    destruct Hreads as [-> | [(-> & -> & <-) | (-> & -> & <-)]]; reflexivity. }
  assert (Hrect : rectangular d 2).
  { split; [unfold d; discriminate|].
    unfold d; apply Forall_app; split.
    - apply Forall_forall; intros r Hr.
      apply in_map_iff in Hr as [hf [<- _]]; reflexivity.
    - repeat constructor. }
  rewrite Hsel, (array_rectangular Hrect); cbv zeta.
  cbn [Np.column Nat.ltb Nat.leb Py.bind].
  unfold d; rewrite !map_app, column0_numeric, column1_numeric.
  change (map (fun r : list value => nth 0 r (PyInt 0)) [[NpInt k; NpInt m]])
    with [NpInt k].
  change (map (fun r : list value => nth 1 r (PyInt 0)) [[NpInt k; NpInt m]])
    with [NpInt m].
  change (map fst (b :: l)) with (fst b :: map fst l).
  change (map snd (b :: l)) with (snd b :: map snd l).
  rewrite !sum_numbers_then_npint.
  unfold aggregate; cbn [fst snd map].
  destruct (Py.fits_int64 (total (fst b :: map fst l))); cbn [andb Py.bind];
    [|reflexivity].
  destruct (Py.fits_int64 (total (snd b :: map snd l))); reflexivity.
Qed.

(** X7.  The conjugate update for simulated trials.  On a ledger of group
    A or B that holds Python integers, with posterior parameters (a, b), a
    simulated-trials call with 0 <= p <= 1 and n >= 0 for that group
    appends NumPy integers, and the posterior parameters become the 64-bit
    sums a + k and b + (n - k), with k the number of successes, when a and
    b are within the 64-bit integers, and raise [OverflowError] when one
    is not.  When a and b are not negative and a + b + n is below 2^63
    nothing wraps: the parameters are a + k and b + (n - k), and their sum
    has grown by exactly n. *)
Theorem simulated_batch_adds_n_trials
    (random_state : nat -> Qc) (n : Z) (p : Qc) (group : string)
    (self : BaysBernoulli) (seed : Z * Z) (rest : list (Z * Z)) :
  reads None group self (numeric (seed :: rest)) ->
  Q2Qc 0 <= p /\ p <= 1 -> (0 <= n)%Z ->
  exists (a b k : Z),
    post_parameters None group self = Returned (PyInt a, PyInt b) /\
    k = successes random_state p n /\
    (0 <= k <= n)%Z /\
    post_parameters None group
      (snd (add_rand_experiment random_state n p group self))
    = (if Py.fits_int64 a && Py.fits_int64 b
       then Returned (NpInt (Py.wrap_int64 (a + k)),
                      NpInt (Py.wrap_int64 (b + (n - k))))
       else Raised OverflowError) /\
    ((0 <= a)%Z -> (0 <= b)%Z -> (a + b + n < 2 ^ 63)%Z ->
     post_parameters None group
       (snd (add_rand_experiment random_state n p group self))
     = Returned (NpInt (a + k), NpInt (b + (n - k))) /\
     ((a + k) + (b + (n - k)) = a + b + n)%Z).
Proof.
  intros Hreads Hp Hn.
  destruct (bernoulli_rvs_valid random_state Hp Hn) as (draws & Hrvs & Hlen).
  destruct (bernoulli_rvs_returned _ _ _ Hrvs) as (_ & _ & _ & Hdraws).
  pose proof (count_nonzero_bounds draws) as Hk; rewrite Hlen in Hk.
  assert (Hsucc : Np.count_nonzero draws = successes random_state p n)
    by (rewrite Hdraws; apply count_nonzero_map).
  set (k := Np.count_nonzero draws) in *.
  set (a := total (map fst (seed :: rest))).
  set (b := total (map snd (seed :: rest))).
  assert (Hreads' :
    reads None group
      (snd (add_rand_experiment random_state n p group self))
      (numeric (seed :: rest) ++ [[NpInt k; NpInt (n - k)]])).
  { unfold add_rand_experiment; rewrite Hrvs; fold k.
    destruct Hreads as [H | [(_ & -> & H) | (_ & -> & H)]];
      [discriminate H | |].
    - right; left; repeat split.
      cbn [String.eqb Ascii.eqb Bool.eqb snd extend_dataA dataA].
      now rewrite H.
    - right; right; repeat split.
      cbn [String.eqb Ascii.eqb Bool.eqb snd extend_dataB dataB].
      now rewrite H. }
  assert (Hafter :
    post_parameters None group
      (snd (add_rand_experiment random_state n p group self))
    = (if Py.fits_int64 a && Py.fits_int64 b
       then Returned (NpInt (Py.wrap_int64 (a + k)),
                      NpInt (Py.wrap_int64 (b + (n - k))))
       else Raised OverflowError))
    by exact (post_parameters_simulated Hreads').
  exists a, b, k.
  split; [now apply post_parameters_numeric|].
  split; [exact Hsucc|].
  split; [exact Hk|].
  split; [exact Hafter|].
  intros Ha Hb Hsum; split; [|lia].
  rewrite Hafter.
  assert (Hfa : Py.fits_int64 a = true).
  { unfold Py.fits_int64; apply andb_true_intro; split;
      [apply Z.leb_le | apply Z.ltb_lt]; lia. }
  assert (Hfb : Py.fits_int64 b = true).
  { unfold Py.fits_int64; apply andb_true_intro; split;
      [apply Z.leb_le | apply Z.ltb_lt]; lia. }
  rewrite Hfa, Hfb; cbn [andb].
  rewrite !wrap_int64_small by lia; reflexivity.
Qed.

Lemma simulated_batch_adds_n_trials_witness :
  reads None "A" fresh (numeric [(1, 1)%Z]) /\
  (Q2Qc 0 <= Q2Qc (3 # 4) /\ Q2Qc (3 # 4) <= 1) /\ (0 <= 3)%Z /\
  exists (a b k : Z),
    post_parameters None "A" fresh = Returned (PyInt a, PyInt b) /\
    k = successes halves (Q2Qc (3 # 4)) 3 /\
    (0 <= k <= 3)%Z /\
    post_parameters None "A"
      (snd (add_rand_experiment halves 3 (Q2Qc (3 # 4)) "A" fresh))
    = (if Py.fits_int64 a && Py.fits_int64 b
       then Returned (NpInt (Py.wrap_int64 (a + k)),
                      NpInt (Py.wrap_int64 (b + (3 - k))))
       else Raised OverflowError) /\
    ((0 <= a)%Z -> (0 <= b)%Z -> (a + b + 3 < 2 ^ 63)%Z ->
     post_parameters None "A"
       (snd (add_rand_experiment halves 3 (Q2Qc (3 # 4)) "A" fresh))
     = Returned (NpInt (a + k), NpInt (b + (3 - k))) /\
     ((a + k) + (b + (3 - k)) = a + b + 3)%Z).
Proof.
  assert (Hreads : reads None "A" fresh (numeric [(1, 1)%Z])).
  { right; left; repeat split; reflexivity. }
  assert (Hp : Q2Qc 0 <= Q2Qc (3 # 4) /\ Q2Qc (3 # 4) <= 1)
    by (split; discriminate).
  assert (Hn : (0 <= 3)%Z) by discriminate.
  split; [exact Hreads|].
  split; [exact Hp|].
  split; [exact Hn|].
  exact (simulated_batch_adds_n_trials halves Hreads Hp Hn).
Defined.

(** ** Further properties: errors of the reading methods *)

Lemma post_parameters_raises (data : option ledger) (group : string)
    (self : BaysBernoulli) (e : exn) :
  post_parameters data group self = Raised e ->
  e = IndexError \/ e = TypeError \/ e = OverflowError.
Proof.
  unfold post_parameters.
  match goal with
  | |- match ?sel with _ => _ end = _ -> _ => destruct sel as [d|]
  end; [|intros H; injection H as <-; now left].
  cbv zeta.
  destruct (Np.column (Np.array d) 0) as [col0|e0] eqn:E0; cbn [Py.bind];
    [|intros H; injection H as <-; left; exact (column_raises _ _ E0)].
  destruct (Np.sum col0) as [a|e1] eqn:E1; cbn [Py.bind];
    [|intros H; injection H as <-; right; exact (sum_raises _ E1)].
  destruct (Np.column (Np.array d) 1) as [col1|e2] eqn:E2; cbn [Py.bind];
    [|intros H; injection H as <-; left; exact (column_raises _ _ E2)].
  destruct (Np.sum col1) as [b|e3] eqn:E3; cbn [Py.bind];
    [discriminate|].
  intros H; injection H as <-; right; exact (sum_raises _ E3).
Qed.

Lemma truediv_raises (x y : value) (e : exn) :
  Py.truediv x y = Raised e ->
  e = TypeError \/ e = OverflowError \/ e = ZeroDivisionError.
Proof.
  destruct x, y;
    cbn [Py.truediv Py.bind Py.to_float Py.to_int64 Py.is_numpy orb];
    unfold Py.float_of_int;
    repeat
      match goal with
      | |- context [if ?c then _ else _] => destruct c
      | |- context [match Py.nearest_float ?z with _ => _ end] =>
          destruct (Py.nearest_float z)
      | |- context [match SFdiv ?p ?q ?a ?b with _ => _ end] =>
          destruct (SFdiv p q a b)
      end;
    cbn [Py.bind]; intros H; inversion H; auto.
Qed.

(** X10.  What the reading methods can raise: [post_parameters] only
    [IndexError], [TypeError] or [OverflowError]; [post_pred] only those
    or [ZeroDivisionError]; [make_cum_post_para] only [UnboundLocalError],
    [IndexError], [TypeError] or [OverflowError]. *)
Theorem reading_methods_raise_only
    (data : option ledger) (group : string) (self : BaysBernoulli) (e : exn) :
  (post_parameters data group self = Raised e ->
   e = IndexError \/ e = TypeError \/ e = OverflowError) /\
  (post_pred data group self = Raised e ->
   e = IndexError \/ e = TypeError \/ e = OverflowError \/
   e = ZeroDivisionError) /\
  (make_cum_post_para group self = Raised e ->
   e = UnboundLocalError \/ e = IndexError \/ e = TypeError \/
   e = OverflowError).
Proof.
  split; [apply post_parameters_raises|]; split.
  - unfold post_pred.
    destruct (post_parameters data group self) as [[x y]|e'] eqn:E;
      cbn [Py.bind fst snd].
    + destruct (Py.add x y) as [s|e1] eqn:E1; cbn [Py.bind].
      * intros H; destruct (truediv_raises _ _ H) as [-> | [-> | ->]]; tauto.
      * intros H; injection H as <-.
        destruct (add_raises _ _ E1) as [-> | ->]; tauto.
    + intros H; injection H as ->.
      destruct (post_parameters_raises _ _ _ E) as [-> | [-> | ->]]; tauto.
  - assert (Hgen : forall d : ledger,
      (let data := Np.array d in
       col0 <- Np.column data 0 ;; cumsum_alpha <- Np.cumsum col0 ;;
       col1 <- Np.column data 1 ;; cumsum_beta <- Np.cumsum col1 ;;
       Returned (cumsum_alpha, cumsum_beta)) = Raised e ->
      e = UnboundLocalError \/ e = IndexError \/ e = TypeError \/
      e = OverflowError).
    { intros d; cbv zeta.
      destruct (Np.column (Np.array d) 0) as [col0|e0] eqn:E0; cbn [Py.bind];
        [|intros H; injection H as <-; right; left;
          exact (column_raises _ _ E0)].
      destruct (Np.cumsum col0) as [a|e1] eqn:E1; cbn [Py.bind];
        [|intros H; injection H as <-; right; right;
          exact (cumsum_raises _ E1)].
      destruct (Np.column (Np.array d) 1) as [col1|e2] eqn:E2; cbn [Py.bind];
        [|intros H; injection H as <-; right; left;
          exact (column_raises _ _ E2)].
      destruct (Np.cumsum col1) as [b|e3] eqn:E3; cbn [Py.bind];
        [discriminate|].
      intros H; injection H as <-; right; right; exact (cumsum_raises _ E3). }
    unfold make_cum_post_para.
    destruct (String.eqb group "A"); [apply Hgen|].
    destruct (String.eqb group "B"); [apply Hgen|].
    cbn [Py.bind]; intros H; injection H as <-; tauto.
Qed.

Lemma reading_methods_raise_only_witness :
  let l := Some (seeded float_half float_half [(10 ^ 400, 1)%Z]) in
  post_parameters l "A" fresh = Raised OverflowError /\
  (OverflowError = IndexError \/ OverflowError = TypeError \/
   OverflowError = OverflowError) /\
  post_pred (Some (numeric [(1, 1); (-1, -1)]%Z)) "A" fresh
  = Raised ZeroDivisionError /\
  (ZeroDivisionError = IndexError \/ ZeroDivisionError = TypeError \/
   ZeroDivisionError = OverflowError \/
   ZeroDivisionError = ZeroDivisionError) /\
  make_cum_post_para "diff" fresh = Raised UnboundLocalError /\
  (UnboundLocalError = UnboundLocalError \/ UnboundLocalError = IndexError \/
   UnboundLocalError = TypeError \/ UnboundLocalError = OverflowError).
Proof.
  intros l.
  assert (H1 : post_parameters l "A" fresh = Raised OverflowError)
    by (vm_compute; reflexivity).
  assert (H2 : post_pred (Some (numeric [(1, 1); (-1, -1)]%Z)) "A" fresh
               = Raised ZeroDivisionError) by reflexivity.
  assert (H3 : make_cum_post_para "diff" fresh = Raised UnboundLocalError)
    by reflexivity.
  split; [exact H1|].
  split.
  { exact (proj1 (reading_methods_raise_only l "A" fresh OverflowError) H1). }
  split; [exact H2|].
  split.
  { exact (proj1 (proj2 (reading_methods_raise_only
                           (Some (numeric [(1, 1); (-1, -1)]%Z)) "A" fresh
                           ZeroDivisionError)) H2). }
  split; [exact H3|].
  exact (proj2 (proj2 (reading_methods_raise_only None "diff" fresh
                         UnboundLocalError)) H3).
Defined.

(** X11.  The shape of an explicit ledger decides [IndexError]: an empty
    ledger, a ledger whose batches differ in length and a ledger of empty
    batches all make [post_parameters] raise [IndexError]; a ledger whose
    batches all have the same number of fields, at least two, never
    does. *)
Theorem post_parameters_index_error
    (d : ledger) (group : string) (self : BaysBernoulli) :
  (~ (exists m, (1 <= m)%nat /\ rectangular d m) ->
   post_parameters (Some d) group self = Raised IndexError) /\
  ((exists m, (2 <= m)%nat /\ rectangular d m) ->
   post_parameters (Some d) group self <> Raised IndexError).
Proof.
  unfold post_parameters; cbv zeta; split.
  - intros Hnot.
    assert (Hshape : (exists m, rectangular d m) \/ ~ (exists m, rectangular d m)).
    { destruct d as [|r rs]; [right; intros (m & Hne & _); now apply Hne|].
      destruct (forallb (fun r' => Nat.eqb (List.length r') (List.length r)) rs)
        eqn:E.
      - left; exists (List.length r); split; [discriminate|].
        constructor; [reflexivity|].
        apply Forall_forall; intros r' Hr'.
        rewrite forallb_forall in E; apply Nat.eqb_eq; now apply E.
      - right; intros (m & _ & Hall).
        inversion Hall as [|? ? Hr Hrs]; subst.
        assert (Ht : forallb
                  (fun r' => Nat.eqb (List.length r') (List.length r)) rs
                     = true).
        { apply forallb_forall; intros r' Hr'.
          rewrite Forall_forall in Hrs; apply Nat.eqb_eq; now apply Hrs. }
        congruence. }
    destruct Hshape as [(m & Hrect) | Hrag].
    + rewrite (array_rectangular Hrect).
      destruct m as [|m]; [reflexivity|].
      exfalso; apply Hnot; exists (S m); split; [lia | exact Hrect].
    + now rewrite (array_ragged Hrag).
  - intros (m & Hm & Hrect).
    rewrite (array_rectangular Hrect); cbn [Np.column].
    destruct (Nat.ltb_spec 0 m) as [_|]; [|lia].
    destruct (Nat.ltb_spec 1 m) as [_|]; [|lia].
    cbn [Py.bind].
    destruct (Np.sum _) as [a|e0] eqn:E0; cbn [Py.bind].
    + destruct (Np.sum _) as [b|e1] eqn:E1 in |- *; cbn [Py.bind];
        [discriminate|].
      intros H; injection H as ->; apply sum_raises in E1.
      destruct E1 as [E1 | E1]; discriminate E1.
    + intros H; injection H as ->; apply sum_raises in E0.
      destruct E0 as [E0 | E0]; discriminate E0.
Qed.

Lemma post_parameters_index_error_witness :
  ~ (exists m, (1 <= m)%nat /\
               rectangular [[of_Z 1; of_Z 1]; [of_Z 8; of_Z 2; of_Z 1]] m) /\
  post_parameters (Some [[of_Z 1; of_Z 1]; [of_Z 8; of_Z 2; of_Z 1]]) "A" fresh
  = Raised IndexError /\
  (exists m, (2 <= m)%nat /\ rectangular [[of_Z 1; of_Z 1]; [of_Z 8; of_Z 2]] m) /\
  post_parameters (Some [[of_Z 1; of_Z 1]; [of_Z 8; of_Z 2]]) "A" fresh
  <> Raised IndexError.
Proof.
  assert (H1 : ~ (exists m, (1 <= m)%nat /\
                 rectangular [[of_Z 1; of_Z 1]; [of_Z 8; of_Z 2; of_Z 1]] m)).
  { intros (m & _ & _ & Hall).
    inversion Hall as [|? ? Ha Hrest]; subst.
    inversion Hrest as [|? ? Hb _]; subst.
    discriminate Hb. }
  assert (H2 : exists m, (2 <= m)%nat /\
                 rectangular [[of_Z 1; of_Z 1]; [of_Z 8; of_Z 2]] m).
  { exists 2%nat; split; [apply Nat.le_refl|].
    split; [discriminate | repeat constructor]. }
  split; [exact H1|].
  split.
  { exact (proj1 (post_parameters_index_error
                    [[of_Z 1; of_Z 1]; [of_Z 8; of_Z 2; of_Z 1]] "A" fresh)
             H1). }
  split; [exact H2|].
  exact (proj2 (post_parameters_index_error
                  [[of_Z 1; of_Z 1]; [of_Z 8; of_Z 2]] "A" fresh) H2).
Defined.

(** ** Further properties: ingestion *)

Lemma position_lt (name : string) (cols : list string) (j : nat) :
  Pd.position name cols = Some j -> (j < List.length cols)%nat.
Proof.
  revert j; induction cols as [|c cs IH]; intros j; cbn [Pd.position];
    [discriminate|].
  destruct (String.eqb c name).
  - intros H; injection H as <-; cbn; lia.
  - destruct (Pd.position name cs) as [j'|]; [|discriminate].
    intros H; injection H as <-; specialize (IH j' eq_refl); cbn; lia.
Qed.

Lemma position_none (name : string) (cols : list string) :
  ~ In name cols -> Pd.position name cols = None.
Proof.
  induction cols as [|c cs IH]; intros Hnot; cbn [Pd.position];
    [reflexivity|].
  destruct (String.eqb_spec c name) as [-> | _];
    [exfalso; apply Hnot; now left|].
  rewrite IH; [reflexivity | intros H; apply Hnot; now right].
Qed.

Lemma batch_fields_length (j : nat) (r : list value) :
  (j < List.length r)%nat ->
  List.length (batch_fields j r) = (List.length r - 1)%nat.
Proof.
  intros Hj; unfold batch_fields.
  rewrite length_app, length_firstn, length_skipn; lia.
Qed.

Lemma selected_rows (df : Pd.DataFrame) (name : string) (j : nat)
    (tag : string) :
  List.length
    (Pd.tolist
       (Pd.drop
          (Pd.select df
             (Pd.series_eq (map (fun r => nth j r (PyInt 0)) (Pd.values df))
                (PyStr tag)))
          name))
  = count_tag j tag (Pd.values df).
Proof.
  unfold Pd.tolist, Pd.drop, Pd.select, Pd.series_eq, count_tag;
    cbn [Pd.values Pd.columns].
  rewrite length_map.
  rewrite (map_map (fun r => nth j r (PyInt 0))
             (fun y => Py.eqb y (PyStr tag))).
  now rewrite (select_by_mask
                 (fun r => Py.eqb (nth j r (PyInt 0)) (PyStr tag))
                 (Pd.values df)).
Qed.

Lemma ragged_reads (d : ledger) (group : string) (self : BaysBernoulli) :
  ~ (exists m, rectangular d m) ->
  (group = "A"%string /\ dataA self = d) \/
  (group = "B"%string /\ dataB self = d) ->
  post_parameters None group self = Raised IndexError /\
  post_pred None group self = Raised IndexError /\
  make_cum_post_para group self = Raised IndexError.
Proof.
  intros Hrag Hsel.
  assert (Hpost : post_parameters None group self = Raised IndexError).
  { unfold post_parameters.
    destruct Hsel as [[-> <-] | [-> <-]];
      cbn [String.eqb Ascii.eqb Bool.eqb]; cbv zeta;
      now rewrite (array_ragged Hrag). }
  split; [exact Hpost|]; split.
  - unfold post_pred; now rewrite Hpost.
  - unfold make_cum_post_para.
    destruct Hsel as [[-> <-] | [-> <-]];
      cbn [String.eqb Ascii.eqb Bool.eqb Py.bind]; cbv zeta;
      now rewrite (array_ragged Hrag).
Qed.

(** X12.  A table with a number of columns other than three (the group
    column, hits and fails) poisons both ledgers: on an instance that the
    constructor returned, once [add_data] has ingested such a table the
    posterior parameters, the posterior mean and the cumulative parameters
    of groups A and B all raise [IndexError]. *)
Theorem extra_column_breaks_posterior
    (prior_type : string) (self self' : BaysBernoulli)
    (df : Pd.DataFrame) (group_col_name group : string) :
  __init__ prior_type = Returned self ->
  Pd.well_formed df ->
  add_data df group_col_name self = (Returned tt, self') ->
  List.length (Pd.columns df) <> 3%nat ->
  group = "A"%string \/ group = "B"%string ->
  post_parameters None group self' = Raised IndexError /\
  post_pred None group self' = Raised IndexError /\
  make_cum_post_para group self' = Raised IndexError.
Proof.
  intros Hinit Hwf Hadd Hcols Hgroup.
  apply init_shape in Hinit as (HA & HB & _ & b & _ & Hprior).
  destruct (add_data_cases df group_col_name self)
    as [[e He] | (j & Hpos & HcA & HcB & Heq)];
    [rewrite He in Hadd; discriminate Hadd|].
  assert (E : self' = snd (add_data df group_col_name self))
    by now rewrite Hadd.
  rewrite Heq in E; cbn [snd] in E; subst self'.
  rewrite (@drop_select df group_col_name j "A" Hwf Hpos).
  rewrite (@drop_select df group_col_name j "B" Hwf Hpos).
  rewrite HA, HB, Hprior.
  assert (Hrag : forall tag,
    (0 < count_tag j tag (Pd.values df))%nat ->
    ~ (exists m,
         rectangular
           ([[fst (snd b); snd (snd b)]]
              ++ rows_of_group j tag (Pd.values df)) m)).
  { intros tag Hc (m & _ & Hall).
    unfold count_tag in Hc; unfold rows_of_group in Hall.
    destruct (filter _ (Pd.values df)) as [|r rs] eqn:Ef; [cbn in Hc; lia|].
    assert (Hr : In r (filter (fun r => Py.eqb (group_tag j r) (PyStr tag))
                         (Pd.values df)))
      by (rewrite Ef; now left).
    apply filter_In in Hr as [Hr _].
    cbn [app map] in Hall.
    inversion Hall as [|? ? Hm Hrest]; subst.
    inversion Hrest as [|? ? Hlen _]; subst.
    destruct Hwf as [_ Hrows]; rewrite Forall_forall in Hrows.
    specialize (Hrows r Hr).
    rewrite batch_fields_length in Hlen
      by (rewrite Hrows; now apply position_lt with group_col_name).
    cbn [List.length] in Hlen; lia. }
  destruct Hgroup as [-> | ->].
  - apply (@ragged_reads _ "A" _ (Hrag "A"%string HcA)).
    left; split; reflexivity.
  - apply (@ragged_reads _ "B" _ (Hrag "B"%string HcB)).
    right; split; reflexivity.
Qed.

Lemma extra_column_breaks_posterior_witness :
  __init__ "Bayes-Laplace" = Returned fresh /\
  Pd.well_formed wide_frame /\
  List.length (Pd.columns wide_frame) <> 3%nat /\
  ("A"%string = "A"%string \/ "A"%string = "B"%string) /\
  exists self',
    add_data wide_frame "group" fresh = (Returned tt, self') /\
    post_parameters None "A" self' = Raised IndexError /\
    post_pred None "A" self' = Raised IndexError /\
    make_cum_post_para "A" self' = Raised IndexError.
Proof.
  assert (Hinit : __init__ "Bayes-Laplace" = Returned fresh) by reflexivity.
  assert (Hwf : Pd.well_formed wide_frame).
  { split; [|repeat constructor].
    repeat constructor; cbn [In];
      intros H; repeat destruct H as [H | H]; try discriminate H; exact H. }
  assert (Hcols : List.length (Pd.columns wide_frame) <> 3%nat)
    by discriminate.
  assert (Hg : "A"%string = "A"%string \/ "A"%string = "B"%string)
    by (left; reflexivity).
  split; [exact Hinit|].
  split; [exact Hwf|].
  split; [exact Hcols|].
  split; [exact Hg|].
  eexists; split; [reflexivity|].
  exact (@extra_column_breaks_posterior "Bayes-Laplace" fresh _ wide_frame
           "group" "A" Hinit Hwf eq_refl Hcols Hg).
Defined.

(** X13.  A group column that the table does not have makes [add_data]
    raise [KeyError], and the instance is unchanged. *)
Theorem add_data_missing_column
    (df : Pd.DataFrame) (group_col_name : string) (self : BaysBernoulli) :
  ~ In group_col_name (Pd.columns df) ->
  add_data df group_col_name self = (Raised KeyError, self).
Proof.
  intros Hnot; unfold add_data, Pd.getitem.
  now rewrite (position_none _ _ Hnot).
Qed.

Lemma add_data_missing_column_witness :
  ~ In "arm"%string (Pd.columns demo_frame) /\
  add_data demo_frame "arm" fresh = (Raised KeyError, fresh).
Proof.
  assert (H : ~ In "arm"%string (Pd.columns demo_frame)).
  { cbn [In Pd.columns demo_frame].
    intros H; repeat destruct H as [H | H]; try discriminate H; exact H. }
  split; [exact H|].
  exact (add_data_missing_column demo_frame "arm" fresh H).
Defined.

Lemma count_tags_partition (j : nat) (rows : list (list value)) :
  (count_tag j "A" rows + count_tag j "B" rows
   + List.length
       (filter
          (fun r => negb (Py.eqb (group_tag j r) (PyStr "A")) &&
                    negb (Py.eqb (group_tag j r) (PyStr "B"))) rows)
   = List.length rows)%nat.
Proof.
  unfold count_tag; induction rows as [|r rows IH]; [reflexivity|].
  cbn [filter].
  destruct (Py.eqb (group_tag j r) (PyStr "A")) eqn:EA;
    destruct (Py.eqb (group_tag j r) (PyStr "B")) eqn:EB;
    cbn [negb andb List.length]; try lia.
  apply eqb_true_iff in EA, EB; rewrite EA in EB; discriminate EB.
Qed.

(** X14.  What an ingestion adds: when [add_data] returns, group A's
    ledger has grown by the number of rows tagged "A" and group B's by the
    number of rows tagged "B", both at least one; rows with any other tag
    reach neither ledger, and the table is kept in [data]. *)
Theorem add_data_row_count
    (df : Pd.DataFrame) (group_col_name : string)
    (self self' : BaysBernoulli) :
  add_data df group_col_name self = (Returned tt, self') ->
  exists j,
    Pd.position group_col_name (Pd.columns df) = Some j /\
    (1 <= count_tag j "A" (Pd.values df))%nat /\
    (1 <= count_tag j "B" (Pd.values df))%nat /\
    List.length (dataA self')
    = (List.length (dataA self) + count_tag j "A" (Pd.values df))%nat /\
    List.length (dataB self')
    = (List.length (dataB self) + count_tag j "B" (Pd.values df))%nat /\
    (List.length (dataA self') + List.length (dataB self')
     + List.length
         (filter
            (fun r => negb (Py.eqb (group_tag j r) (PyStr "A")) &&
                      negb (Py.eqb (group_tag j r) (PyStr "B")))
            (Pd.values df))
     = List.length (dataA self) + List.length (dataB self)
       + List.length (Pd.values df))%nat /\
    data self' = Some df.
Proof.
  intros Hadd.
  destruct (add_data_cases df group_col_name self)
    as [[e He] | (j & Hpos & HcA & HcB & Heq)];
    [rewrite He in Hadd; discriminate Hadd|].
  assert (E : self' = snd (add_data df group_col_name self))
    by now rewrite Hadd.
  rewrite Heq in E; cbn [snd] in E; subst self'.
  exists j; cbn [dataA dataB data].
  rewrite !length_app, !selected_rows.
  pose proof (count_tags_partition j (Pd.values df)) as Hpart.
  repeat split; try assumption; lia.
Qed.

Lemma add_data_row_count_witness :
  exists self',
    add_data three_group_frame "group" fresh = (Returned tt, self') /\
    exists j,
      Pd.position "group" (Pd.columns three_group_frame) = Some j /\
      (1 <= count_tag j "A" (Pd.values three_group_frame))%nat /\
      (1 <= count_tag j "B" (Pd.values three_group_frame))%nat /\
      List.length (dataA self')
      = (List.length (dataA fresh)
         + count_tag j "A" (Pd.values three_group_frame))%nat /\
      List.length (dataB self')
      = (List.length (dataB fresh)
         + count_tag j "B" (Pd.values three_group_frame))%nat /\
      (List.length (dataA self') + List.length (dataB self')
       + List.length
           (filter
              (fun r => negb (Py.eqb (group_tag j r) (PyStr "A")) &&
                        negb (Py.eqb (group_tag j r) (PyStr "B")))
              (Pd.values three_group_frame))
       = List.length (dataA fresh) + List.length (dataB fresh)
         + List.length (Pd.values three_group_frame))%nat /\
      data self' = Some three_group_frame.
Proof.
  eexists; split; [reflexivity|].
  exact (@add_data_row_count three_group_frame "group" fresh _ eq_refl).
Defined.

(** X15.  Ingestion is cumulative: calling [add_data] again with a table
    that it has just ingested succeeds again and appends the same batches
    a second time. *)
Theorem add_data_twice_appends_twice
    (df : Pd.DataFrame) (group_col_name : string)
    (self self1 : BaysBernoulli) :
  add_data df group_col_name self = (Returned tt, self1) ->
  exists extA extB self2,
    extA <> [] /\ extB <> [] /\
    dataA self1 = dataA self ++ extA /\
    dataB self1 = dataB self ++ extB /\
    add_data df group_col_name self1 = (Returned tt, self2) /\
    dataA self2 = dataA self ++ extA ++ extA /\
    dataB self2 = dataB self ++ extB ++ extB.
Proof.
  intros Hadd.
  destruct (add_data_cases df group_col_name self)
    as [[e He] | (j & Hpos & HcA & HcB & Heq)];
    [rewrite He in Hadd; discriminate Hadd|].
  assert (E : self1 = snd (add_data df group_col_name self))
    by now rewrite Hadd.
  rewrite Heq in E; cbn [snd] in E.
  destruct (add_data_cases df group_col_name self1)
    as [[e He] | (j' & Hpos' & _ & _ & Heq')].
  { exfalso; revert He Hadd; unfold add_data.
    destruct (Pd.getitem df group_col_name); [|discriminate].
    destruct (negb _); discriminate. }
  rewrite Hpos in Hpos'; injection Hpos' as <-.
  set (col := map (fun r => nth j r (PyInt 0)) (Pd.values df)) in *.
  set (extA := Pd.tolist
                 (Pd.drop (Pd.select df (Pd.series_eq col (PyStr "A")))
                    group_col_name)) in *.
  set (extB := Pd.tolist
                 (Pd.drop (Pd.select df (Pd.series_eq col (PyStr "B")))
                    group_col_name)) in *.
  assert (HnA : extA <> []).
  { intros Hnil; apply (f_equal (@List.length _)) in Hnil.
    unfold extA, col in Hnil; rewrite selected_rows in Hnil.
    cbn [List.length] in Hnil; lia. }
  assert (HnB : extB <> []).
  { intros Hnil; apply (f_equal (@List.length _)) in Hnil.
    unfold extB, col in Hnil; rewrite selected_rows in Hnil.
    cbn [List.length] in Hnil; lia. }
  exists extA, extB,
    {| prior := prior self1; dataA := dataA self1 ++ extA;
       dataB := dataB self1 ++ extB; data := Some df |}.
  split; [exact HnA|]; split; [exact HnB|].
  split; [rewrite E; reflexivity|].
  split; [rewrite E; reflexivity|].
  split; [exact Heq'|].
  cbn [dataA dataB]; rewrite E; cbn [dataA dataB].
  rewrite <- !app_assoc; split; reflexivity.
Qed.

Lemma add_data_twice_appends_twice_witness :
  exists self1,
    add_data demo_frame "group" fresh = (Returned tt, self1) /\
    exists extA extB self2,
      extA <> [] /\ extB <> [] /\
      dataA self1 = dataA fresh ++ extA /\
      dataB self1 = dataB fresh ++ extB /\
      add_data demo_frame "group" self1 = (Returned tt, self2) /\
      dataA self2 = dataA fresh ++ extA ++ extA /\
      dataB self2 = dataB fresh ++ extB ++ extB.
Proof.
  eexists; split; [reflexivity|].
  exact (@add_data_twice_appends_twice demo_frame "group" fresh _ eq_refl).
Defined.

(** ** Further properties: the cumulative parameters *)

Lemma last_default (A : Type) (l : list A) (d d' : A) :
  l <> [] -> last l d = last l d'.
Proof.
  destruct l as [|x l]; [contradiction|].
  intros _; now rewrite !last_cons.
Qed.

Lemma running_snoc (xs : list Z) (acc y : Z) :
  running acc (xs ++ [y]) = running acc xs ++ [(acc + total xs + y)%Z].
Proof.
  revert acc; induction xs as [|x xs IH]; intros acc; cbn [app running].
  - f_equal; unfold total; cbn [fold_right]; lia.
  - rewrite IH; do 3 f_equal; unfold total; cbn [fold_right]; lia.
Qed.

Lemma float_running_snoc (zs : list Z) (acc : spec_float) (z : Z) :
  float_running acc (zs ++ [z])
  = float_running acc zs
    ++ [SFadd prec emax (float_total acc zs) (Py.nearest_float z)].
Proof.
  revert acc; induction zs as [|x zs IH]; intros acc;
    cbn [app float_running]; [reflexivity|].
  rewrite IH; reflexivity.
Qed.

(** X16.  An append extends the cumulative parameters by one entry and
    leaves the earlier entries as they were.  On a ledger of group B that
    holds Python integers, after the observed-count call for group B with
    Python integers hits and fails, the two cumulative sequences are the
    former ones followed by their last entry plus hits, respectively plus
    fails.  On a ledger of group B with a float seed followed by Python
    integers within the range of the floats, the same holds with the float
    sums when hits and fails are within that range, and the cumulative
    parameters raise [OverflowError] when one is not. *)
Theorem cumulative_parameters_extend
    (DataFrame_append : Pd.DataFrame -> list value -> option exn)
    (h f : Z) (self : BaysBernoulli) :
  (forall (seed : Z * Z) (rest : list (Z * Z)),
     reads None "B" self (numeric (seed :: rest)) ->
     exists cumsum_alpha cumsum_beta : list Z,
       make_cum_post_para "B" self
       = Returned (map PyInt cumsum_alpha, map PyInt cumsum_beta) /\
       make_cum_post_para "B"
         (snd (add_experiment DataFrame_append (PyInt h) (PyInt f) "B" self))
       = Returned
           (map PyInt (cumsum_alpha ++ [(last cumsum_alpha 0 + h)%Z]),
            map PyInt (cumsum_beta ++ [(last cumsum_beta 0 + f)%Z]))) /\
  (forall (alpha0 beta0 : spec_float) (rest : list (Z * Z)),
     reads None "B" self (seeded alpha0 beta0 rest) ->
     forallb converts (map fst rest) && forallb converts (map snd rest)
     = true ->
     exists cumsum_alpha cumsum_beta : list spec_float,
       make_cum_post_para "B" self
       = Returned (map PyFloat cumsum_alpha, map PyFloat cumsum_beta) /\
       make_cum_post_para "B"
         (snd (add_experiment DataFrame_append (PyInt h) (PyInt f) "B" self))
       = if converts h && converts f
         then Returned
                (map PyFloat
                   (cumsum_alpha
                    ++ [SFadd prec emax (last cumsum_alpha S754_nan)
                          (Py.nearest_float h)]),
                 map PyFloat
                   (cumsum_beta
                    ++ [SFadd prec emax (last cumsum_beta S754_nan)
                          (Py.nearest_float f)]))
         else Raised OverflowError).
Proof.
  split.
  - intros seed rest Hreads.
    assert (HB : dataB self = numeric (seed :: rest)).
    { destruct Hreads as [H | [(_ & H & _) | (_ & _ & H)]];
        [discriminate H | discriminate H | exact H]. }
    exists (fst seed :: running (fst seed) (map fst rest)).
    exists (snd seed :: running (snd seed) (map snd rest)).
    split; [now apply make_cum_post_para_numeric|].
    assert (Hreads' :
      reads None "B"
        (snd (add_experiment DataFrame_append (PyInt h) (PyInt f) "B" self))
        (numeric (seed :: rest ++ [(h, f)]))).
    { right; right; repeat split.
      cbn [add_experiment String.eqb Ascii.eqb Bool.eqb snd extend_dataB dataB].
      rewrite HB, app_comm_cons, numeric_app; reflexivity. }
    rewrite (make_cum_post_para_numeric Hreads').
    rewrite (map_app fst rest), (map_app snd rest).
    change (map fst [(h, f)]) with [h].
    change (map snd [(h, f)]) with [f].
    rewrite !running_snoc, !running_last.
    reflexivity.
  - intros alpha0 beta0 rest Hreads Hok.
    assert (HB : dataB self = seeded alpha0 beta0 rest).
    { destruct Hreads as [H | [(_ & H & _) | (_ & _ & H)]];
        [discriminate H | discriminate H | exact H]. }
    exists (alpha0 :: float_running alpha0 (map fst rest)).
    exists (beta0 :: float_running beta0 (map snd rest)).
    split; [now rewrite (make_cum_post_para_seeded Hreads), Hok|].
    assert (Hreads' :
      reads None "B"
        (snd (add_experiment DataFrame_append (PyInt h) (PyInt f) "B" self))
        (seeded alpha0 beta0 (rest ++ [(h, f)]))).
    { right; right; repeat split.
      cbn [add_experiment String.eqb Ascii.eqb Bool.eqb snd extend_dataB dataB].
      rewrite HB, seeded_app; reflexivity. }
    rewrite (make_cum_post_para_seeded Hreads').
    apply andb_prop in Hok as [Hok1 Hok2].
    rewrite (map_app fst rest), (map_app snd rest), !forallb_app, Hok1, Hok2.
    cbn [map fst snd forallb andb].
    rewrite !andb_true_r, !float_running_snoc, !float_running_last.
    reflexivity.
Qed.

Lemma cumulative_parameters_extend_witness :
  let self := extend_dataB [[of_Z 3; of_Z 7]] fresh_jeffreys in
  (reads None "B" fresh (numeric [(1, 1)%Z]) /\
   exists cumsum_alpha cumsum_beta : list Z,
     make_cum_post_para "B" fresh
     = Returned (map PyInt cumsum_alpha, map PyInt cumsum_beta) /\
     make_cum_post_para "B"
       (snd (add_experiment append_returns (PyInt 8) (PyInt 2) "B" fresh))
     = Returned
         (map PyInt (cumsum_alpha ++ [(last cumsum_alpha 0 + 8)%Z]),
          map PyInt (cumsum_beta ++ [(last cumsum_beta 0 + 2)%Z]))) /\
  (reads None "B" self (seeded float_half float_half [(3, 7)%Z]) /\
   forallb converts [3]%Z && forallb converts [7]%Z = true /\
   exists cumsum_alpha cumsum_beta : list spec_float,
     make_cum_post_para "B" self
     = Returned (map PyFloat cumsum_alpha, map PyFloat cumsum_beta) /\
     make_cum_post_para "B"
       (snd (add_experiment append_returns (PyInt (10 ^ 400)) (PyInt 2) "B"
               self))
     = Raised OverflowError).
Proof.
  intros self.
  assert (Hreads : reads None "B" fresh (numeric [(1, 1)%Z])).
  { right; right; repeat split; reflexivity. }
  assert (Hreads' :
    reads None "B" self (seeded float_half float_half [(3, 7)%Z])).
  { right; right; repeat split; reflexivity. }
  assert (Hok : forallb converts [3]%Z && forallb converts [7]%Z = true)
    by (vm_compute; reflexivity).
  split.
  - split; [exact Hreads|].
    exact (proj1 (cumulative_parameters_extend append_returns 8 2 fresh)
             (1, 1)%Z [] Hreads).
  - split; [exact Hreads'|]; split; [exact Hok|].
    destruct (proj2 (cumulative_parameters_extend append_returns (10 ^ 400) 2
                       self)
                float_half float_half [(3, 7)%Z] Hreads' Hok)
      as (ca & cb & H1 & H2).
    exists ca, cb; split; [exact H1|].
    rewrite H2; vm_compute; reflexivity.
Defined.

(** X17.  The cumulative parameters and the posterior parameters stand or
    fall together, whatever the ledger holds: for group A or B, when
    [make_cum_post_para] returns, each sequence has one entry per batch of
    the ledger and [post_parameters] returns their last entries; when it
    raises, [post_parameters] raises the same exception. *)
Theorem cumulative_agrees_with_posterior
    (group : string) (self : BaysBernoulli) :
  group = "A"%string \/ group = "B"%string ->
  let l := if String.eqb group "A" then dataA self else dataB self in
  match make_cum_post_para group self with
  | Returned (cumsum_alpha, cumsum_beta) =>
      List.length cumsum_alpha = List.length l /\
      List.length cumsum_beta = List.length l /\
      post_parameters None group self
      = Returned (last cumsum_alpha (PyInt 0), last cumsum_beta (PyInt 0))
  | Raised e => post_parameters None group self = Raised e
  end.
Proof.
  intros Hgroup l.
  assert (Hgen : forall d : ledger,
    match
      (let data := Np.array d in
       col0 <- Np.column data 0 ;; cumsum_alpha <- Np.cumsum col0 ;;
       col1 <- Np.column data 1 ;; cumsum_beta <- Np.cumsum col1 ;;
       Returned (cumsum_alpha, cumsum_beta))
    with
    | Returned (ca, cb) =>
        List.length ca = List.length d /\ List.length cb = List.length d /\
        (let data := Np.array d in
         col0 <- Np.column data 0 ;; a <- Np.sum col0 ;;
         col1 <- Np.column data 1 ;; b <- Np.sum col1 ;; Returned (a, b))
        = Returned (last ca (PyInt 0), last cb (PyInt 0))
    | Raised e =>
        (let data := Np.array d in
         col0 <- Np.column data 0 ;; a <- Np.sum col0 ;;
         col1 <- Np.column data 1 ;; b <- Np.sum col1 ;; Returned (a, b))
        = Raised e
    end).
  { intros d; cbv zeta.
    destruct d as [|r rs]; [reflexivity|].
    unfold Np.array.
    destruct (forallb _ rs); [|reflexivity].
    cbn [Np.column].
    destruct (Nat.ltb 0 (List.length r)); [|reflexivity].
    cbn [Py.bind map].
    pose proof (cumsum_sum (nth 0 r (PyInt 0))
                  (map (fun r0 => nth 0 r0 (PyInt 0)) rs)) as H0.
    destruct (Np.cumsum (nth 0 r (PyInt 0) :: _)) as [ca|e0];
      cbn [Py.bind]; [|now rewrite H0].
    destruct H0 as [H0 Hlen0]; rewrite H0; cbn [Py.bind].
    destruct (Nat.ltb 1 (List.length r)); [|reflexivity].
    cbn [Py.bind map].
    pose proof (cumsum_sum (nth 1 r (PyInt 0))
                  (map (fun r0 => nth 1 r0 (PyInt 0)) rs)) as H1.
    destruct (Np.cumsum (nth 1 r (PyInt 0) :: _)) as [cb|e1];
      cbn [Py.bind]; [|now rewrite H1].
    destruct H1 as [H1 Hlen1]; rewrite H1; cbn [Py.bind].
    cbn [List.length] in *; rewrite length_map in Hlen0, Hlen1.
    repeat split; try assumption.
    f_equal; f_equal; apply last_default; intros E; subst; discriminate. }
  unfold make_cum_post_para, post_parameters, l.
  destruct Hgroup as [-> | ->]; cbn [String.eqb Ascii.eqb Bool.eqb Py.bind].
  - apply Hgen.
  - apply Hgen.
Qed.

Lemma cumulative_agrees_with_posterior_witness :
  let self := extend_dataB [[PyStr "x"; of_Z 2]] fresh in
  ("B"%string = "A"%string \/ "B"%string = "B"%string) /\
  make_cum_post_para "B" self = Raised TypeError /\
  post_parameters None "B" self = Raised TypeError.
Proof.
  intros self.
  assert (Hg : "B"%string = "A"%string \/ "B"%string = "B"%string)
    by (right; reflexivity).
  split; [exact Hg|].
  split; [reflexivity|].
  exact (cumulative_agrees_with_posterior self Hg).
Defined.

(** ** Further properties: sampling *)

Lemma run_posterior_proper
    (DataFrame_append : Pd.DataFrame -> list value -> option exn)
    (cs : list call) (group : string) :
  Forall counts_call cs ->
  group = "A"%string \/ group = "B"%string ->
  exists a b,
    post_parameters None group (run DataFrame_append cs fresh)
    = Returned (PyInt a, PyInt b) /\
    (0 < a)%Z /\ (0 < b)%Z.
Proof.
  intros Hcs Hgroup.
  destruct (@run_keeps_positive DataFrame_append cs fresh Hcs fresh_positive)
    as [HA HB].
  destruct Hgroup as [-> | ->].
  - apply positive_seeded_posterior
      with (dataA (run DataFrame_append cs fresh)); [|exact HA].
    right; left; repeat split.
  - apply positive_seeded_posterior
      with (dataB (run DataFrame_append cs fresh)); [|exact HB].
    right; right; repeat split.
Qed.

Lemma subtract_same_length (a b : list spec_float) :
  List.length a = List.length b ->
  exists diff,
    np_subtract a b = Returned diff /\
    List.length diff = List.length a /\
    forall i, (i < List.length a)%nat ->
      nth i diff S754_nan
      = SFsub prec emax (nth i a S754_nan) (nth i b S754_nan).
Proof.
  intros Hlen; unfold np_subtract.
  rewrite (proj2 (Nat.eqb_eq _ _) Hlen).
  eexists; split; [reflexivity|].
  split; [rewrite length_map, length_combine; lia|].
  revert b Hlen; induction a as [|x a IH]; intros b Hlen i Hi;
    [cbn in Hi; lia|].
  destruct b as [|y b]; [discriminate Hlen|].
  destruct i as [|i]; [reflexivity|].
  cbn [combine map nth]; apply IH; cbn in Hlen, Hi; lia.
Qed.

(** X18.  Sampling never meets improper shape parameters on ledgers of
    counts.  On the instance built with the Bayes-Laplace prior, after any
    sequence of observed-count calls with Python integers that are not
    negative and of ingestions of tables of such counts, [make_rvs] for
    group A or B is one call of the Beta sampler, at the generator state it
    was given, with the requested size and with two Python integers a > 0
    and b > 0, the posterior parameters, as shape parameters; it returns or
    raises what that call returns or raises. *)
Theorem make_rvs_on_counts
    (DataFrame_append : Pd.DataFrame -> list value -> option exn)
    (self : BaysBernoulli) (cs : list call) (group : string) :
  __init__ "Bayes-Laplace" = Returned self ->
  Forall counts_call cs ->
  group = "A"%string \/ group = "B"%string ->
  exists a b,
    (0 < a)%Z /\ (0 < b)%Z /\
    post_parameters None group (run DataFrame_append cs self)
    = Returned (PyInt a, PyInt b) /\
    forall (rng : Type)
           (beta_rvs :
              rng -> value -> value -> Z -> outcome (list spec_float) * rng)
           (N_sample : Z) (g : rng),
      make_rvs beta_rvs None group N_sample (run DataFrame_append cs self) g
      = beta_rvs g (PyInt a) (PyInt b) N_sample.
Proof.
  intros Hinit Hcs Hgroup.
  assert (Hself : self = fresh)
    by (vm_compute in Hinit; injection Hinit as <-; reflexivity).
  subst self.
  destruct (@run_posterior_proper DataFrame_append cs group Hcs Hgroup)
    as (a & b & Hpost & Ha & Hb).
  exists a, b; split; [exact Ha|]; split; [exact Hb|]; split; [exact Hpost|].
  intros rng beta_rvs N_sample g.
  unfold make_rvs; rewrite Hpost; reflexivity.
Qed.

Lemma make_rvs_on_counts_witness :
  let cs := [AddExperiment (PyInt 8) (PyInt 2) "B";
             AddData demo_frame "group"] in
  __init__ "Bayes-Laplace" = Returned fresh /\
  Forall counts_call cs /\
  ("B"%string = "A"%string \/ "B"%string = "B"%string) /\
  exists a b,
    (0 < a)%Z /\ (0 < b)%Z /\
    post_parameters None "B" (run append_returns cs fresh)
    = Returned (PyInt a, PyInt b) /\
    make_rvs mean_sampler None "B" 4 (run append_returns cs fresh) 0%nat
    = mean_sampler 0%nat (PyInt a) (PyInt b) 4.
Proof.
  intros cs.
  assert (Hinit : __init__ "Bayes-Laplace" = Returned fresh) by reflexivity.
  assert (Hnd : NoDup ["group"%string; "hits"%string; "fails"%string]).
  { repeat constructor; cbn [In];
      intros H; repeat destruct H as [H | H]; try discriminate H; exact H. }
  assert (Hframe : counts_frame demo_frame "group").
  { split; [split; [exact Hnd | repeat constructor]|].
    exists 0%nat; split; [reflexivity|].
    repeat constructor.
    - exists (8, 2)%Z; split; [reflexivity|]; split; discriminate.
    - exists (5, 5)%Z; split; [reflexivity|]; split; discriminate.
    - exists (3, 7)%Z; split; [reflexivity|]; split; discriminate. }
  assert (Hcs : Forall counts_call cs).
  { apply Forall_cons; [split; discriminate|].
    apply Forall_cons; [exact Hframe | apply Forall_nil]. }
  assert (Hg : "B"%string = "A"%string \/ "B"%string = "B"%string)
    by (right; reflexivity).
  split; [exact Hinit|].
  split; [exact Hcs|].
  split; [exact Hg|].
  destruct (@make_rvs_on_counts append_returns fresh cs "B" Hinit Hcs Hg)
    as (a & b & Ha & Hb & Hpost & Hrvs).
  exists a, b; split; [exact Ha|]; split; [exact Hb|]; split; [exact Hpost|].
  exact (Hrvs nat mean_sampler 4%Z 0%nat).
Defined.

(** X19.  The difference sample on ledgers of counts.  Under the same
    conditions [make_diff] draws for group A, then for group B from the
    generator state that the first draw left, each time with Python
    integers a > 0 and b > 0 as shape parameters.  When the first draw
    raises, the second is not made and [make_diff] raises the same
    exception; when both return equally many draws, [make_diff] returns as
    many differences, entry i being the float difference of the entries i
    of the two samples, and leaves the state that the second draw left. *)
Theorem make_diff_on_counts
    (rng : Type)
    (beta_rvs : rng -> value -> value -> Z -> outcome (list spec_float) * rng)
    (DataFrame_append : Pd.DataFrame -> list value -> option exn)
    (self : BaysBernoulli) (cs : list call) (N_sample : Z) (g : rng) :
  __init__ "Bayes-Laplace" = Returned self ->
  Forall counts_call cs ->
  exists aA bA aB bB,
    (0 < aA)%Z /\ (0 < bA)%Z /\ (0 < aB)%Z /\ (0 < bB)%Z /\
    (forall e g1,
       beta_rvs g (PyInt aA) (PyInt bA) N_sample = (Raised e, g1) ->
       make_diff beta_rvs N_sample (run DataFrame_append cs self) g
       = (Raised e, g1)) /\
    (forall rvs_A g1 rvs_B g2,
       beta_rvs g (PyInt aA) (PyInt bA) N_sample = (Returned rvs_A, g1) ->
       beta_rvs g1 (PyInt aB) (PyInt bB) N_sample = (Returned rvs_B, g2) ->
       List.length rvs_A = List.length rvs_B ->
       exists diff,
         make_diff beta_rvs N_sample (run DataFrame_append cs self) g
         = (Returned diff, g2) /\
         List.length diff = List.length rvs_A /\
         forall i, (i < List.length rvs_A)%nat ->
           nth i diff S754_nan
           = SFsub prec emax (nth i rvs_A S754_nan) (nth i rvs_B S754_nan)).
Proof.
  intros Hinit Hcs.
  assert (Hself : self = fresh)
    by (vm_compute in Hinit; injection Hinit as <-; reflexivity).
  subst self.
  destruct (@run_posterior_proper DataFrame_append cs "A" Hcs
              (or_introl eq_refl)) as (aA & bA & HpA & HaA & HbA).
  destruct (@run_posterior_proper DataFrame_append cs "B" Hcs
              (or_intror eq_refl)) as (aB & bB & HpB & HaB & HbB).
  exists aA, bA, aB, bB.
  split; [exact HaA|]; split; [exact HbA|];
    split; [exact HaB|]; split; [exact HbB|].
  split.
  - intros e g1 HA.
    unfold make_diff, make_rvs; rewrite HpA; cbn [fst snd].
    now rewrite HA.
  - intros rvs_A g1 rvs_B g2 HA HB Hlen.
    destruct (@subtract_same_length rvs_A rvs_B Hlen)
      as (diff & Hsub & Hld & Hnth).
    exists diff; split; [|split; [exact Hld | exact Hnth]].
    unfold make_diff, make_rvs; rewrite HpA; cbn [fst snd].
    rewrite HA, HpB; cbn [fst snd].
    now rewrite HB, Hsub.
Qed.

Lemma make_diff_on_counts_witness :
  let cs := [AddExperiment (PyInt 8) (PyInt 2) "B";
             AddData demo_frame "group"] in
  __init__ "Bayes-Laplace" = Returned fresh /\
  Forall counts_call cs /\
  exists diff,
    make_diff mean_sampler 4 (run append_returns cs fresh) 0%nat
    = (Returned diff, 2%nat) /\
    List.length diff = 4%nat.
Proof.
  intros cs.
  assert (Hinit : __init__ "Bayes-Laplace" = Returned fresh) by reflexivity.
  assert (Hnd : NoDup ["group"%string; "hits"%string; "fails"%string]).
  { repeat constructor; cbn [In];
      intros H; repeat destruct H as [H | H]; try discriminate H; exact H. }
  assert (Hframe : counts_frame demo_frame "group").
  { split; [split; [exact Hnd | repeat constructor]|].
    exists 0%nat; split; [reflexivity|].
    repeat constructor.
    - exists (8, 2)%Z; split; [reflexivity|]; split; discriminate.
    - exists (5, 5)%Z; split; [reflexivity|]; split; discriminate.
    - exists (3, 7)%Z; split; [reflexivity|]; split; discriminate. }
  assert (Hcs : Forall counts_call cs).
  { apply Forall_cons; [split; discriminate|].
    apply Forall_cons; [exact Hframe | apply Forall_nil]. }
  split; [exact Hinit|].
  split; [exact Hcs|].
  destruct (@make_diff_on_counts nat mean_sampler append_returns fresh cs 4
              0%nat Hinit Hcs)
    as (aA & bA & aB & bB & HaA & HbA & HaB & HbB & _ & Hret).
  assert (HA : mean_sampler 0 (PyInt aA) (PyInt bA) 4
               = (Returned
                    (repeat (SFdiv prec emax (Py.int_to_sf aA)
                               (Py.int_to_sf (aA + bA))) 4), 1%nat)).
  { unfold mean_sampler.
    destruct (Z.ltb_spec 0 aA) as [_|]; [|lia].
    destruct (Z.ltb_spec 0 bA) as [_|]; [|lia].
    reflexivity. }
  assert (HB : mean_sampler 1 (PyInt aB) (PyInt bB) 4
               = (Returned
                    (repeat (SFdiv prec emax (Py.int_to_sf aB)
                               (Py.int_to_sf (aB + bB))) 4), 2%nat)).
  { unfold mean_sampler.
    destruct (Z.ltb_spec 0 aB) as [_|]; [|lia].
    destruct (Z.ltb_spec 0 bB) as [_|]; [|lia].
    reflexivity. }
  destruct (Hret _ _ _ _ HA HB eq_refl) as (diff & Hdiff & Hlen & _).
  exists diff; split; [exact Hdiff | exact Hlen].
Defined.
